(** * openai-rtc-demo: the control-channel dispatcher, the function registry
      and the signaling worker, embedded from the TypeScript sources

    - [src/functions/index.ts]      the function registry          ([Registry])
    - [src/app/page.tsx]            the data-channel dispatcher    ([Page])
    - [src/workers/webrtc.worker.ts] the signaling worker          ([Worker])
*)

From Stdlib Require Import ZArith String Ascii List.
From stdpp Require Import base option list strings pretty.

Local Open Scope string_scope.
Local Open Scope list_scope.

Set Warnings "-register-all".

(* ================================================================== *)
(** * JavaScript data *)
(* ================================================================== *)

(** Values the program handles at run time: the trees [JSON.parse] yields,
    plus [undefined] (the value of a missing property).  A number is kept
    as an integer: the only arithmetic of the sources is on [Math.floor]
    results, and a number received from the peer is only ever passed on.
    A string is kept as its UTF-8 text; the sources concatenate strings,
    compare them and test them for emptiness, which the encoding
    preserves.  The fields of an object are in insertion order, under
    distinct keys. *)
Inductive JSValue : Type :=
| JUndefined
| JNull
| JBool (b : bool)
| JNumber (n : Z)
| JString (s : string)
| JArray (items : list JSValue)
| JObject (fields : list (string * JSValue)).

(** What a [throw] carries: an [Error] object (its [name] and [message],
    which is all the sources read of it) or another value, taken among the
    data above. *)
Inductive Thrown : Type :=
| ThrownError (name message : string)
| ThrownValue (v : JSValue).

(** The outcome of evaluating an expression or statement that may throw. *)
Inductive Completion (A : Type) : Type :=
| Normal (a : A)
| Throw (e : Thrown).
Arguments Normal {A} a.
Arguments Throw {A} e.

(** The state a promise ends in; [Unsettled] is a promise that never
    settles (a handler that never returns). *)
Inductive Promise (A : Type) : Type :=
| Fulfilled (a : A)
| Rejected (e : Thrown)
| Unsettled.
Arguments Fulfilled {A} a.
Arguments Rejected {A} e.
Arguments Unsettled {A}.

(** [String(v)] and the conversion of a template literal [`${v}`]. *)
Fixpoint ToString (v : JSValue) : string :=
  match v with
  | JUndefined => "undefined"
  | JNull => "null"
  | JBool true => "true"
  | JBool false => "false"
  | JNumber n => pretty n
  | JString s => s
  | JArray items =>
      (fix join (l : list JSValue) : string :=
         match l with
         | [] => ""
         | x :: rest =>
             let here := match x with
                         | JUndefined | JNull => ""
                         | _ => ToString x
                         end in
             match rest with
             | [] => here
             | _ :: _ => here +:+ "," +:+ join rest
             end
         end) items
  | JObject _ => "[object Object]"
  end.

(** [String(error)] and [`${error}`] for a caught value:
    [Error.prototype.toString] joins the name and the message. *)
Definition Thrown_toString (e : Thrown) : string :=
  match e with
  | ThrownError name message =>
      if decide (name = "") then message
      else if decide (message = "") then name
      else name +:+ ": " +:+ message
  | ThrownValue v => ToString v
  end.

(** [error instanceof Error ? error.message : other] *)
Definition message_or (e : Thrown) (other : Thrown -> string) : string :=
  match e with
  | ThrownError _ message => message
  | ThrownValue _ => other e
  end.

(** Truthiness of an optional string ([result.error ? .. : ..],
    [workerError || ".."]): absent and empty are falsy. *)
Definition truthy_string (o : option string) : bool :=
  match o with
  | Some s => negb (String.eqb s "")
  | None => false
  end.

(** [if (v)], [!v], [a && b] on any value *)
Definition truthy (v : JSValue) : bool :=
  match v with
  | JUndefined | JNull => false
  | JBool b => b
  | JNumber n => negb (n =? 0)%Z
  | JString s => negb (String.eqb s "")
  | JArray _ | JObject _ => true
  end.

(** [o.k] for the keys the sources read ([type], [delta], [transcript],
    [id], [function], [name], [arguments], [location], [units]; no
    prototype defines any of them): an own property of an object, else
    [undefined]; reading a property of [null] or [undefined] throws a
    [TypeError]. *)
Fixpoint own_property (fields : list (string * JSValue)) (k : string) : JSValue :=
  match fields with
  | [] => JUndefined
  | (k', v) :: rest => if String.eqb k' k then v else own_property rest k
  end.

Definition get (o : JSValue) (k : string) : Completion JSValue :=
  match o with
  | JUndefined =>
      Throw (ThrownError "TypeError"
               ("Cannot read properties of undefined (reading '" +:+ k +:+ "')"))
  | JNull =>
      Throw (ThrownError "TypeError"
               ("Cannot read properties of null (reading '" +:+ k +:+ "')"))
  | JObject fields => Normal (own_property fields k)
  | _ => Normal JUndefined
  end.

(** [o?.k] *)
Definition get_opt (o : JSValue) (k : string) : JSValue :=
  match get o k with
  | Normal v => v
  | Throw _ => JUndefined
  end.

(** [v === "s"] *)
Definition is_string (v : JSValue) (s : string) : bool :=
  match v with
  | JString t => String.eqb t s
  | _ => false
  end.

(* ================================================================== *)
(** * [Map]: insertion-ordered, one entry per key *)
(* ================================================================== *)

Module JSMap.
Section JSMap.
Context {K V : Type} `{EqDecision K}.

Definition t := list (K * V).

Definition empty : t := [].

(** [m.get(k)] *)
Fixpoint get (m : t) (k : K) : option V :=
  match m with
  | [] => None
  | (k', v) :: rest => if decide (k' = k) then Some v else get rest k
  end.

(** [m.set(k, v)]: an existing key keeps its place and takes the new
    value, a new key goes last. *)
Fixpoint set (m : t) (k : K) (v : V) : t :=
  match m with
  | [] => [(k, v)]
  | (k', v') :: rest =>
      if decide (k' = k) then (k', v) :: rest else (k', v') :: set rest k v
  end.

(** [m.delete(k)] *)
Fixpoint delete (m : t) (k : K) : t :=
  match m with
  | [] => []
  | (k', v') :: rest =>
      if decide (k' = k) then rest else (k', v') :: delete rest k
  end.

(** [Array.from(m.values())], [m.keys()], [m.size] *)
Definition values (m : t) : list V := m.*2.
Definition keys (m : t) : list K := m.*1.
Definition size (m : t) : nat := length m.

End JSMap.
Arguments t : clear implicits.
End JSMap.

(* ================================================================== *)
(** * The host platform *)
(* ================================================================== *)

(** A [Date] is its time value, in milliseconds. *)
Definition Date := Z.

(** What the browser supplies and the sources only call.  [JSON_parse]
    throws its [SyntaxError] on a text that is not JSON; [JSON_stringify]
    is applied to parsed events and to the objects the sources build. *)
Class Platform := {
  JSON_parse : string -> Completion JSValue;
  JSON_stringify : JSValue -> string;
  toISOString : Date -> string;
}.

(** [Math.random()]: the draws of one task, numbered in call order.  The
    result is in [0, 1), so [Math.floor(Math.random() * k)] is one of
    [0 .. k-1]. *)
Definition Random := nat -> Z.

Definition floor_random (rnd : Random) (i : nat) (k : Z) : Z := (rnd i `mod` k)%Z.

(** [a[i]] on an array literal *)
Definition index (a : list string) (i : Z) : JSValue :=
  match a !! Z.to_nat i with
  | Some s => JString s
  | None => JUndefined
  end.

(** [const { location, units = 'celsius' } = args] followed by the mock
    data both [weatherFunctionHandler] and [executeFunction] build.  The
    destructuring throws on [null] and [undefined], as a property read. *)
Definition mock_weather `{Platform} (now : Date) (rnd : Random) (args : JSValue)
  : Completion JSValue :=
  match get args "location", get args "units" with
  | Normal location, Normal units0 =>
      let units := match units0 with JUndefined => JString "celsius" | u => u end in
      Normal (JObject
        [ ("location", location);
          ("temperature",
            JNumber (if is_string units "celsius"
                     then floor_random rnd 0 15 + 15
                     else floor_random rnd 0 30 + 60));
          ("condition",
            index ["晴れ"; "曇り"; "雨"; "雪"; "霧"] (floor_random rnd 1 5));
          ("humidity", JNumber (floor_random rnd 2 50 + 30));
          ("windSpeed", JNumber (floor_random rnd 3 20 + 5));
          ("units", units);
          ("timestamp", JString (toISOString now)) ])
  | Throw e, _ | _, Throw e => Throw e
  end.

(* ================================================================== *)
(** * [src/functions/index.ts]: the function registry *)
(* ================================================================== *)

Module Registry.

(** [FunctionDefinition], with the schema of its [parameters] *)
Record PropertySchema := {
  prop_type : string;
  prop_description : string;
  prop_enum : option (list string);
}.

Record ParameterSchema := {
  param_type : string;
  properties : list (string * PropertySchema);
  required : option (list string);
}.

Record FunctionDefinition := {
  def_name : string;
  description : string;
  parameters : ParameterSchema;
}.

Record FunctionCall := {
  call_id : string;
  call_name : string;
  call_arguments : JSValue;
}.

(** [error?: string] is [None] when the field is absent. *)
Record FunctionResult := {
  res_id : string;
  res_name : string;
  res_result : JSValue;
  res_error : option string;
}.

(** [(args) => Promise<any>].  A handler is effectful: it runs at some
    time, with some random draws, and its promise is fulfilled, rejected
    (a [throw] in its body included) or never settles. *)
Definition FunctionHandler := Date -> Random -> JSValue -> Promise JSValue.

Record Entry := {
  definition : FunctionDefinition;
  handler : FunctionHandler;
}.

(** The private field [functions] of the class is its whole state. *)
Definition FunctionRegistry := JSMap.t string Entry.

Definition new : FunctionRegistry := JSMap.empty.

Definition register (definition : FunctionDefinition) (handler : FunctionHandler)
    (this : FunctionRegistry) : FunctionRegistry :=
  JSMap.set this (def_name definition)
    {| definition := definition; handler := handler |}.

Definition getAllDefinitions (this : FunctionRegistry) : list FunctionDefinition :=
  definition <$> JSMap.values this.

(** [execute]: the promise the [async] method returns. *)
Definition execute (this : FunctionRegistry) (now : Date) (rnd : Random)
    (functionCall : FunctionCall) : Promise FunctionResult :=
  match JSMap.get this (call_name functionCall) with
  | None =>
      Fulfilled {| res_id := call_id functionCall;
                   res_name := call_name functionCall;
                   res_result := JNull;
                   res_error := Some ("Function '" +:+ call_name functionCall
                                      +:+ "' not found") |}
  | Some func =>
      match handler func now rnd (call_arguments functionCall) with
      | Fulfilled result =>
          Fulfilled {| res_id := call_id functionCall;
                       res_name := call_name functionCall;
                       res_result := result;
                       res_error := None |}
      | Rejected error =>
          Fulfilled {| res_id := call_id functionCall;
                       res_name := call_name functionCall;
                       res_result := JNull;
                       res_error := Some (message_or error Thrown_toString) |}
      | Unsettled => Unsettled
      end
  end.

Definition weatherFunctionDefinition : FunctionDefinition :=
  {| def_name := "get_weather";
     description := "指定した場所の現在の天気情報を取得します。";
     parameters :=
       {| param_type := "object";
          properties :=
            [ ("location",
                {| prop_type := "string";
                   prop_description := "都市名や住所など、天気を知りたい場所";
                   prop_enum := None |});
              ("units",
                {| prop_type := "string";
                   prop_description := "温度の単位";
                   prop_enum := Some ["celsius"; "fahrenheit"] |}) ];
          required := Some ["location"] |} |}.

Definition weatherFunctionHandler `{Platform} : FunctionHandler :=
  fun now rnd args =>
    match mock_weather now rnd args with
    | Normal mockWeatherData => Fulfilled mockWeatherData
    | Throw e => Rejected e
    end.

(** The singleton, after the registration at module load. *)
Definition functionRegistry `{Platform} : FunctionRegistry :=
  register weatherFunctionDefinition weatherFunctionHandler new.

(** A registry as the program can build one: [new], then registrations. *)
Definition register_all (rs : list (FunctionDefinition * FunctionHandler))
    (this : FunctionRegistry) : FunctionRegistry :=
  foldl (fun r dh => register dh.1 dh.2 r) this rs.

(** Every entry is filed under the name of its own definition, once. *)
Definition well_keyed (this : FunctionRegistry) : Prop :=
  NoDup (JSMap.keys this) /\
  Forall (fun ke => def_name (definition ke.2) = ke.1) this.

Definition named (n : string) (ds : list FunctionDefinition) : list FunctionDefinition :=
  filter (fun d => def_name d = n) ds.

End Registry.

(* ================================================================== *)
(** * [src/workers/types.ts]: the messages between page and worker *)
(* ================================================================== *)

Inductive WorkerMessageType :=
| INIT_CONNECTION
| TOKEN_RECEIVED
| GET_REMOTE_DESCRIPTION
| REMOTE_DESCRIPTION_RECEIVED
| FORMAT_MESSAGE
| MESSAGE_FORMATTED
| FUNCTION_CALL
| FUNCTION_RESULT
| SEND_TO_DATA_CHANNEL
| ERROR
| DEBUG_LOG.

Definition type_name (t : WorkerMessageType) : string :=
  match t with
  | INIT_CONNECTION => "INIT_CONNECTION"
  | TOKEN_RECEIVED => "TOKEN_RECEIVED"
  | GET_REMOTE_DESCRIPTION => "GET_REMOTE_DESCRIPTION"
  | REMOTE_DESCRIPTION_RECEIVED => "REMOTE_DESCRIPTION_RECEIVED"
  | FORMAT_MESSAGE => "FORMAT_MESSAGE"
  | MESSAGE_FORMATTED => "MESSAGE_FORMATTED"
  | FUNCTION_CALL => "FUNCTION_CALL"
  | FUNCTION_RESULT => "FUNCTION_RESULT"
  | SEND_TO_DATA_CHANNEL => "SEND_TO_DATA_CHANNEL"
  | ERROR => "ERROR"
  | DEBUG_LOG => "DEBUG_LOG"
  end.

(** [data] is whatever was posted; an absent [data] is [undefined]. *)
Record MainToWorkerMessage := {
  to_worker_type : WorkerMessageType;
  to_worker_data : JSValue;
}.

Record WorkerToMainMessage := {
  to_main_type : WorkerMessageType;
  to_main_data : JSValue;
  to_main_error : option string;
}.

(* ================================================================== *)
(** * [src/workers/webrtc.worker.ts]: the signaling worker *)
(* ================================================================== *)

Module Worker.

(** A [fetch] call and the response it resolves to. *)
Record Request := {
  url : string;
  method : string;
  body : option string;
  headers : list (string * string);
}.

Record Response := {
  status : Z;
  text : string;
}.

(** [response.ok]: the status is in the range 200-299. *)
Definition ok (r : Response) : bool := ((200 <=? status r) && (status r <=? 299))%Z.

(** The remote side: each request is answered, or the call fails. *)
Definition Network := Request -> Completion Response.

(** What a task of the worker does to the outside, in order. *)
Inductive Effect :=
| Fetched (r : Request)
| Posted (m : WorkerToMainMessage).

(** A worker computation: its effects so far and how it completes. *)
Definition W (A : Type) : Type := list Effect * Completion A.

#[global] Instance W_ret : MRet W := fun A a => ([], Normal a).
#[global] Instance W_bind : MBind W := fun A B f m =>
  match m with
  | (es, Normal a) => let '(es', r) := f a in (es ++ es', r)
  | (es, Throw e) => (es, Throw e)
  end.

Definition throw {A} (e : Thrown) : W A := ([], Throw e).

Definition lift {A} (c : Completion A) : W A := ([], c).

(** [try { body } catch (error) { handler(error) }] *)
Definition try_catch {A} (body : W A) (handler : Thrown -> W A) : W A :=
  match body with
  | (es, Normal a) => (es, Normal a)
  | (es, Throw e) => let '(es', r) := handler e in (es ++ es', r)
  end.

Definition postMessage (m : WorkerToMainMessage) : W unit := ([Posted m], Normal tt).

Definition fetch (net : Network) (r : Request) : W Response := ([Fetched r], net r).

Section Worker.
Context `{Platform}.
(** [self.location.origin], the clock and the network of one task *)
Variable origin : string.
Variable now : Date.
Variable net : Network.

Definition log (message : string) : W unit :=
  postMessage {| to_main_type := DEBUG_LOG;
                 to_main_data := JString (toISOString now +:+ ": " +:+ message);
                 to_main_error := None |}.

Definition getSessionToken : W JSValue :=
  try_catch
    (log "Requesting session token...";;
     tokenResponse ← fetch net {| url := origin +:+ "/api/session";
                                  method := "GET";
                                  body := None;
                                  headers := [] |};
     data ← lift (JSON_parse (text tokenResponse));
     client_secret ← lift (get data "client_secret");
     if negb (truthy (get_opt client_secret "value"))
     then throw (ThrownError "Error" "Failed to get valid session token")
     else
       log "Received session token";;
       mret (get_opt client_secret "value"))
    (fun error =>
       let errorMessage := message_or error (fun _ => "Failed to get session token") in
       log ("Error: " +:+ errorMessage);;
       throw error).

Definition getRemoteDescription (offer : string) (token : JSValue) : W string :=
  log "Getting remote description...";;
  let baseUrl := "https://api.openai.com/v1/realtime" in
  let model := "gpt-4o-mini-realtime-preview-2024-12-17" in
  log ("Making request to: " +:+ baseUrl +:+ "?model=" +:+ model);;
  log ("Using offer SDP: " +:+ String.substring 0 100 offer +:+ "...");;
  sdpResponse ← fetch net
    {| url := baseUrl +:+ "?model=" +:+ model;
       method := "POST";
       body := Some offer;
       headers := [ ("Authorization", "Bearer " +:+ ToString token);
                    ("Content-Type", "application/sdp") ] |};
  (if negb (ok sdpResponse)
   then
     let responseText := text sdpResponse in
     log ("Response error (" +:+ pretty (status sdpResponse) +:+ "): "
          +:+ responseText);;
     throw (ThrownError "Error"
              ("Failed to get remote description: "
               +:+ pretty (status sdpResponse) +:+ " - " +:+ responseText))
   else mret tt);;
  log "Response is OK, getting SDP answer...";;
  (if negb (ok sdpResponse)
   then throw (ThrownError "Error"
                 ("Failed to get remote description: "
                  +:+ pretty (status sdpResponse)))
   else mret tt);;
  log "Received answer from OpenAI";;
  mret (text sdpResponse).

Definition formatUserMessage (message : string) : JSValue :=
  JObject
    [ ("type", JString "conversation.item.create");
      ("item", JObject
         [ ("type", JString "message");
           ("role", JString "user");
           ("content", JArray
              [ JObject [ ("type", JString "input_text");
                          ("text", JString message) ] ]) ]) ].

Definition formatResponseRequest : JSValue :=
  JObject
    [ ("type", JString "response.create");
      ("response", JObject [ ("modalities", JArray [ JString "text" ]) ]) ].

(** [self.onmessage] *)
Definition onmessage (event : MainToWorkerMessage) : W unit :=
  let type := to_worker_type event in
  let data := to_worker_data event in
  try_catch
    (match type with
     | INIT_CONNECTION =>
         token ← getSessionToken;
         postMessage {| to_main_type := TOKEN_RECEIVED;
                        to_main_data := JObject [ ("token", token) ];
                        to_main_error := None |}
     | GET_REMOTE_DESCRIPTION =>
         match get_opt data "content" with
         | JString content =>
             answer ← getRemoteDescription content (get_opt data "token");
             postMessage {| to_main_type := REMOTE_DESCRIPTION_RECEIVED;
                            to_main_data := JObject [ ("sdp", JString answer) ];
                            to_main_error := None |}
         | _ => mret tt
         end
     | FORMAT_MESSAGE =>
         match get_opt data "content" with
         | JString content =>
             let userMessage := formatUserMessage content in
             let responseRequest := formatResponseRequest in
             postMessage {| to_main_type := MESSAGE_FORMATTED;
                            to_main_data :=
                              JObject [ ("userMessage", userMessage);
                                        ("responseRequest", responseRequest) ];
                            to_main_error := None |}
         | _ => mret tt
         end
     | FUNCTION_RESULT =>
         let functionResult := get_opt data "functionResult" in
         if truthy functionResult then
           log ("Processing function result: " +:+ JSON_stringify functionResult);;
           let functionResponseEvent :=
             JObject
               [ ("type", JString "response.function.response");
                 ("function", JObject
                    [ ("name", get_opt functionResult "name");
                      ("response",
                        if truthy (get_opt functionResult "error")
                        then JObject [ ("error", get_opt functionResult "error") ]
                        else get_opt functionResult "result") ]);
                 ("id", get_opt functionResult "id") ] in
           log ("Sending function response: "
                +:+ JSON_stringify functionResponseEvent);;
           postMessage {| to_main_type := SEND_TO_DATA_CHANNEL;
                          to_main_data := JObject [ ("message", functionResponseEvent) ];
                          to_main_error := None |}
         else mret tt
     | _ => log ("Unknown message type: " +:+ type_name type)
     end)
    (fun error =>
       postMessage {| to_main_type := ERROR;
                      to_main_data := JUndefined;
                      to_main_error :=
                        Some (message_or error (fun _ => "Unknown error occurred")) |}).

(** The request for the remote description, as [getRemoteDescription]
    makes it. *)
Definition remote_description_request (offer : string) (token : JSValue) : Request :=
  {| url := "https://api.openai.com/v1/realtime" +:+ "?model="
            +:+ "gpt-4o-mini-realtime-preview-2024-12-17";
     method := "POST";
     body := Some offer;
     headers := [ ("Authorization", "Bearer " +:+ ToString token);
                  ("Content-Type", "application/sdp") ] |}.

(** The messages a task posts to the page and the requests it makes. *)
Definition posted (w : W unit) : list WorkerToMainMessage :=
  omap (fun e => match e with Posted m => Some m | Fetched _ => None end) w.1.

Definition requests (w : W unit) : list Request :=
  omap (fun e => match e with Fetched r => Some r | Posted _ => None end) w.1.

End Worker.
End Worker.

(* ================================================================== *)
(** * [src/app/page.tsx]: the page and its data-channel dispatcher *)
(* ================================================================== *)

Module Page.

Inductive Role := assistant | user.

Record Message := {
  role : Role;
  content : string;
  timestamp : Date;
}.

(** The fields of a call are whatever the frame carried. *)
Record FunctionCall := {
  call_id : JSValue;
  call_name : JSValue;
  call_arguments : JSValue;
}.

Record FunctionResult := {
  res_id : JSValue;
  res_name : JSValue;
  res_result : JSValue;
  res_error : option string;
}.

Record ActiveFunction := {
  call : FunctionCall;
  startTime : Date;
}.

(** A key of the [Map] of active functions.  A primitive is a key by
    value; an object or an array is a key by identity, and the only
    object ever used is the [id] of a parsed call, which is told apart by
    the number of the timer that call arms. *)
Inductive Key :=
| KUndefined
| KNull
| KBool (b : bool)
| KNumber (n : Z)
| KString (s : string)
| KObject (ref : nat).

#[global] Instance Key_eq_dec : EqDecision Key.
Proof. solve_decision. Defined.

Definition key_of (ref : nat) (v : JSValue) : Key :=
  match v with
  | JUndefined => KUndefined
  | JNull => KNull
  | JBool b => KBool b
  | JNumber n => KNumber n
  | JString s => KString s
  | JArray _ | JObject _ => KObject ref
  end.

Inductive ReadyState := connecting | open | closing | closed.

(** The data channel: its state and the frames handed to [send]. *)
Record RTCDataChannel := {
  readyState : ReadyState;
  sent : list string;
}.

Record RTCPeerConnection := {
  localDescription : option JSValue;
  remoteDescription : option JSValue;
}.

(** A task suspended at an [await] on a [setTimeout] promise. *)
Inductive Suspended :=
| executeFunction_awaits (functionCall : FunctionCall) (key : Key)
| responseRequest_awaits (responseRequest : JSValue).

(** The component state ([useState]), the refs ([useRef]) and what the
    page has handed to its host: messages posted to the worker and
    running timers.  One connection is attempted per page load, so the
    [dc] of the handlers and [dataChannel.current] are the same channel. *)
Record State := {
  messages : list Message;
  inputMessage : string;
  status : string;
  error : option string;
  isDataChannelReady : bool;
  debugLog : list string;
  transcripts : list string;
  activeFunctions : JSMap.t Key ActiveFunction;
  completedFunctions : list FunctionResult;
  peerConnection : option RTCPeerConnection;
  dataChannel : option RTCDataChannel;
  toWorker : list MainToWorkerMessage;
  timers : list (nat * Suspended);
  nextTimer : nat;
}.

Definition initial : State :=
  {| messages := [];
     inputMessage := "";
     status := "Initializing...";
     error := None;
     isDataChannelReady := false;
     debugLog := [];
     transcripts := [];
     activeFunctions := JSMap.empty;
     completedFunctions := [];
     peerConnection := None;
     dataChannel := None;
     toWorker := [];
     timers := [];
     nextTimer := 0 |}.

(** ** State updates *)

Definition setMessages (f : list Message -> list Message) (s : State) : State :=
  {| messages := f (messages s); inputMessage := inputMessage s;
     status := status s; error := error s;
     isDataChannelReady := isDataChannelReady s; debugLog := debugLog s;
     transcripts := transcripts s; activeFunctions := activeFunctions s;
     completedFunctions := completedFunctions s;
     peerConnection := peerConnection s; dataChannel := dataChannel s;
     toWorker := toWorker s; timers := timers s; nextTimer := nextTimer s |}.

Definition setInputMessage (v : string) (s : State) : State :=
  {| messages := messages s; inputMessage := v;
     status := status s; error := error s;
     isDataChannelReady := isDataChannelReady s; debugLog := debugLog s;
     transcripts := transcripts s; activeFunctions := activeFunctions s;
     completedFunctions := completedFunctions s;
     peerConnection := peerConnection s; dataChannel := dataChannel s;
     toWorker := toWorker s; timers := timers s; nextTimer := nextTimer s |}.

Definition setStatus (v : string) (s : State) : State :=
  {| messages := messages s; inputMessage := inputMessage s;
     status := v; error := error s;
     isDataChannelReady := isDataChannelReady s; debugLog := debugLog s;
     transcripts := transcripts s; activeFunctions := activeFunctions s;
     completedFunctions := completedFunctions s;
     peerConnection := peerConnection s; dataChannel := dataChannel s;
     toWorker := toWorker s; timers := timers s; nextTimer := nextTimer s |}.

Definition setError (v : option string) (s : State) : State :=
  {| messages := messages s; inputMessage := inputMessage s;
     status := status s; error := v;
     isDataChannelReady := isDataChannelReady s; debugLog := debugLog s;
     transcripts := transcripts s; activeFunctions := activeFunctions s;
     completedFunctions := completedFunctions s;
     peerConnection := peerConnection s; dataChannel := dataChannel s;
     toWorker := toWorker s; timers := timers s; nextTimer := nextTimer s |}.

Definition setIsDataChannelReady (v : bool) (s : State) : State :=
  {| messages := messages s; inputMessage := inputMessage s;
     status := status s; error := error s;
     isDataChannelReady := v; debugLog := debugLog s;
     transcripts := transcripts s; activeFunctions := activeFunctions s;
     completedFunctions := completedFunctions s;
     peerConnection := peerConnection s; dataChannel := dataChannel s;
     toWorker := toWorker s; timers := timers s; nextTimer := nextTimer s |}.

Definition setDebugLog (f : list string -> list string) (s : State) : State :=
  {| messages := messages s; inputMessage := inputMessage s;
     status := status s; error := error s;
     isDataChannelReady := isDataChannelReady s; debugLog := f (debugLog s);
     transcripts := transcripts s; activeFunctions := activeFunctions s;
     completedFunctions := completedFunctions s;
     peerConnection := peerConnection s; dataChannel := dataChannel s;
     toWorker := toWorker s; timers := timers s; nextTimer := nextTimer s |}.

Definition setTranscripts (f : list string -> list string) (s : State) : State :=
  {| messages := messages s; inputMessage := inputMessage s;
     status := status s; error := error s;
     isDataChannelReady := isDataChannelReady s; debugLog := debugLog s;
     transcripts := f (transcripts s); activeFunctions := activeFunctions s;
     completedFunctions := completedFunctions s;
     peerConnection := peerConnection s; dataChannel := dataChannel s;
     toWorker := toWorker s; timers := timers s; nextTimer := nextTimer s |}.

Definition setActiveFunctions
    (f : JSMap.t Key ActiveFunction -> JSMap.t Key ActiveFunction) (s : State) : State :=
  {| messages := messages s; inputMessage := inputMessage s;
     status := status s; error := error s;
     isDataChannelReady := isDataChannelReady s; debugLog := debugLog s;
     transcripts := transcripts s; activeFunctions := f (activeFunctions s);
     completedFunctions := completedFunctions s;
     peerConnection := peerConnection s; dataChannel := dataChannel s;
     toWorker := toWorker s; timers := timers s; nextTimer := nextTimer s |}.

Definition setCompletedFunctions
    (f : list FunctionResult -> list FunctionResult) (s : State) : State :=
  {| messages := messages s; inputMessage := inputMessage s;
     status := status s; error := error s;
     isDataChannelReady := isDataChannelReady s; debugLog := debugLog s;
     transcripts := transcripts s; activeFunctions := activeFunctions s;
     completedFunctions := f (completedFunctions s);
     peerConnection := peerConnection s; dataChannel := dataChannel s;
     toWorker := toWorker s; timers := timers s; nextTimer := nextTimer s |}.

Definition set_peerConnection (v : option RTCPeerConnection) (s : State) : State :=
  {| messages := messages s; inputMessage := inputMessage s;
     status := status s; error := error s;
     isDataChannelReady := isDataChannelReady s; debugLog := debugLog s;
     transcripts := transcripts s; activeFunctions := activeFunctions s;
     completedFunctions := completedFunctions s;
     peerConnection := v; dataChannel := dataChannel s;
     toWorker := toWorker s; timers := timers s; nextTimer := nextTimer s |}.

Definition set_dataChannel (v : option RTCDataChannel) (s : State) : State :=
  {| messages := messages s; inputMessage := inputMessage s;
     status := status s; error := error s;
     isDataChannelReady := isDataChannelReady s; debugLog := debugLog s;
     transcripts := transcripts s; activeFunctions := activeFunctions s;
     completedFunctions := completedFunctions s;
     peerConnection := peerConnection s; dataChannel := v;
     toWorker := toWorker s; timers := timers s; nextTimer := nextTimer s |}.

Definition set_toWorker (v : list MainToWorkerMessage) (s : State) : State :=
  {| messages := messages s; inputMessage := inputMessage s;
     status := status s; error := error s;
     isDataChannelReady := isDataChannelReady s; debugLog := debugLog s;
     transcripts := transcripts s; activeFunctions := activeFunctions s;
     completedFunctions := completedFunctions s;
     peerConnection := peerConnection s; dataChannel := dataChannel s;
     toWorker := v; timers := timers s; nextTimer := nextTimer s |}.

Definition set_timers (v : list (nat * Suspended)) (n : nat) (s : State) : State :=
  {| messages := messages s; inputMessage := inputMessage s;
     status := status s; error := error s;
     isDataChannelReady := isDataChannelReady s; debugLog := debugLog s;
     transcripts := transcripts s; activeFunctions := activeFunctions s;
     completedFunctions := completedFunctions s;
     peerConnection := peerConnection s; dataChannel := dataChannel s;
     toWorker := toWorker s; timers := v; nextTimer := n |}.

(** ** Computations of a handler: state passing, with [throw] *)

Definition M (A : Type) : Type := State -> State * Completion A.

#[global] Instance M_ret : MRet M := fun A a s => (s, Normal a).
#[global] Instance M_bind : MBind M := fun A B f m s =>
  match m s with
  | (s', Normal a) => f a s'
  | (s', Throw e) => (s', Throw e)
  end.

Definition throw {A} (e : Thrown) : M A := fun s => (s, Throw e).

Definition lift {A} (c : Completion A) : M A := fun s => (s, c).

Definition gets {A} (f : State -> A) : M A := fun s => (s, Normal (f s)).

Definition modify (f : State -> State) : M unit := fun s => (f s, Normal tt).

(** [try { body } catch (error) { handler(error) }] *)
Definition try_catch {A} (body : M A) (handler : Thrown -> M A) : M A := fun s =>
  match body s with
  | (s', Normal a) => (s', Normal a)
  | (s', Throw e) => handler e s'
  end.

(** [!text.trim()]: the text is empty once the white space and line
    terminators of ECMAScript are trimmed, that is, it holds nothing else.
    The multi-byte cases are U+00A0, U+1680, U+2000..U+200A, U+2028,
    U+2029, U+202F, U+205F, U+3000 and U+FEFF in the UTF-8 text. *)
Definition space3 (c d e : nat) : bool :=
  (((c =? 225) && (d =? 154) && (e =? 128))
   || ((c =? 226) && (d =? 128)
       && (((128 <=? e) && (e <=? 138)) || (e =? 168) || (e =? 169) || (e =? 175)))
   || ((c =? 226) && (d =? 129) && (e =? 159))
   || ((c =? 227) && (d =? 128) && (e =? 128))
   || ((c =? 239) && (d =? 187) && (e =? 191)))%nat.

Fixpoint trims_to_empty (text : string) : bool :=
  match text with
  | EmptyString => true
  | String a s1 =>
      let c := nat_of_ascii a in
      if (((9 <=? c) && (c <=? 13)) || (c =? 32))%nat then trims_to_empty s1
      else
        match s1 with
        | EmptyString => false
        | String b s2 =>
            let d := nat_of_ascii b in
            if ((c =? 194) && (d =? 160))%nat then trims_to_empty s2
            else
              match s2 with
              | EmptyString => false
              | String e s3 =>
                  if space3 c d (nat_of_ascii e) then trims_to_empty s3 else false
              end
        end
  end.

(** What the browser answers to the calls of a connection attempt. *)
Record Browser := {
  getUserMedia : Completion unit;
  createOffer : Completion JSValue;
  setLocalDescription : Completion unit;
  setRemoteDescription : Completion unit;
}.

Section Handlers.
Context `{Platform}.
(** The clock of the running task: what [new Date()] reads. *)
Variable now : Date.

(** [console.log] is not kept; the entry of the debug log is. *)
Definition addDebugLog (message : string) : M unit :=
  modify (setDebugLog (fun prev => prev ++ [toISOString now +:+ ": " +:+ message])).

Definition addTranscript (text : string) : M unit :=
  modify (setTranscripts (fun prev => prev ++ [text])).

(** [dataChannel.current?.readyState === "open"] *)
Definition channel_open (s : State) : bool :=
  match dataChannel s with
  | Some dc => match readyState dc with open => true | _ => false end
  | None => false
  end.

(** [dataChannel.current.send(data)]: queues the frame on an open
    channel and throws on any other. *)
Definition send (data : string) : M unit := fun s =>
  match dataChannel s with
  | None =>
      (s, Throw (ThrownError "TypeError"
                   "Cannot read properties of null (reading 'send')"))
  | Some dc =>
      match readyState dc with
      | open =>
          (set_dataChannel
             (Some {| readyState := open; sent := sent dc ++ [data] |}) s,
           Normal tt)
      | _ =>
          (s, Throw (ThrownError "InvalidStateError"
                       "RTCDataChannel.readyState is not 'open'"))
      end
  end.

(** [await new Promise(resolve => setTimeout(resolve, ms))]: the rest of
    the task is parked under a fresh timer. *)
Definition setTimeout (rest : Suspended) : M unit :=
  modify (fun s => set_timers (timers s ++ [(nextTimer s, rest)]) (S (nextTimer s)) s).

Definition postMessage (m : MainToWorkerMessage) : M unit :=
  modify (fun s => set_toWorker (toWorker s ++ [m]) s).

(** *** [dc.onopen], [dc.onclose], [dc.onerror] *)

Definition sessionUpdateEvent : JSValue :=
  JObject
    [ ("type", JString "session.update");
      ("session", JObject
         [ ("tools", JArray
              [ JObject
                  [ ("type", JString "function");
                    ("name", JString "get_weather");
                    ("description",
                      JString "指定した場所の現在の天気情報を取得します。");
                    ("parameters", JObject
                       [ ("type", JString "object");
                         ("properties", JObject
                            [ ("location", JObject
                                 [ ("type", JString "string");
                                   ("description",
                                     JString "都市名や住所など、天気を知りたい場所") ]);
                              ("units", JObject
                                 [ ("type", JString "string");
                                   ("enum", JArray [ JString "celsius";
                                                     JString "fahrenheit" ]);
                                   ("description", JString "温度の単位") ]) ]);
                         ("required", JArray [ JString "location" ]) ]) ] ]) ]) ].

Definition dc_onopen : M unit :=
  addDebugLog "Data channel opened";;
  modify (setIsDataChannelReady true);;
  modify (setStatus "Ready");;
  ready ← gets channel_open;
  if ready : bool then
    try_catch
      (addDebugLog "Sending session update with function definitions";;
       send (JSON_stringify sessionUpdateEvent))
      (fun error =>
         addDebugLog ("Error sending session update: " +:+ Thrown_toString error))
  else mret tt.

Definition dc_onclose : M unit :=
  addDebugLog "Data channel closed";;
  modify (setIsDataChannelReady false).

(** [error.toString()] of the event is given by the browser. *)
Definition dc_onerror (error_toString : string) : M unit :=
  let errorMsg := "Data channel error: " +:+ error_toString in
  addDebugLog errorMsg;;
  modify (setError (Some errorMsg)).

(** *** [executeFunction] *)

(** Up to its [await]: the log entry, then the one second timer. *)
Definition executeFunction (functionCall : FunctionCall) (key : Key) : M unit :=
  addDebugLog ("Executing function: " +:+ ToString (call_name functionCall));;
  setTimeout (executeFunction_awaits functionCall key).

(** After the [await]: how the promise of [executeFunction] settles. *)
Definition executeFunction_result (rnd : Random) (functionCall : FunctionCall)
  : Completion FunctionResult :=
  if is_string (call_name functionCall) "get_weather" then
    match mock_weather now rnd (call_arguments functionCall) with
    | Normal result =>
        Normal {| res_id := call_id functionCall;
                  res_name := call_name functionCall;
                  res_result := result;
                  res_error := None |}
    | Throw e => Throw e
    end
  else
    Normal {| res_id := call_id functionCall;
              res_name := call_name functionCall;
              res_result := JNull;
              res_error := Some ("未実装の関数: "
                                 +:+ ToString (call_name functionCall)) |}.

Definition functionResponseEvent (result : FunctionResult) : JSValue :=
  JObject
    [ ("type", JString "response.function.response");
      ("function", JObject
         [ ("name", res_name result);
           ("response",
             if truthy_string (res_error result)
             then JObject [ ("error", match res_error result with
                                      | Some e => JString e
                                      | None => JUndefined
                                      end) ]
             else res_result result) ]);
      ("id", res_id result) ].

(** [executeFunction(functionCall).then(..).catch(..)], run when the
    timer of the call fires. *)
Definition executeFunction_settled (rnd : Random) (functionCall : FunctionCall)
    (key : Key) : M unit :=
  try_catch
    (result ← lift (executeFunction_result rnd functionCall);
     modify (setCompletedFunctions (fun prev => prev ++ [result]));;
     modify (setActiveFunctions (fun prev => JSMap.delete prev key));;
     ready ← gets channel_open;
     if ready : bool then
       addDebugLog ("Sending function response: "
                    +:+ JSON_stringify (functionResponseEvent result));;
       send (JSON_stringify (functionResponseEvent result))
     else mret tt)
    (fun error =>
       addDebugLog ("Error executing function: " +:+ Thrown_toString error)).

(** *** [dc.onmessage] *)

(** The updater of [setMessages] for a text delta. *)
Definition append_delta (delta : string) (prev : list Message) : list Message :=
  match last prev with
  | Some lastMessage =>
      match role lastMessage with
      | assistant =>
          removelast prev
          ++ [ {| role := role lastMessage;
                  content := content lastMessage +:+ delta;
                  timestamp := timestamp lastMessage |} ]
      | user =>
          prev ++ [ {| role := assistant; content := delta; timestamp := now |} ]
      end
  | None =>
      prev ++ [ {| role := assistant; content := delta; timestamp := now |} ]
  end.

Definition dc_onmessage (data : string) : M unit :=
  try_catch
    (realtimeEvent ← lift (JSON_parse data);
     addDebugLog ("Received event: " +:+ JSON_stringify realtimeEvent);;
     type ← lift (get realtimeEvent "type");
     if is_string type "response.function.call" then
       addDebugLog ("Function call received: " +:+ JSON_stringify realtimeEvent);;
       try_catch
         (id ← lift (get realtimeEvent "id");
          function ← lift (get realtimeEvent "function");
          name ← lift (get function "name");
          arguments ← lift (get function "arguments");
          arguments ← lift (JSON_parse (ToString arguments));
          let functionCall :=
            {| call_id := id; call_name := name; call_arguments := arguments |} in
          key ← gets (fun s => key_of (nextTimer s) id);
          modify (setActiveFunctions (fun prev =>
            JSMap.set prev key {| call := functionCall; startTime := now |}));;
          executeFunction functionCall key)
         (fun error =>
            addDebugLog ("Error processing function call: "
                         +:+ Thrown_toString error))
     else
       delta ← lift (get realtimeEvent "delta");
       match is_string type "response.text.delta", delta with
       | true, JString delta => modify (setMessages (append_delta delta))
       | _, _ =>
           transcript ← lift (get realtimeEvent "transcript");
           match is_string type "response.audio_transcript.done", transcript with
           | true, JString transcript => addTranscript transcript
           | _, _ => mret tt
           end
       end)
    (fun error => addDebugLog ("Error parsing event: " +:+ Thrown_toString error)).

(** *** [initializeWebRTC] and the handler of the worker's messages *)

(** The browser calls awaited on the way are taken with their outcome;
    the registration of the handlers above changes no state. *)
Definition initializeWebRTC (browser : Browser) (token : JSValue) : M unit :=
  try_catch
    (modify (set_peerConnection
               (Some {| localDescription := None; remoteDescription := None |}));;
     addDebugLog "Peer connection created";;
     addDebugLog "Getting microphone access...";;
     lift (getUserMedia browser);;
     addDebugLog "Added local audio track";;
     modify (set_dataChannel (Some {| readyState := connecting; sent := [] |}));;
     addDebugLog "Data channel created";;
     addDebugLog "Creating offer...";;
     offer ← lift (createOffer browser);
     lift (setLocalDescription browser);;
     modify (set_peerConnection
               (Some {| localDescription := Some offer; remoteDescription := None |}));;
     addDebugLog "Local description set";;
     sdp ← lift (get offer "sdp");
     postMessage {| to_worker_type := GET_REMOTE_DESCRIPTION;
                    to_worker_data := JObject [ ("content", sdp); ("token", token) ] |})
    (fun error =>
       let errorMessage := message_or error (fun _ => "Failed to initialize WebRTC") in
       addDebugLog ("Error: " +:+ errorMessage);;
       modify (setError (Some errorMessage));;
       modify (setStatus "Error")).

(** The rest of the [MESSAGE_FORMATTED] case, after its 100 ms wait. *)
Definition responseRequest_resumed (responseRequest : JSValue) : M unit :=
  try_catch
    (addDebugLog ("Requesting response: " +:+ JSON_stringify responseRequest);;
     send (JSON_stringify responseRequest);;
     addDebugLog "Message and response request sent successfully")
    (fun error =>
       let errorMsg := message_or error (fun _ => "Failed to send message") in
       addDebugLog ("Error sending message: " +:+ errorMsg);;
       modify (setError (Some errorMsg))).

(** [workerRef.current.onmessage] *)
Definition worker_onmessage (browser : Browser) (event : WorkerToMainMessage)
  : M unit :=
  let type := to_main_type event in
  let data := to_main_data event in
  let workerError := to_main_error event in
  match type with
  | TOKEN_RECEIVED =>
      if truthy (get_opt data "token")
      then initializeWebRTC browser (get_opt data "token")
      else mret tt
  | REMOTE_DESCRIPTION_RECEIVED =>
      current ← gets peerConnection;
      match truthy (get_opt data "sdp"), current with
      | true, Some pc =>
          try_catch
            (lift (setRemoteDescription browser);;
             modify (set_peerConnection
                       (Some {| localDescription := localDescription pc;
                                remoteDescription :=
                                  Some (get_opt data "sdp") |}));;
             addDebugLog "Remote description set";;
             modify (setStatus "Connecting..."))
            (fun error =>
               let errorMsg :=
                 message_or error (fun _ => "Failed to set remote description") in
               addDebugLog ("Error: " +:+ errorMsg);;
               modify (setError (Some errorMsg)))
      | _, _ => mret tt
      end
  | MESSAGE_FORMATTED =>
      let userMessage := get_opt data "userMessage" in
      let responseRequest := get_opt data "responseRequest" in
      ready ← gets channel_open;
      if truthy userMessage && truthy responseRequest && ready then
        try_catch
          (addDebugLog ("Sending message: " +:+ JSON_stringify userMessage);;
           send (JSON_stringify userMessage);;
           setTimeout (responseRequest_awaits responseRequest))
          (fun error =>
             let errorMsg := message_or error (fun _ => "Failed to send message") in
             addDebugLog ("Error sending message: " +:+ errorMsg);;
             modify (setError (Some errorMsg)))
      else mret tt
  | FUNCTION_CALL =>
      let functionCall := get_opt data "functionCall" in
      if truthy functionCall
      then addDebugLog ("Received function call from worker: "
                        +:+ JSON_stringify functionCall)
      else mret tt
  | SEND_TO_DATA_CHANNEL =>
      let message := get_opt data "message" in
      ready ← gets channel_open;
      if truthy message && ready then
        try_catch
          (addDebugLog ("Sending to data channel: " +:+ JSON_stringify message);;
           send (JSON_stringify message))
          (fun error =>
             let errorMsg :=
               message_or error (fun _ => "Failed to send message to data channel") in
             addDebugLog ("Error: " +:+ errorMsg);;
             modify (setError (Some errorMsg)))
      else mret tt
  | ERROR =>
      modify (setError (if truthy_string workerError
                        then workerError
                        else Some "Unknown error occurred"));;
      modify (setStatus "Error")
  | DEBUG_LOG =>
      match data with
      | JString data => addDebugLog data
      | _ => mret tt
      end
  | _ => mret tt
  end.

(** *** [sendMessage] *)

(** [console.error] of the second guard is not kept. *)
Definition sendMessage : M unit :=
  text ← gets inputMessage;
  ready ← gets isDataChannelReady;
  if trims_to_empty text then mret tt
  else if negb ready then mret tt
  else
    modify (setMessages (fun prev =>
      prev ++ [ {| role := user; content := text; timestamp := now |} ]));;
    postMessage {| to_worker_type := FORMAT_MESSAGE;
                   to_worker_data := JObject [ ("content", JString text) ] |};;
    modify (setInputMessage "").

(** ** The tasks of the page *)

(** What the host can run next: an event of the data channel, a timer
    that fires, a message of the worker, the user typing or sending. *)
Inductive Task :=
| DataChannelOpened
| DataChannelClosed
| DataChannelError (error_toString : string)
| DataChannelMessage (data : string)
| TimerFired (id : nat) (rnd : Random)
| WorkerMessage (event : WorkerToMainMessage) (browser : Browser)
| InputChanged (value : string)
| SendClicked.

(** The browser moves the channel to a state before it fires the event. *)
Definition channel_becomes (r : ReadyState) : M unit :=
  modify (fun s =>
    match dataChannel s with
    | Some dc => set_dataChannel (Some {| readyState := r; sent := sent dc |}) s
    | None => s
    end).

Fixpoint take_timer (id : nat) (ts : list (nat * Suspended))
  : option (Suspended * list (nat * Suspended)) :=
  match ts with
  | [] => None
  | (id', k) :: rest =>
      if decide (id' = id) then Some (k, rest)
      else match take_timer id rest with
           | Some (found, rest') => Some (found, (id', k) :: rest')
           | None => None
           end
  end.

Definition handle (t : Task) : M unit :=
  match t with
  | DataChannelOpened => channel_becomes open;; dc_onopen
  | DataChannelClosed => channel_becomes closed;; dc_onclose
  | DataChannelError error_toString => dc_onerror error_toString
  | DataChannelMessage data => dc_onmessage data
  | TimerFired id rnd =>
      ts ← gets timers;
      match take_timer id ts with
      | Some (executeFunction_awaits functionCall key, rest) =>
          modify (fun s => set_timers rest (nextTimer s) s);;
          executeFunction_settled rnd functionCall key
      | Some (responseRequest_awaits responseRequest, rest) =>
          modify (fun s => set_timers rest (nextTimer s) s);;
          responseRequest_resumed responseRequest
      | None => mret tt
      end
  | WorkerMessage event browser => worker_onmessage browser event
  | InputChanged value => modify (setInputMessage value)
  | SendClicked => sendMessage
  end.

End Handlers.

(** One task, run to completion at time [now]; then a whole schedule. *)
Definition step `{Platform} (s : State) (e : Date * Task) : State :=
  (handle e.1 e.2 s).1.

Definition run `{Platform} (es : list (Date * Task)) (s : State) : State :=
  foldl step s es.

(** The frames of the control channel, each with its time of arrival. *)
Definition frames (fs : list (Date * string)) : list (Date * Task) :=
  (fun f => (f.1, DataChannelMessage f.2)) <$> fs.

(** The messages of the worker, handled by the page one after the other
    (each [DEBUG_LOG] and [ERROR] is a task of its own). *)
Definition deliver (now : Date) (browser : Browser) (ms : list WorkerToMainMessage)
  : list (Date * Task) :=
  (fun m => (now, WorkerMessage m browser)) <$> ms.

(** ** Vocabulary of the statements *)

(** The frames handed to [send] so far. *)
Definition outbound (s : State) : list string :=
  match dataChannel s with
  | Some dc => sent dc
  | None => []
  end.

(** The state after [addDebugLog message] at time [now]. *)
Definition logged `{Platform} (now : Date) (message : string) (s : State) : State :=
  setDebugLog (fun prev => prev ++ [toISOString now +:+ ": " +:+ message]) s.

(** A frame that carries a [response.text.delta] event whose [delta] is
    the string [delta]. *)
Definition text_delta `{Platform} (data delta : string) : Prop :=
  exists ev,
    JSON_parse data = Normal ev /\
    get ev "type" = Normal (JString "response.text.delta") /\
    get ev "delta" = Normal (JString delta).

(** A frame that carries a [response.audio_transcript.done] event whose
    [transcript] is the string [transcript]. *)
Definition transcript_done `{Platform} (data transcript : string) : Prop :=
  exists ev,
    JSON_parse data = Normal ev /\
    get ev "type" = Normal (JString "response.audio_transcript.done") /\
    get ev "transcript" = Normal (JString transcript).

(** A frame that carries a well-formed [response.function.call] event: an
    [id] and a function [name] that are strings, and [arguments] that are
    the JSON text of an object. *)
Definition function_call `{Platform} (data : string) (id name : string)
    (fields : list (string * JSValue)) : Prop :=
  exists ev function text,
    JSON_parse data = Normal ev /\
    get ev "type" = Normal (JString "response.function.call") /\
    get ev "id" = Normal (JString id) /\
    get ev "function" = Normal function /\
    get function "name" = Normal (JString name) /\
    get function "arguments" = Normal (JString text) /\
    JSON_parse text = Normal (JObject fields).

(** The call the dispatcher builds from such a frame. *)
Definition the_call (id name : string) (fields : list (string * JSValue))
  : FunctionCall :=
  {| call_id := JString id; call_name := JString name;
     call_arguments := JObject fields |}.

(** The conversation ends with an assistant message, which a further
    text delta continues. *)
Definition continues (ms : list Message) : Prop :=
  role <$> last ms = Some assistant.

(** A task that adds no message to the conversation: any task but a
    text-delta frame and a click on Send. *)
Definition adds_no_message `{Platform} (t : Task) : Prop :=
  match t with
  | DataChannelMessage data => forall delta, ~ text_delta data delta
  | SendClicked => False
  | _ => True
  end.

(** The running timers have distinct numbers, all already handed out. *)
Definition timers_ok (s : State) : Prop :=
  NoDup (timers s).*1 /\ Forall (fun t => t.1 < nextTimer s) (timers s).

(** The timer [id] is running, with [k] parked under it. *)
Definition parked (id : nat) (k : Suspended) (s : State) : Prop :=
  (id, k) ∈ timers s.

(** Is the task the firing of timer [id]? *)
Definition fires (id : nat) (t : Task) : Prop :=
  match t with
  | TimerFired id' _ => id' = id
  | _ => False
  end.

(** A computation every run of which takes a state to one related to it
    by [R]; the two relations used: the conversation is the same, and a
    running timer is still running. *)
Definition moves {A} (R : relation State) (m : M A) : Prop :=
  forall s, R s (m s).1.

(** A relation between a state and a later one that every update of the
    state respects, but possibly those of the conversation and the removal
    of a timer. *)
Class Respected (R : relation State) : Prop := {
  Respected_PreOrder : PreOrder R;
  R_setDebugLog : forall f s, R s (setDebugLog f s);
  R_setTranscripts : forall f s, R s (setTranscripts f s);
  R_setStatus : forall v s, R s (setStatus v s);
  R_setError : forall v s, R s (setError v s);
  R_setIsDataChannelReady : forall v s, R s (setIsDataChannelReady v s);
  R_setInputMessage : forall v s, R s (setInputMessage v s);
  R_setActiveFunctions : forall f s, R s (setActiveFunctions f s);
  R_setCompletedFunctions : forall f s, R s (setCompletedFunctions f s);
  R_set_peerConnection : forall v s, R s (set_peerConnection v s);
  R_set_dataChannel : forall v s, R s (set_dataChannel v s);
  R_set_toWorker : forall v s, R s (set_toWorker v s);
  R_setTimeout :
    forall k s, R s (set_timers (timers s ++ [(nextTimer s, k)]) (S (nextTimer s)) s);
}.

Definition same_messages : relation State :=
  fun s s' => messages s' = messages s.

Definition keeps_timer (id : nat) : relation State :=
  fun s s' =>
    timers_ok s -> timers_ok s' /\ forall k, parked id k s -> parked id k s'.

End Page.

(* ================================================================== *)
(** * [src/app/page.tsx]: the [FunctionStatus] component *)
(* ================================================================== *)

Module FunctionStatus.

(** [a.slice(start)]: a negative [start] counts from the end. *)
Definition slice {A} (start : Z) (a : list A) : list A :=
  let len := Z.of_nat (length a) in
  let from := if (start <? 0)%Z then Z.max (len + start) 0 else Z.min start len in
  drop (Z.to_nat from) a.

(** [completedFunctions.slice(-3).reverse()], the results on display *)
Definition recentCompletedFunctions (completedFunctions : list Page.FunctionResult)
  : list Page.FunctionResult :=
  reverse (slice (-3) completedFunctions).

(** The component returns [null]. *)
Definition renders_nothing (activeFunctions : JSMap.t Page.Key Page.ActiveFunction)
    (completedFunctions : list Page.FunctionResult) : bool :=
  (JSMap.size activeFunctions =? 0)%nat
  && (length (recentCompletedFunctions completedFunctions) =? 0)%nat.

End FunctionStatus.

(* ================================================================== *)
(** * [src/app/api/session/route.ts]: the session token endpoint *)
(* ================================================================== *)

Module Route.

(** [NextResponse.json(body, { status })]; the status is 200 when none is
    given. *)
Record NextResponse := {
  status : Z;
  body : JSValue;
}.

Section Route.
Context `{Platform}.
(** [process.env.OPENAI_API_KEY] and the network of the request *)
Variable OPENAI_API_KEY : option string.
Variable net : Worker.Network.

Definition sessions_request (key : string) : Worker.Request :=
  {| Worker.url := "https://api.openai.com/v1/realtime/sessions";
     Worker.method := "POST";
     Worker.body :=
       Some (JSON_stringify
               (JObject [ ("model", JString "gpt-4o-realtime-preview-2024-12-17");
                          ("voice", JString "verse") ]));
     Worker.headers := [ ("Authorization", "Bearer " +:+ key);
                         ("Content-Type", "application/json") ] |}.

(** [GET]; what [console.error] prints is not kept.  In the branch of a
    refused request, [response.json().catch(() => ({}))] cannot fail and
    its value is only printed.  Past the first guard the key is set. *)
Definition GET : Worker.W NextResponse :=
  if negb (truthy_string OPENAI_API_KEY) then
    mret {| status := 500;
            body := JObject [ ("error", JString "Internal server error") ] |}
  else
    Worker.try_catch
      (response ← Worker.fetch net (sessions_request (default "" OPENAI_API_KEY));
       if negb (Worker.ok response) then
         mret {| status := 500;
                 body := JObject [ ("error", JString "Failed to create session") ] |}
       else
         data ← Worker.lift (JSON_parse (Worker.text response));
         mret {| status := 200; body := data |})
      (fun error =>
         mret {| status := 500;
                 body := JObject [ ("error", JString "Failed to create session") ] |}).

End Route.
End Route.

(* ================================================================== *)
(** * A reference platform, to run the program on concrete frames *)
(* ================================================================== *)

(** The theorems below hold for every [Platform].  To evaluate the
    handlers on actual text, this instance reads and writes JSON whose
    numbers are integer numerals and whose strings use the one-letter
    escapes; it rejects fractional numerals and [\u] escapes. *)
Module Reference.

Definition quote : ascii := "034"%char.
Definition backslash : ascii := "092"%char.

Definition code (a : ascii) : nat := nat_of_ascii a.

Definition is_digit (a : ascii) : bool := ((48 <=? code a) && (code a <=? 57))%nat.

Definition is_space (a : ascii) : bool :=
  ((code a =? 32) || (code a =? 9) || (code a =? 10) || (code a =? 13))%nat.

Fixpoint skip_space (s : string) : string :=
  match s with
  | String a rest => if is_space a then skip_space rest else s
  | EmptyString => s
  end.

(** The digits at the head of [s], as a number, and what follows. *)
Fixpoint digits (acc : Z) (s : string) : Z * string :=
  match s with
  | String a rest =>
      if is_digit a then digits (10 * acc + Z.of_nat (code a - 48)) rest
      else (acc, s)
  | EmptyString => (acc, s)
  end.

(** [int] of the JSON grammar; a fraction or an exponent is refused. *)
Definition natural (s : string) : option (Z * string) :=
  match s with
  | String a rest =>
      if negb (is_digit a) then None
      else
        let '(n, after) := if (code a =? 48)%nat then (0%Z, rest) else digits 0 s in
        match after with
        | String b _ =>
            if ((code b =? 46) || (code b =? 101) || (code b =? 69))%nat
            then None else Some (n, after)
        | EmptyString => Some (n, after)
        end
  | EmptyString => None
  end.

(** The characters of a string literal after its opening quote. *)
Fixpoint chars (s : string) : option (string * string) :=
  match s with
  | EmptyString => None
  | String a rest =>
      if (code a =? 34)%nat then Some (EmptyString, rest)
      else if (code a <? 32)%nat then None
      else if (code a =? 92)%nat then
        match rest with
        | String b rest' =>
            let unescaped :=
              match code b with
              | 34 => Some quote
              | 92 => Some backslash
              | 47 => Some "/"%char
              | 98 => Some "008"%char
              | 102 => Some "012"%char
              | 110 => Some "010"%char
              | 114 => Some "013"%char
              | 116 => Some "009"%char
              | _ => None
              end in
            match unescaped, chars rest' with
            | Some c, Some (body, after) => Some (String c body, after)
            | _, _ => None
            end
        | EmptyString => None
        end
      else
        match chars rest with
        | Some (body, after) => Some (String a body, after)
        | None => None
        end
  end.

Definition literal (word : string) (v : JSValue) (s : string)
  : option (JSValue * string) :=
  if String.prefix word s
  then Some (v, String.substring (String.length word)
                  (String.length s - String.length word) s)
  else None.

(** A value at the head of [s].  A repeated key keeps its first place and
    its last value, as in the object [JSON.parse] builds. *)
Fixpoint value (fuel : nat) (s : string) : option (JSValue * string) :=
  match fuel with
  | O => None
  | S fuel =>
      match skip_space s with
      | String a rest =>
          match code a with
          | 110 => literal "null" JNull (String a rest)
          | 116 => literal "true" (JBool true) (String a rest)
          | 102 => literal "false" (JBool false) (String a rest)
          | 34 =>
              match chars rest with
              | Some (body, after) => Some (JString body, after)
              | None => None
              end
          | 45 =>
              match natural rest with
              | Some (n, after) => Some (JNumber (- n), after)
              | None => None
              end
          | 91 =>
              match skip_space rest with
              | String b after =>
                  if (code b =? 93)%nat then Some (JArray [], after)
                  else
                    match elements fuel rest with
                    | Some (items, after') => Some (JArray items, after')
                    | None => None
                    end
              | EmptyString => None
              end
          | 123 =>
              match skip_space rest with
              | String b after =>
                  if (code b =? 125)%nat then Some (JObject [], after)
                  else
                    match members fuel [] rest with
                    | Some (fields, after') => Some (JObject fields, after')
                    | None => None
                    end
              | EmptyString => None
              end
          | _ =>
              match natural (String a rest) with
              | Some (n, after) => Some (JNumber n, after)
              | None => None
              end
          end
      | EmptyString => None
      end
  end
with elements (fuel : nat) (s : string) : option (list JSValue * string) :=
  match fuel with
  | O => None
  | S fuel =>
      match value fuel s with
      | Some (v, after) =>
          match skip_space after with
          | String b rest =>
              if (code b =? 93)%nat then Some ([v], rest)
              else if (code b =? 44)%nat then
                match elements fuel rest with
                | Some (vs, after') => Some (v :: vs, after')
                | None => None
                end
              else None
          | EmptyString => None
          end
      | None => None
      end
  end
with members (fuel : nat) (seen : list (string * JSValue)) (s : string)
  : option (list (string * JSValue) * string) :=
  match fuel with
  | O => None
  | S fuel =>
      match skip_space s with
      | String q rest =>
          if negb (code q =? 34)%nat then None
          else
            match chars rest with
            | Some (key, after) =>
                match skip_space after with
                | String c rest' =>
                    if negb (code c =? 58)%nat then None
                    else
                      match value fuel rest' with
                      | Some (v, after') =>
                          let seen' := JSMap.set seen key v in
                          match skip_space after' with
                          | String b rest'' =>
                              if (code b =? 125)%nat then Some (seen', rest'')
                              else if (code b =? 44)%nat
                                   then members fuel seen' rest''
                                   else None
                          | EmptyString => None
                          end
                      | None => None
                      end
                | EmptyString => None
                end
            | None => None
            end
      | EmptyString => None
      end
  end.

Definition parse (text : string) : Completion JSValue :=
  match value (2 * String.length text + 2) text with
  | Some (v, after) =>
      match skip_space after with
      | EmptyString => Normal v
      | String _ _ =>
          Throw (ThrownError "SyntaxError" "Unexpected non-whitespace character after JSON")
      end
  | None => Throw (ThrownError "SyntaxError" "Unexpected token in JSON")
  end.

Definition hex_digit (n : nat) : ascii :=
  if (n <? 10)%nat then ascii_of_nat (48 + n) else ascii_of_nat (87 + n).

Fixpoint escape (s : string) : string :=
  match s with
  | EmptyString => EmptyString
  | String a rest =>
      match code a with
      | 34 => String backslash (String quote (escape rest))
      | 92 => String backslash (String backslash (escape rest))
      | 8 => String backslash (String "b" (escape rest))
      | 12 => String backslash (String "f" (escape rest))
      | 10 => String backslash (String "n" (escape rest))
      | 13 => String backslash (String "r" (escape rest))
      | 9 => String backslash (String "t" (escape rest))
      | c =>
          if (c <? 32)%nat
          then String backslash
                 ("u00" +:+ String (hex_digit (c / 16))
                              (String (hex_digit (c mod 16)) (escape rest)))
          else String a (escape rest)
      end
  end.

Definition quoted (s : string) : string :=
  String quote (escape s +:+ String quote EmptyString).

(** [JSON.stringify(v)]: a property whose value is [undefined] is left
    out, an [undefined] item of an array is written [null]. *)
Fixpoint stringify (v : JSValue) : string :=
  match v with
  | JUndefined => "undefined"
  | JNull => "null"
  | JBool true => "true"
  | JBool false => "false"
  | JNumber n => pretty n
  | JString s => quoted s
  | JArray items =>
      "[" +:+
      (fix join (l : list JSValue) : string :=
         match l with
         | [] => ""
         | x :: rest =>
             let here := match x with
                         | JUndefined => "null"
                         | _ => stringify x
                         end in
             match rest with
             | [] => here
             | _ :: _ => here +:+ "," +:+ join rest
             end
         end) items
      +:+ "]"
  | JObject fields =>
      "{" +:+
      (fix join (first : bool) (l : list (string * JSValue)) : string :=
         match l with
         | [] => ""
         | (_, JUndefined) :: rest => join first rest
         | (k, x) :: rest =>
             (if first then "" else ",")
             +:+ quoted k +:+ ":" +:+ stringify x +:+ join false rest
         end) true fields
      +:+ "}"
  end.

Definition pad (width : nat) (n : Z) : string :=
  let digits := pretty n in
  String.concat "" (replicate (width - String.length digits) "0") +:+ digits.

(** [toISOString] for the years 0000 to 9999. *)
Definition iso (t : Date) : string :=
  let day := (t `div` 86400000)%Z in
  let ms := (t `mod` 86400000)%Z in
  let z := (day + 719468)%Z in
  let era := (z `div` 146097)%Z in
  let doe := (z - era * 146097)%Z in
  let yoe := ((doe - doe `div` 1460 + doe `div` 36524 - doe `div` 146096) `div` 365)%Z in
  let doy := (doe - (365 * yoe + yoe `div` 4 - yoe `div` 100))%Z in
  let mp := ((5 * doy + 2) `div` 153)%Z in
  let d := (doy - (153 * mp + 2) `div` 5 + 1)%Z in
  let m := (if (mp <? 10)%Z then mp + 3 else mp - 9)%Z in
  let y := (yoe + era * 400 + (if (m <=? 2)%Z then 1 else 0))%Z in
  pad 4 y +:+ "-" +:+ pad 2 m +:+ "-" +:+ pad 2 d +:+ "T"
  +:+ pad 2 (ms `div` 3600000) +:+ ":" +:+ pad 2 ((ms `div` 60000) `mod` 60)
  +:+ ":" +:+ pad 2 ((ms `div` 1000) `mod` 60)
  +:+ "." +:+ pad 3 (ms `mod` 1000) +:+ "Z".

Definition platform : Platform :=
  {| JSON_parse := parse; JSON_stringify := stringify; toISOString := iso |}.

End Reference.

(** Frames of the control channel, as the peer writes them. *)
Module Samples.

Definition delta_frame (delta : string) : string :=
  Reference.stringify
    (JObject [ ("type", JString "response.text.delta"); ("delta", JString delta) ]).

Definition transcript_frame (transcript : string) : string :=
  Reference.stringify
    (JObject [ ("type", JString "response.audio_transcript.done");
               ("transcript", JString transcript) ]).

Definition call_function (name : string) (arguments : JSValue) : JSValue :=
  JObject [ ("name", JString name);
            ("arguments", JString (Reference.stringify arguments)) ].

Definition call_event (id name : string) (arguments : JSValue) : JSValue :=
  JObject [ ("type", JString "response.function.call");
            ("id", JString id);
            ("function", call_function name arguments) ].

Definition call_frame (id name : string) (arguments : JSValue) : string :=
  Reference.stringify (call_event id name arguments).

(** What the browser answers when all goes well. *)
Definition browser : Page.Browser :=
  {| Page.getUserMedia := Normal tt;
     Page.createOffer := Normal (JObject [ ("type", JString "offer");
                                           ("sdp", JString "v=0") ]);
     Page.setLocalDescription := Normal tt;
     Page.setRemoteDescription := Normal tt |}.

(** A page that has its token and has asked for the remote description. *)
Definition negotiating : Page.State :=
  Page.run (H := Reference.platform)
    [ (0%Z, Page.WorkerMessage
              {| to_main_type := TOKEN_RECEIVED;
                 to_main_data := JObject [ ("token", JString "ek_123") ];
                 to_main_error := None |} browser) ]
    Page.initial.

(** A page whose data channel is open. *)
Definition ready : Page.State :=
  Page.run (H := Reference.platform) [ (10%Z, Page.DataChannelOpened) ] negotiating.

End Samples.

(* ================================================================== *)
(** * The parts together: vocabulary of the statements *)
(* ================================================================== *)

Module Wiring.

(** The result of a call as an object: what [executeFunction] returns,
    with its [error] property only when there is an error. *)
Definition result_object (r : Page.FunctionResult) : JSValue :=
  JObject ([ ("id", Page.res_id r); ("name", Page.res_name r);
             ("result", Page.res_result r) ]
           ++ match Page.res_error r with
              | Some e => [ ("error", JString e) ]
              | None => []
              end).

(** A response of the token endpoint as it travels: its status and the
    JSON text of its body. *)
Definition on_the_wire `{Platform} (r : Route.NextResponse) : Worker.Response :=
  {| Worker.status := Route.status r; Worker.text := JSON_stringify (Route.body r) |}.

(** The request of the worker for its session token. *)
Definition session_request (origin : string) : Worker.Request :=
  {| Worker.url := origin +:+ "/api/session"; Worker.method := "GET";
     Worker.body := None; Worker.headers := [] |}.

(** A state the page can be in: its initial state, then tasks. *)
Definition reachable `{Platform} (s : Page.State) : Prop :=
  exists es, s = Page.run es Page.initial.

(** The requests among the effects of a worker computation. *)
Definition fetched (es : list Worker.Effect) : list Worker.Request :=
  omap (fun e => match e with
                 | Worker.Fetched r => Some r
                 | Worker.Posted _ => None
                 end) es.

(** What the page posts to its worker when it mounts, before anything
    else. *)
Definition on_mount : list MainToWorkerMessage :=
  [ {| to_worker_type := INIT_CONNECTION; to_worker_data := JUndefined |} ].

(** The attempt to connect has failed with [e]: nothing is posted to the
    worker, and the page shows the status [Error] with the message of [e],
    or the fixed text when [e] is no [Error]. *)
Definition initialization_failed (e : Thrown) (s s' : Page.State) : Prop :=
  Page.toWorker s' = Page.toWorker s /\
  Page.status s' = "Error" /\
  Page.error s'
    = Some (message_or e (fun _ => "Failed to initialize WebRTC")).

(** A worker message is one of its log entries. *)
Definition is_log (m : WorkerToMainMessage) : Prop := to_main_type m = DEBUG_LOG.

(** The page hands the worker the messages it has posted, the worker
    answers each through the network [net], and the page handles the
    answers in order. *)
Definition worker_answers `{Platform} (origin : string) (now : Date)
    (net : Worker.Network) (ms : list MainToWorkerMessage) : list WorkerToMainMessage :=
  ms ≫= fun m => Worker.posted (Worker.onmessage origin now net m).

End Wiring.

(* ================================================================== *)
(** * Facts about [Map] *)
(* ================================================================== *)

Module JSMapFacts.
Section Facts.
Context {K V : Type} `{EqDecision K}.
Implicit Types (m : JSMap.t K V) (k : K) (v : V).
Import JSMap.

Lemma get_set_eq m k v : get (set m k v) k = Some v.
Proof.
  induction m as [|[k' v'] m IH]; simpl.
  - by rewrite decide_True.
  - destruct (decide (k' = k)) as [->|Hne]; simpl.
    + by rewrite decide_True.
    + by rewrite decide_False.
Qed.

Lemma get_set_ne m k k' v : k ≠ k' -> get (set m k v) k' = get m k'.
Proof.
  intros Hne. induction m as [|[k0 v0] m IH]; simpl.
  - by rewrite decide_False.
  - destruct (decide (k0 = k)) as [->|Hk]; simpl.
    + by rewrite !decide_False.
    + by rewrite IH.
Qed.

Lemma set_set m k v1 v2 : set (set m k v1) k v2 = set m k v2.
Proof.
  induction m as [|[k' v'] m IH]; simpl.
  - by rewrite decide_True.
  - destruct (decide (k' = k)) as [->|Hne]; simpl.
    + by rewrite decide_True.
    + rewrite decide_False by done. by rewrite IH.
Qed.

Lemma keys_set_in m k v : k ∈ keys m -> keys (set m k v) = keys m.
Proof.
  unfold keys. induction m as [|[k' v'] m IH]; simpl.
  - by intros ?%elem_of_nil.
  - intros Hin. destruct (decide (k' = k)) as [->|Hne]; simpl; [done|].
    f_equal. apply IH. apply elem_of_cons in Hin as [->|]; done.
Qed.

Lemma keys_set_notin m k v : k ∉ keys m -> keys (set m k v) = keys m ++ [k].
Proof.
  unfold keys. induction m as [|[k' v'] m IH]; csimpl; [done|].
  intros Hnin. apply not_elem_of_cons in Hnin as [Hne Hnin].
  rewrite decide_False by done. csimpl. by rewrite IH.
Qed.

Lemma NoDup_keys_set m k v : NoDup (keys m) -> NoDup (keys (set m k v)).
Proof.
  intros Hnd. destruct (decide (k ∈ keys m)) as [Hin|Hnin].
  - by rewrite keys_set_in.
  - rewrite keys_set_notin by done.
    apply NoDup_app. split_and!; [done| |apply NoDup_singleton].
    intros x Hx ->%list_elem_of_singleton. done.
Qed.

Lemma get_Some_elem_of m k v : get m k = Some v -> (k, v) ∈ m.
Proof.
  induction m as [|[k' v'] m IH]; simpl; [done|].
  destruct (decide (k' = k)) as [->|Hne].
  - intros [= ->]. apply list_elem_of_here.
  - intros H. apply list_elem_of_further. auto.
Qed.

Lemma elem_of_NoDup_get m k v :
  NoDup (keys m) -> (k, v) ∈ m -> get m k = Some v.
Proof.
  unfold keys. induction m as [|[k' v'] m IH]; simpl.
  - by intros _ ?%elem_of_nil.
  - intros [Hnin Hnd]%NoDup_cons Hin.
    apply elem_of_cons in Hin as [[= <- <-]|Hin].
    + by rewrite decide_True.
    + destruct (decide (k' = k)) as [->|Hne]; [|by apply IH].
      exfalso. apply Hnin. apply list_elem_of_fmap. by exists (k, v).
Qed.

Lemma get_None_notin m k : get m k = None <-> k ∉ keys m.
Proof.
  unfold keys. induction m as [|[k' v'] m IH]; simpl.
  - split; [intros _; apply not_elem_of_nil|done].
  - destruct (decide (k' = k)) as [->|Hne].
    + split; [done|]. intros H. exfalso. apply H. apply list_elem_of_here.
    + rewrite IH, not_elem_of_cons. split; [by auto|by intros [_ ?]].
Qed.

Lemma get_delete_eq m k : NoDup (keys m) -> get (delete m k) k = None.
Proof.
  unfold keys. induction m as [|[k' v'] m IH]; simpl; [done|].
  intros [Hnin Hnd]%NoDup_cons.
  destruct (decide (k' = k)) as [->|Hne]; simpl.
  - by apply get_None_notin.
  - rewrite decide_False by done. by apply IH.
Qed.

End Facts.
End JSMapFacts.

(* ================================================================== *)
(** * The function registry *)
(* ================================================================== *)

Module RegistryFacts.
Import Registry.

Lemma well_keyed_new : well_keyed new.
Proof. split; [apply NoDup_nil_2|apply Forall_nil_2]. Qed.

Lemma Forall_set (P : string * Entry -> Prop) (m : FunctionRegistry) k e :
  Forall P m -> P (k, e) -> (forall e', P (k, e') -> P (k, e)) ->
  Forall P (JSMap.set m k e).
Proof.
  intros Hm Hk _. induction Hm as [|[k' e'] m Hx Hm IH]; simpl.
  - by apply Forall_singleton.
  - destruct (decide (k' = k)) as [->|Hne]; by apply Forall_cons.
Qed.

Lemma well_keyed_register d h this :
  well_keyed this -> well_keyed (register d h this).
Proof.
  intros [Hnd Hall]. split.
  - by apply JSMapFacts.NoDup_keys_set.
  - apply Forall_set; done.
Qed.

Lemma well_keyed_register_all rs this :
  well_keyed this -> well_keyed (register_all rs this).
Proof.
  revert this. induction rs as [|[d h] rs IH]; intros this Hwk; simpl; [done|].
  apply IH. by apply well_keyed_register.
Qed.

(** Definitions filed under other keys do not show up under a name. *)
Lemma named_absent n (this : FunctionRegistry) :
  n ∉ JSMap.keys this ->
  Forall (fun ke => def_name (definition ke.2) = ke.1) this ->
  named n (getAllDefinitions this) = [].
Proof.
  unfold named, getAllDefinitions, JSMap.values, JSMap.keys.
  induction this as [|[k e] this IH]; csimpl; [done|].
  intros [Hne Hnin]%not_elem_of_cons [Hk Hall]%Forall_cons. simpl in Hk.
  rewrite filter_cons_False by (simpl; congruence). by apply IH.
Qed.

Lemma named_register d h this :
  well_keyed this ->
  named (def_name d) (getAllDefinitions (register d h this)) = [d].
Proof.
  unfold register. intros [Hnd Hall].
  induction this as [|[k e] this IH]; simpl.
  - unfold named, getAllDefinitions. csimpl. by rewrite filter_cons_True.
  - apply NoDup_cons in Hnd as [Hnin Hnd]. apply Forall_cons in Hall as [Hk Hall].
    simpl in Hk. destruct (decide (k = def_name d)) as [->|Hne].
    + unfold named, getAllDefinitions. csimpl.
      rewrite filter_cons_True by done. f_equal.
      by apply named_absent.
    + unfold named, getAllDefinitions. csimpl.
      rewrite filter_cons_False by (simpl; congruence). by apply IH.
Qed.

Lemma names_are_keys (this : FunctionRegistry) :
  Forall (fun ke => def_name (definition ke.2) = ke.1) this ->
  def_name <$> getAllDefinitions this = JSMap.keys this.
Proof.
  unfold getAllDefinitions, JSMap.values, JSMap.keys.
  induction 1 as [|[k e] this Hk Hall IH]; csimpl; [done|].
  simpl in Hk. by rewrite Hk, IH.
Qed.

(** C9. For every call, [execute] returns (its promise is fulfilled with)
    a result that carries the [id] and the [name] of the call, in each of
    the three cases: no handler is registered under the name, the
    registered handler resolves, the registered handler throws or rejects;
    and the promise of [execute] is never rejected, whatever the handler
    does. *)
Theorem execute_returns_id_and_name
    (this : FunctionRegistry) (now : Date) (rnd : Random) (c : FunctionCall) :
  (forall e, execute this now rnd c <> Rejected e) /\
  (JSMap.get this (call_name c) = None ->
     exists r, execute this now rnd c = Fulfilled r /\
               res_id r = call_id c /\ res_name r = call_name c) /\
  (forall func v,
     JSMap.get this (call_name c) = Some func ->
     handler func now rnd (call_arguments c) = Fulfilled v ->
     exists r, execute this now rnd c = Fulfilled r /\
               res_id r = call_id c /\ res_name r = call_name c) /\
  (forall func e,
     JSMap.get this (call_name c) = Some func ->
     handler func now rnd (call_arguments c) = Rejected e ->
     exists r, execute this now rnd c = Fulfilled r /\
               res_id r = call_id c /\ res_name r = call_name c).
Proof.
  unfold execute. split_and!.
  - intros e. destruct (JSMap.get this (call_name c)) as [func|]; [|done].
    by destruct (handler func now rnd (call_arguments c)).
  - intros ->. eauto.
  - intros func v -> ->. eauto.
  - intros func e -> ->. eauto.
Qed.

(** The three cases at the singleton registry: a call of [get_weather]
    that resolves, one whose arguments are [null] (the handler throws),
    and a call of a name that is not registered. *)
Lemma execute_returns_id_and_name_witness :
  let H := Reference.platform in
  let ask name args :=
    {| call_id := "a1"; call_name := name; call_arguments := args |} in
  (exists r, execute functionRegistry 0%Z (fun _ => 7%Z)
               (ask "get_weather" (JObject [("location", JString "Tokyo")]))
             = Fulfilled r /\ res_id r = "a1" /\ res_name r = "get_weather") /\
  (exists r, execute functionRegistry 0%Z (fun _ => 7%Z) (ask "get_weather" JNull)
             = Fulfilled r /\ res_id r = "a1" /\ res_name r = "get_weather") /\
  (exists r, execute functionRegistry 0%Z (fun _ => 7%Z) (ask "get_time" JNull)
             = Fulfilled r /\ res_id r = "a1" /\ res_name r = "get_time").
Proof.
  intros H ask. split_and!.
  - eapply (proj1 (proj2 (proj2 (execute_returns_id_and_name
             functionRegistry 0%Z (fun _ => 7%Z)
             (ask "get_weather" (JObject [("location", JString "Tokyo")])))))).
    + reflexivity.
    + reflexivity.
  - eapply (proj2 (proj2 (proj2 (execute_returns_id_and_name
             functionRegistry 0%Z (fun _ => 7%Z) (ask "get_weather" JNull))))).
    + reflexivity.
    + reflexivity.
  - apply (proj1 (proj2 (execute_returns_id_and_name
             functionRegistry 0%Z (fun _ => 7%Z) (ask "get_time" JNull)))).
    reflexivity.
Defined.

(** C10. Registering under a name that is already taken overwrites the
    earlier entry: in a registry built by registrations, [register d1 h1]
    followed by [register d2 h2] with the same name leaves the registry
    [register d2 h2] alone leaves; afterwards [getAllDefinitions] holds
    exactly one definition of that name, the newer one; a call of that
    name is dispatched to the newer handler [h2] (its value is the
    result, its rejection the error text, and the call settles only if
    [h2] does), which is what a registry holding only the newer entry
    does, whatever the older handler [h1] would have done; and no two
    definitions share a name. *)
Theorem register_last_write_wins
    (rs : list (FunctionDefinition * FunctionHandler))
    (d1 d2 : FunctionDefinition) (h1 h2 : FunctionHandler) :
  def_name d1 = def_name d2 ->
  register d2 h2 (register d1 h1 (register_all rs new))
    = register d2 h2 (register_all rs new) /\
  named (def_name d2)
    (getAllDefinitions (register d2 h2 (register d1 h1 (register_all rs new))))
    = [d2] /\
  (forall now rnd c,
     call_name c = def_name d2 ->
     execute (register d2 h2 (register d1 h1 (register_all rs new))) now rnd c
       = match h2 now rnd (call_arguments c) with
         | Fulfilled result =>
             Fulfilled {| res_id := call_id c; res_name := call_name c;
                          res_result := result; res_error := None |}
         | Rejected error =>
             Fulfilled {| res_id := call_id c; res_name := call_name c;
                          res_result := JNull;
                          res_error := Some (message_or error Thrown_toString) |}
         | Unsettled => Unsettled
         end /\
     execute (register d2 h2 (register d1 h1 (register_all rs new))) now rnd c
       = execute (register d2 h2 new) now rnd c) /\
  NoDup (def_name <$>
           getAllDefinitions (register d2 h2 (register d1 h1 (register_all rs new)))).
Proof.
  intros Hname.
  assert (Hwk : well_keyed (register_all rs new))
    by apply well_keyed_register_all, well_keyed_new.
  assert (Heq : register d2 h2 (register d1 h1 (register_all rs new))
                = register d2 h2 (register_all rs new)).
  { unfold register. rewrite Hname. apply JSMapFacts.set_set. }
  split_and!.
  - exact Heq.
  - rewrite Heq. by apply named_register.
  - intros now rnd c Hc. unfold execute. rewrite Hc.
    unfold register at 1 3 5. by rewrite !JSMapFacts.get_set_eq.
  - rewrite Heq.
    destruct (well_keyed_register d2 h2 _ Hwk) as [Hnd Hall].
    by rewrite names_are_keys.
Qed.

(** The weather function registered a second time, under the same name,
    with another description and a handler that always fails. *)
Lemma register_last_write_wins_witness :
  let H := Reference.platform in
  let d2 := {| def_name := "get_weather"; description := "weather, again";
               parameters := parameters weatherFunctionDefinition |} in
  let h2 : FunctionHandler :=
    fun _ _ _ => Rejected (ThrownError "Error" "no forecast") in
  let twice := register d2 h2 (register weatherFunctionDefinition
                                 weatherFunctionHandler (register_all [] new)) in
  twice = register d2 h2 (register_all [] new) /\
  named "get_weather" (getAllDefinitions twice) = [d2] /\
  (forall now rnd c,
     call_name c = "get_weather" ->
     execute twice now rnd c
       = Fulfilled {| res_id := call_id c; res_name := call_name c;
                      res_result := JNull; res_error := Some "no forecast" |} /\
     execute twice now rnd c = execute (register d2 h2 new) now rnd c) /\
  NoDup (def_name <$> getAllDefinitions twice).
Proof.
  intros H d2 h2 twice.
  destruct (register_last_write_wins [] weatherFunctionDefinition d2
              weatherFunctionHandler h2 eq_refl)
    as (Heq & Hnamed & Hexecute & Hnodup).
  split; [exact Heq|]. split; [exact Hnamed|]. split; [|exact Hnodup].
  intros now rnd c Hc. exact (Hexecute now rnd c Hc).
Defined.

End RegistryFacts.

(* ================================================================== *)
(** * The dispatcher of the control channel *)
(* ================================================================== *)

Module PageFacts.
Import Page.

Section Dispatch.
Context `{Platform}.
Implicit Types (s : State) (now : Date) (data : string).

(** A value whose property could be read has all its properties
    readable. *)
Lemma get_again (ev : JSValue) (k k' : string) (v : JSValue) :
  get ev k = Normal v -> exists v', get ev k' = Normal v'.
Proof. destruct ev; simpl; intros; try discriminate; eauto. Qed.

Lemma append_cons (a : ascii) (s t : string) :
  String a s +:+ t = String a (s +:+ t).
Proof. reflexivity. Qed.

Lemma append_nil_r (s : string) : s +:+ "" = s.
Proof. induction s as [|a s IH]; [reflexivity|]. by rewrite append_cons, IH. Qed.

Lemma append_assoc (a b c : string) : (a +:+ b) +:+ c = a +:+ (b +:+ c).
Proof.
  induction a as [|x a IH]; [reflexivity|]. by rewrite !append_cons, IH.
Qed.

Lemma concat_cons (d : string) (ds : list string) :
  String.concat "" (d :: ds) = d +:+ String.concat "" ds.
Proof.
  destruct ds as [|d' ds]; [|reflexivity].
  change (String.concat "" [d]) with d. by rewrite append_nil_r.
Qed.

(** *** Effect of each kind of frame *)

Lemma dc_onmessage_malformed now data e s :
  JSON_parse data = Throw e ->
  dc_onmessage now data s
    = (logged now ("Error parsing event: " +:+ Thrown_toString e) s, Normal tt).
Proof.
  intros Hparse. unfold dc_onmessage, try_catch, mbind, M_bind, lift.
  by rewrite Hparse.
Qed.

Lemma dc_onmessage_text_delta now data delta s :
  text_delta data delta ->
  exists ev,
    JSON_parse data = Normal ev /\
    dc_onmessage now data s
      = (setMessages (append_delta now delta)
           (logged now ("Received event: " +:+ JSON_stringify ev) s),
         Normal tt).
Proof.
  intros (ev & Hparse & Htype & Hdelta). exists ev. split; [done|].
  unfold dc_onmessage, try_catch, mbind, M_bind, lift.
  rewrite Hparse. simpl. rewrite Htype. simpl. by rewrite Hdelta.
Qed.

Lemma dc_onmessage_transcript_done now data transcript s :
  transcript_done data transcript ->
  exists ev,
    JSON_parse data = Normal ev /\
    dc_onmessage now data s
      = (setTranscripts (fun prev => prev ++ [transcript])
           (logged now ("Received event: " +:+ JSON_stringify ev) s),
         Normal tt).
Proof.
  intros (ev & Hparse & Htype & Htranscript). exists ev. split; [done|].
  destruct (get_again ev "type" "delta" _ Htype) as [delta Hdelta].
  unfold dc_onmessage, try_catch, mbind, M_bind, lift.
  rewrite Hparse. simpl. rewrite Htype. simpl. rewrite Hdelta. simpl.
  by rewrite Htranscript.
Qed.

(** *** Text deltas and the conversation *)

Lemma append_delta_fresh now delta (ms : list Message) :
  ~ continues ms ->
  append_delta now delta ms
    = ms ++ [ {| role := assistant; content := delta; timestamp := now |} ].
Proof.
  unfold continues, append_delta. destruct (last ms) as [m|]; [|done].
  destruct m as [[] c t]; simpl; [|done]. intros Hne. by destruct Hne.
Qed.

Lemma append_delta_snoc now delta (ms : list Message) (m : Message) :
  role m = assistant ->
  append_delta now delta (ms ++ [m])
    = ms ++ [ {| role := assistant; content := content m +:+ delta;
                 timestamp := timestamp m |} ].
Proof.
  intros Hrole. unfold append_delta. rewrite last_snoc, Hrole.
  by rewrite removelast_last.
Qed.

Lemma step_text_delta now data delta s :
  text_delta data delta ->
  messages (step s (now, DataChannelMessage data))
    = append_delta now delta (messages s).
Proof.
  intros Hd. destruct (dc_onmessage_text_delta now data delta s Hd)
    as (ev & _ & Heq).
  unfold step. simpl. by rewrite Heq.
Qed.

(** Further deltas go on extending the assistant message that is last. *)
Lemma run_text_deltas (fs : list (Date * string)) (ds : list string) :
  Forall2 (fun f d => text_delta f.2 d) fs ds ->
  forall s ms m,
    messages s = ms ++ [m] -> role m = assistant ->
    messages (run (frames fs) s)
      = ms ++ [ {| role := assistant;
                   content := content m +:+ String.concat "" ds;
                   timestamp := timestamp m |} ].
Proof.
  induction 1 as [|[t f] d fs ds Hd Hrest IH]; intros s ms m Hms Hrole.
  - simpl. rewrite Hms. destruct m as [r c t]. simpl in *. subst r.
    by rewrite append_nil_r.
  - rewrite concat_cons, <- append_assoc.
    change (run (frames ((t, f) :: fs)) s)
      with (run (frames fs) (step s (t, DataChannelMessage f))).
    rewrite (IH (step s (t, DataChannelMessage f)) ms
               {| role := assistant; content := content m +:+ d;
                  timestamp := timestamp m |}).
    + reflexivity.
    + rewrite (step_text_delta t f d s Hd), Hms. by apply append_delta_snoc.
    + reflexivity.
Qed.

Lemma run_text_deltas_keep_transcripts (fs : list (Date * string)) (ds : list string) :
  Forall2 (fun f d => text_delta f.2 d) fs ds ->
  forall s, transcripts (run (frames fs) s) = transcripts s.
Proof.
  induction 1 as [|[t f] d fs ds Hd Hrest IH]; intros s; [done|].
  change (run (frames ((t, f) :: fs)) s)
    with (run (frames fs) (step s (t, DataChannelMessage f))).
  rewrite IH. destruct (dc_onmessage_text_delta t f d s Hd) as (ev & _ & Heq).
  unfold step. simpl. by rewrite Heq.
Qed.

End Dispatch.

(** ** Relations that every step of a handler respects *)

Section Moves.
Context `{Platform}.
Context (R : relation State) `{!Respected R}.
#[local] Existing Instance Respected_PreOrder.

Lemma moves_ret {A} (a : A) : moves R (mret a).
Proof. intros s. simpl. reflexivity. Qed.

Lemma moves_lift {A} (c : Completion A) : moves R (lift c).
Proof. intros s. simpl. reflexivity. Qed.

Lemma moves_throw {A} (e : Thrown) : moves R (throw (A := A) e).
Proof. intros s. simpl. reflexivity. Qed.

Lemma moves_gets {A} (f : State -> A) : moves R (gets f).
Proof. intros s. simpl. reflexivity. Qed.

Lemma moves_modify (f : State -> State) :
  (forall s, R s (f s)) -> moves R (modify f).
Proof. intros Hf s. apply Hf. Qed.

Lemma moves_bind {A B} (m : M A) (f : A -> M B) :
  moves R m -> (forall a, moves R (f a)) -> moves R (m ≫= f).
Proof.
  intros Hm Hf s. unfold mbind, M_bind. specialize (Hm s).
  destruct (m s) as [s' [a|e]]; simpl in *; [|done].
  etrans; [exact Hm|apply Hf].
Qed.

(** The rest of a computation runs only past a read that succeeded. *)
Lemma moves_bind_lift {A B} (c : Completion A) (f : A -> M B) :
  (forall a, c = Normal a -> moves R (f a)) -> moves R (lift c ≫= f).
Proof.
  intros Hf s. unfold mbind, M_bind, lift. destruct c as [a|e]; [|reflexivity].
  by apply Hf.
Qed.

Lemma moves_try_catch {A} (body : M A) (handler : Thrown -> M A) :
  moves R body -> (forall e, moves R (handler e)) -> moves R (try_catch body handler).
Proof.
  intros Hm Hf s. unfold try_catch. specialize (Hm s).
  destruct (body s) as [s' [a|e]]; simpl in *; [done|].
  etrans; [exact Hm|apply Hf].
Qed.

Lemma moves_addDebugLog now message : moves R (addDebugLog now message).
Proof. apply moves_modify. intros s. apply R_setDebugLog. Qed.

Lemma moves_addTranscript text : moves R (addTranscript text).
Proof. apply moves_modify. intros s. apply R_setTranscripts. Qed.

Lemma moves_send data : moves R (send data).
Proof.
  intros s. unfold send. destruct (dataChannel s) as [dc|]; simpl; [|reflexivity].
  destruct (readyState dc); simpl; try reflexivity. apply R_set_dataChannel.
Qed.

Lemma moves_setTimeout k : moves R (setTimeout k).
Proof. apply moves_modify. intros s. apply R_setTimeout. Qed.

Lemma moves_postMessage m : moves R (postMessage m).
Proof. apply moves_modify. intros s. apply R_set_toWorker. Qed.

Lemma moves_channel_becomes r : moves R (channel_becomes r).
Proof.
  apply moves_modify. intros s. destruct (dataChannel s); [|reflexivity].
  apply R_set_dataChannel.
Qed.

Ltac moves :=
  repeat first
    [ apply moves_ret | apply moves_lift | apply moves_throw | apply moves_gets
    | apply moves_addDebugLog | apply moves_addTranscript | apply moves_send
    | apply moves_setTimeout | apply moves_postMessage | apply moves_channel_becomes
    | apply moves_bind; [|intros ?]
    | apply moves_try_catch; [|intros ?]
    | apply moves_modify; intros ?;
      first [ apply R_setStatus | apply R_setError | apply R_setIsDataChannelReady
            | apply R_setInputMessage | apply R_setActiveFunctions
            | apply R_setCompletedFunctions | apply R_set_peerConnection
            | apply R_set_dataChannel | apply R_set_toWorker ]
    | progress cbv zeta
    | case_match ].

Lemma moves_dc_onopen now : moves R (dc_onopen now).
Proof. unfold dc_onopen. moves. Qed.

Lemma moves_dc_onclose now : moves R (dc_onclose now).
Proof. unfold dc_onclose. moves. Qed.

Lemma moves_dc_onerror now e : moves R (dc_onerror now e).
Proof. unfold dc_onerror. moves. Qed.

Lemma moves_executeFunction now c key : moves R (executeFunction now c key).
Proof. unfold executeFunction. moves. Qed.

Lemma moves_executeFunction_settled now rnd c key :
  moves R (executeFunction_settled now rnd c key).
Proof. unfold executeFunction_settled. moves. Qed.

Lemma moves_responseRequest_resumed now r : moves R (responseRequest_resumed now r).
Proof. unfold responseRequest_resumed. moves. Qed.

Lemma moves_initializeWebRTC now browser token :
  moves R (initializeWebRTC now browser token).
Proof. unfold initializeWebRTC. moves. Qed.

Lemma moves_worker_onmessage now browser event :
  moves R (worker_onmessage now browser event).
Proof.
  unfold worker_onmessage. moves; apply moves_initializeWebRTC.
Qed.

(** The dispatcher, but for the update of the conversation. *)
Lemma moves_dc_onmessage now data :
  (forall delta s, text_delta data delta -> R s (setMessages (append_delta now delta) s)) ->
  moves R (dc_onmessage now data).
Proof.
  intros Hdelta. unfold dc_onmessage.
  apply moves_try_catch; [|intros ?; apply moves_addDebugLog].
  apply moves_bind_lift. intros ev Hparse.
  apply moves_bind; [apply moves_addDebugLog|intros _].
  apply moves_bind_lift. intros type Htype.
  destruct (is_string type "response.function.call"); [by moves|].
  apply moves_bind_lift. intros delta Hd.
  destruct (is_string type "response.text.delta") eqn:Hty; [|by moves].
  destruct delta; try by moves.
  apply moves_modify. intros s0. apply Hdelta.
  exists ev. split_and!; [done| |done].
  destruct type; try discriminate. simpl in Hty.
  apply String.eqb_eq in Hty. by subst.
Qed.

End Moves.

#[local] Existing Instance Respected_PreOrder.

(** ** Tasks that add no message *)

#[local] Instance same_messages_respected : Respected same_messages.
Proof.
  split; [split|..]; try (intros; reflexivity).
  - intros s. reflexivity.
  - intros s1 s2 s3 H12 H23. unfold same_messages in *. congruence.
Qed.

Lemma step_adds_no_message `{Platform} (now : Date) (t : Task) (s : State) :
  adds_no_message t -> messages (step s (now, t)) = messages s.
Proof.
  intros Hno. revert s. change (moves same_messages (handle now t)).
  destruct t as [| | |data|id rnd| | |]; simpl in *.
  - apply (moves_bind same_messages); [by apply (moves_channel_becomes same_messages)|intros _].
    by apply (moves_dc_onopen same_messages).
  - apply (moves_bind same_messages); [by apply (moves_channel_becomes same_messages)|intros _].
    by apply (moves_dc_onclose same_messages).
  - by apply (moves_dc_onerror same_messages).
  - apply (moves_dc_onmessage same_messages). intros delta s Hd. by destruct (Hno delta).
  - apply (moves_bind same_messages); [by apply (moves_gets same_messages)|intros ts].
    destruct (take_timer id ts) as [[[c key|r] rest]|]; [| |by apply (moves_ret same_messages)].
    + apply (moves_bind same_messages); [by apply (moves_modify same_messages)|intros _].
      by apply (moves_executeFunction_settled same_messages).
    + apply (moves_bind same_messages); [by apply (moves_modify same_messages)|intros _].
      by apply (moves_responseRequest_resumed same_messages).
  - by apply (moves_worker_onmessage same_messages).
  - by apply (moves_modify same_messages).
  - done.
Qed.

Lemma run_adds_no_message `{Platform} (es : list (Date * Task)) (s : State) :
  Forall (fun e => adds_no_message e.2) es -> messages (run es s) = messages s.
Proof.
  intros Hes. revert s. induction Hes as [|[now t] es Ht Hes IH]; intros s; [done|].
  change (run ((now, t) :: es) s) with (run es (step s (now, t))).
  rewrite IH. by apply step_adds_no_message.
Qed.

Lemma run_app `{Platform} (es1 es2 : list (Date * Task)) (s : State) :
  run (es1 ++ es2) s = run es2 (run es1 s).
Proof. unfold run. apply foldl_app. Qed.

Lemma append_delta_ends (now : Date) (delta : string) (ms : list Message) :
  exists earlier m,
    append_delta now delta ms = earlier ++ [m] /\ role m = assistant.
Proof.
  unfold append_delta. destruct (last ms) as [m|]; [|by eauto].
  destruct (role m); by eauto.
Qed.

Lemma append_delta_continues (now : Date) (delta : string) (ms : list Message) :
  continues ms ->
  exists earlier m,
    ms = earlier ++ [m] /\ role m = assistant /\
    append_delta now delta ms
      = earlier ++ [ {| role := assistant; content := content m +:+ delta;
                        timestamp := timestamp m |} ].
Proof.
  unfold continues. destruct (last ms) as [m|] eqn:Hlast; [|done].
  intros [= Hrole]. apply last_Some in Hlast as [earlier ->].
  exists earlier, m. split_and!; [done..|]. by apply append_delta_snoc.
Qed.

Lemma step_sendMessage `{Platform} (now : Date) (s : State) :
  trims_to_empty (inputMessage s) = false ->
  isDataChannelReady s = true ->
  messages (step s (now, SendClicked))
    = messages s ++ [ {| role := user; content := inputMessage s; timestamp := now |} ].
Proof.
  intros Htext Hready. unfold step. simpl.
  unfold sendMessage, mbind, M_bind, gets. by rewrite Htext, Hready.
Qed.

(** C2, as the code has it.  A text delta is appended to the last message
    exactly when that message is an assistant message, and starts a new
    entry otherwise.  Tasks that add no message, a [transcript-done]
    frame, a function call, an unknown or unparsable frame, a timer, an
    event of the channel or a message of the worker, do not end the
    message when they come between two deltas: the second delta is still
    appended to the message the first one left last.  A message the user
    sends in between does end it: the second delta then starts a new
    entry, after the user's. *)
Theorem delta_continues_across_other_events `{Platform}
    (s : State) (t1 : Date) (f1 d1 : string) (between : list (Date * Task))
    (t2 : Date) (f2 d2 : string) :
  text_delta f1 d1 ->
  text_delta f2 d2 ->
  Forall (fun e => adds_no_message e.2) between ->
  (continues (messages s) ->
     exists earlier m,
       messages s = earlier ++ [m] /\ role m = assistant /\
       messages (step s (t1, DataChannelMessage f1))
         = earlier ++ [ {| role := assistant; content := content m +:+ d1;
                           timestamp := timestamp m |} ]) /\
  (~ continues (messages s) ->
     messages (step s (t1, DataChannelMessage f1))
       = messages s ++ [ {| role := assistant; content := d1; timestamp := t1 |} ]) /\
  (exists earlier m,
     messages (step s (t1, DataChannelMessage f1)) = earlier ++ [m] /\
     role m = assistant /\
     messages (run (between ++ [(t2, DataChannelMessage f2)])
                 (step s (t1, DataChannelMessage f1)))
       = earlier ++ [ {| role := assistant; content := content m +:+ d2;
                         timestamp := timestamp m |} ]) /\
  (forall t,
     trims_to_empty (inputMessage (step s (t1, DataChannelMessage f1))) = false ->
     isDataChannelReady (step s (t1, DataChannelMessage f1)) = true ->
     messages (run [ (t, SendClicked); (t2, DataChannelMessage f2) ]
                 (step s (t1, DataChannelMessage f1)))
       = messages (step s (t1, DataChannelMessage f1))
         ++ [ {| role := user;
                 content := inputMessage (step s (t1, DataChannelMessage f1));
                 timestamp := t |};
              {| role := assistant; content := d2; timestamp := t2 |} ]).
Proof.
  intros Hd1 Hd2 Hbetween. split_and!.
  4:{ intros t Htext Hready.
      change (run [ (t, SendClicked); (t2, DataChannelMessage f2) ] ?x)
        with (step (step x (t, SendClicked)) (t2, DataChannelMessage f2)).
      rewrite (step_text_delta t2 f2 d2 _ Hd2).
      rewrite (step_sendMessage t _ Htext Hready).
      rewrite append_delta_fresh; [by rewrite <- app_assoc|].
      unfold continues. by rewrite last_snoc. }
  all: rewrite (step_text_delta t1 f1 d1 s Hd1).
  - apply append_delta_continues.
  - apply append_delta_fresh.
  - destruct (append_delta_ends t1 d1 (messages s)) as (earlier & m & Heq & Hrole).
    exists earlier, m. split_and!; [done..|].
    rewrite run_app.
    change (run [(t2, DataChannelMessage f2)] ?x)
      with (step x (t2, DataChannelMessage f2)).
    rewrite (step_text_delta t2 f2 d2 _ Hd2).
    rewrite (run_adds_no_message between _ Hbetween).
    rewrite (step_text_delta t1 f1 d1 s Hd1), Heq. by apply append_delta_snoc.
Qed.

(** A transcript, then the channel closing, come between two deltas. *)
Lemma delta_continues_across_other_events_witness :
  let H := Reference.platform in
  let s1 := step Samples.ready (1000%Z, DataChannelMessage (Samples.delta_frame "Hel")) in
  exists earlier m,
    messages s1 = earlier ++ [m] /\ role m = assistant /\
    messages (run ([ (1010%Z, DataChannelMessage (Samples.transcript_frame "hello"));
                     (1015%Z, DataChannelClosed) ]
                   ++ [ (1020%Z, DataChannelMessage (Samples.delta_frame "lo")) ]) s1)
      = earlier ++ [ {| role := assistant; content := content m +:+ "lo";
                        timestamp := timestamp m |} ].
Proof.
  intros H s1.
  refine (proj1 (proj2 (proj2
    (delta_continues_across_other_events Samples.ready 1000%Z
       (Samples.delta_frame "Hel") "Hel"
       [ (1010%Z, DataChannelMessage (Samples.transcript_frame "hello"));
         (1015%Z, DataChannelClosed) ]
       1020%Z (Samples.delta_frame "lo") "lo" _ _ _)))).
  - eexists. split_and!; reflexivity.
  - eexists. split_and!; reflexivity.
  - repeat constructor. intros delta (ev & Hparse & Htype & _).
    vm_compute in Hparse. injection Hparse as <-. vm_compute in Htype. discriminate.
Defined.

(** C2, as stated, fails: a [transcript-done] frame arrives between two
    assistant deltas, and the second delta does not start a new entry;
    the conversation holds the single message [Hello]. *)
Lemma transcript_between_deltas_does_not_split :
  let H := Reference.platform in
  let s := run (frames [ (1000%Z, Samples.delta_frame "Hel");
                         (1010%Z, Samples.transcript_frame "hello");
                         (1020%Z, Samples.delta_frame "lo") ]) initial in
  messages s = [ {| role := assistant; content := "Hello"; timestamp := 1000%Z |} ] /\
  transcripts s = [ "hello" ].
Proof. intros H s. vm_compute. split; reflexivity. Qed.

(** ** Timers *)

Lemma take_timer_Some (id : nat) (ts : list (nat * Suspended)) k rest :
  take_timer id ts = Some (k, rest) ->
  (forall x, x ∈ rest -> x ∈ ts) /\
  (forall id' k', id' ≠ id -> (id', k') ∈ ts -> (id', k') ∈ rest) /\
  (NoDup ts.*1 -> NoDup rest.*1 /\ id ∉ rest.*1).
Proof.
  revert rest. induction ts as [|[id0 k0] ts IH]; intros rest; simpl; [done|].
  destruct (decide (id0 = id)) as [->|Hne].
  - intros [= <- <-]. split_and!.
    + intros x Hx. by apply list_elem_of_further.
    + intros id' k' Hid' [[= -> ->]|Hin]%elem_of_cons; done.
    + intros [Hnin Hnd]%NoDup_cons. done.
  - destruct (take_timer id ts) as [[found rest']|] eqn:Htake; [|done].
    intros [= <- <-]. destruct (IH rest' eq_refl) as (Hsub & Hother & Hnd).
    split_and!.
    + intros x [->|Hx]%elem_of_cons; [apply list_elem_of_here|].
      apply list_elem_of_further. auto.
    + intros id' k' Hid' [[= -> ->]|Hin]%elem_of_cons; [apply list_elem_of_here|].
      apply list_elem_of_further. eauto.
    + intros [Hnin Hnd']%NoDup_cons. destruct (Hnd Hnd') as [Hnd'' Hid].
      split.
      * csimpl. apply NoDup_cons. split; [|done].
        intros ([id1 k1] & -> & Hin)%list_elem_of_fmap. apply Hnin.
        apply list_elem_of_fmap. exists (id1, k1). split; [done|]. auto.
      * csimpl. apply not_elem_of_cons. split; [congruence|done].
Qed.


Lemma take_timer_fresh (id : nat) (ts after : list (nat * Suspended)) k :
  id ∉ ts.*1 -> take_timer id (ts ++ (id, k) :: after) = Some (k, ts ++ after).
Proof.
  induction ts as [|[id0 k0] ts IH]; csimpl.
  - intros _. by rewrite decide_True.
  - intros [Hne Hnin]%not_elem_of_cons. rewrite decide_False by done.
    by rewrite IH.
Qed.


Lemma timers_ok_fresh (s : State) : timers_ok s -> nextTimer s ∉ (timers s).*1.
Proof.
  intros [_ Hlt] ([id k] & Hid & Hin)%list_elem_of_fmap. simpl in Hid. subst id.
  rewrite Forall_forall in Hlt. specialize (Hlt _ Hin). simpl in Hlt. lia.
Qed.

#[local] Instance keeps_timer_respected (id : nat) : Respected (keeps_timer id).
Proof.
  split; [split|..]; try (intros ? s Hok; split; [exact Hok|by auto]).
  - intros s Hok. by split.
  - intros s1 s2 s3 H12 H23 Hok. destruct (H12 Hok) as [Hok2 Hp2].
    destruct (H23 Hok2) as [Hok3 Hp3]. split; [done|]. auto.
  - intros k s Hok. pose proof (timers_ok_fresh s Hok) as Hfresh.
    destruct Hok as [Hnd Hlt]. split; [split|]; simpl.
    + rewrite fmap_app. apply NoDup_app. split_and!; [done| |apply NoDup_singleton].
      intros x Hx ->%list_elem_of_singleton. done.
    + apply Forall_app. split.
      * eapply Forall_impl; [exact Hlt|]. intros [] ?; simpl in *; lia.
      * apply Forall_singleton. simpl. lia.
    + intros k' Hk'. unfold parked in *. simpl. apply elem_of_app. by left.
Qed.

(** Whatever runs, but the firing of the timer itself, a running timer
    stays, with what is parked under it. *)
Lemma step_keeps_timer `{Platform} (id : nat) (now : Date) (t : Task) (s : State) :
  ~ fires id t -> keeps_timer id s (step s (now, t)).
Proof.
  intros Hno. revert s. change (moves (keeps_timer id) (handle now t)).
  destruct t as [| | |data|id' rnd| | |]; simpl in *.
  - apply (moves_bind (keeps_timer id)); [by apply (moves_channel_becomes (keeps_timer id))|intros _].
    by apply (moves_dc_onopen (keeps_timer id)).
  - apply (moves_bind (keeps_timer id)); [by apply (moves_channel_becomes (keeps_timer id))|intros _].
    by apply (moves_dc_onclose (keeps_timer id)).
  - by apply (moves_dc_onerror (keeps_timer id)).
  - apply (moves_dc_onmessage (keeps_timer id)). intros delta s _ Hok. by split.
  - intros s. unfold mbind, M_bind, gets.
    destruct (take_timer id' (timers s)) as [[k rest]|] eqn:Htake;
      [|by intros ?].
    destruct (take_timer_Some _ _ _ _ Htake) as (Hsub & Hother & Hnd).
    assert (Hremove : keeps_timer id s (set_timers rest (nextTimer s) s)).
    { intros [Hnd0 Hlt]. destruct (Hnd Hnd0) as [Hnd' _]. split; [split|]; simpl.
      - done.
      - rewrite Forall_forall in Hlt |- *. auto.
      - intros k' Hk'. unfold parked in *. simpl. by apply Hother. }
    destruct k as [c key|r]; simpl.
    + etrans; [exact Hremove|].
      apply (moves_executeFunction_settled (keeps_timer id)).
    + etrans; [exact Hremove|].
      apply (moves_responseRequest_resumed (keeps_timer id)).
  - by apply (moves_worker_onmessage (keeps_timer id)).
  - by apply (moves_modify (keeps_timer id)); intros s Hok.
  - unfold sendMessage. intros s. unfold mbind, M_bind, gets. simpl.
    repeat case_match; simpl; by intros ?.
Qed.


(** ** Function calls *)

Section Calls.
Context `{Platform}.

(** A well-formed call frame: the call joins the active functions and
    its execution is parked under a fresh timer; nothing is sent. *)
Lemma step_function_call (now : Date) (data id name : string)
    (fields : list (string * JSValue)) (s : State) :
  function_call data id name fields ->
  (handle now (DataChannelMessage data) s).2 = Normal tt /\
  timers (step s (now, DataChannelMessage data))
    = timers s ++ [ (nextTimer s,
                     executeFunction_awaits (the_call id name fields) (KString id)) ] /\
  nextTimer (step s (now, DataChannelMessage data)) = S (nextTimer s) /\
  activeFunctions (step s (now, DataChannelMessage data))
    = JSMap.set (activeFunctions s) (KString id)
        {| call := the_call id name fields; startTime := now |} /\
  completedFunctions (step s (now, DataChannelMessage data)) = completedFunctions s /\
  dataChannel (step s (now, DataChannelMessage data)) = dataChannel s /\
  (exists ev,
     JSON_parse data = Normal ev /\
     debugLog (step s (now, DataChannelMessage data))
       = debugLog s ++
         [ toISOString now +:+ ": " +:+ ("Received event: " +:+ JSON_stringify ev);
           toISOString now +:+ ": "
             +:+ ("Function call received: " +:+ JSON_stringify ev);
           toISOString now +:+ ": " +:+ ("Executing function: " +:+ name) ]).
Proof.
  intros (ev & function & text & Hparse & Htype & Hid & Hfn & Hname & Hargs & Htext).
  unfold step. simpl.
  unfold dc_onmessage, try_catch, mbind, M_bind, lift.
  rewrite Hparse. simpl. rewrite Htype. simpl. rewrite Hid, Hfn. simpl.
  rewrite Hname, Hargs. simpl. rewrite Htext. simpl. split_and!; try done.
  exists ev. split; [done|]. by rewrite <- !app_assoc.
Qed.

(** The result of a well-formed call: never a rejection. *)
Lemma executeFunction_result_well_formed (now : Date) (rnd : Random)
    (id name : string) (fields : list (string * JSValue)) :
  exists r,
    executeFunction_result now rnd (the_call id name fields) = Normal r /\
    res_id r = JString id /\ res_name r = JString name /\
    (name = "get_weather" ->
       res_error r = None /\
       mock_weather now rnd (JObject fields) = Normal (res_result r)) /\
    (name ≠ "get_weather" ->
       res_result r = JNull /\ res_error r = Some ("未実装の関数: " +:+ name)).
Proof.
  unfold executeFunction_result, the_call. simpl.
  destruct (String.eqb_spec name "get_weather") as [->|Hne].
  - eexists. split_and!; [reflexivity..| |done]. by intros _.
  - eexists. split_and!; [reflexivity..|done|]. by intros _.
Qed.


(** The timer of a call fires: the result is recorded, the call leaves
    the active functions, and the response is sent if the channel is
    open at that time. *)
Lemma step_timer_fired (now : Date) (rnd : Random) (id : nat)
    (c : FunctionCall) (key : Key) (rest : list (nat * Suspended))
    (r : FunctionResult) (s : State) :
  take_timer id (timers s) = Some (executeFunction_awaits c key, rest) ->
  executeFunction_result now rnd c = Normal r ->
  (handle now (TimerFired id rnd) s).2 = Normal tt /\
  timers (step s (now, TimerFired id rnd)) = rest /\
  nextTimer (step s (now, TimerFired id rnd)) = nextTimer s /\
  completedFunctions (step s (now, TimerFired id rnd)) = completedFunctions s ++ [r] /\
  activeFunctions (step s (now, TimerFired id rnd))
    = JSMap.delete (activeFunctions s) key /\
  outbound (step s (now, TimerFired id rnd))
    = (if channel_open s
       then outbound s ++ [ JSON_stringify (functionResponseEvent r) ]
       else outbound s) /\
  channel_open (step s (now, TimerFired id rnd)) = channel_open s.
Proof.
  intros Htake Hr. unfold step. simpl. unfold mbind, M_bind, gets.
  rewrite Htake. simpl.
  unfold executeFunction_settled, try_catch, mbind, M_bind, lift.
  rewrite Hr. simpl. unfold channel_open, outbound, send. simpl.
  destruct (dataChannel s) as [[rs out]|] eqn:Hdc; simpl; rewrite ?Hdc; simpl;
    [destruct rs; simpl; rewrite ?Hdc|]; by split_and!.
Qed.


End Calls.


(** C3, as the code has it.  The dispatcher has no guard on the [id]: of
    two well-formed function-call frames with the same [id], the second
    arriving while the first is still executing, each is executed.  After
    the two frames two executions are parked, one per frame, while the
    active functions hold a single entry under the [id], that of the
    second call; when both timers have fired on an open channel, two
    results are recorded and two [function-response] events carrying the
    [id] have been sent. *)
Theorem duplicate_call_is_executed_again `{Platform}
    (s : State) (t1 t2 t3 t4 : Date) (d1 d2 id name1 name2 : string)
    (fields1 fields2 : list (string * JSValue)) (rnd1 rnd2 : Random) :
  timers_ok s ->
  channel_open s = true ->
  function_call d1 id name1 fields1 ->
  function_call d2 id name2 fields2 ->
  let n := nextTimer s in
  let c1 := the_call id name1 fields1 in
  let c2 := the_call id name2 fields2 in
  let s2 := run [ (t1, DataChannelMessage d1); (t2, DataChannelMessage d2) ] s in
  let s4 := run [ (t3, TimerFired n rnd1); (t4, TimerFired (S n) rnd2) ] s2 in
  timers s2 = timers s ++ [ (n, executeFunction_awaits c1 (KString id));
                            (S n, executeFunction_awaits c2 (KString id)) ] /\
  activeFunctions s2
    = JSMap.set (activeFunctions s) (KString id) {| call := c2; startTime := t2 |} /\
  (exists ev1 ev2,
     JSON_parse d1 = Normal ev1 /\ JSON_parse d2 = Normal ev2 /\
     debugLog s2
       = debugLog s ++
         [ toISOString t1 +:+ ": " +:+ ("Received event: " +:+ JSON_stringify ev1);
           toISOString t1 +:+ ": "
             +:+ ("Function call received: " +:+ JSON_stringify ev1);
           toISOString t1 +:+ ": " +:+ ("Executing function: " +:+ name1);
           toISOString t2 +:+ ": " +:+ ("Received event: " +:+ JSON_stringify ev2);
           toISOString t2 +:+ ": "
             +:+ ("Function call received: " +:+ JSON_stringify ev2);
           toISOString t2 +:+ ": " +:+ ("Executing function: " +:+ name2) ]) /\
  exists r1 r2,
    executeFunction_result t3 rnd1 c1 = Normal r1 /\
    executeFunction_result t4 rnd2 c2 = Normal r2 /\
    res_id r1 = JString id /\ res_id r2 = JString id /\
    completedFunctions s4 = completedFunctions s ++ [r1; r2] /\
    outbound s4 = outbound s ++ [ JSON_stringify (functionResponseEvent r1);
                                  JSON_stringify (functionResponseEvent r2) ].
Proof.
  intros Hok Hopen Hd1 Hd2 n c1 c2 s2 s4.
  set (s1 := step s (t1, DataChannelMessage d1)).
  destruct (step_function_call t1 d1 id name1 fields1 s Hd1)
    as (_ & Ht1 & Hn1 & Ha1 & Hc1 & Hdc1 & ev1 & Hev1 & Hlog1).
  destruct (step_function_call t2 d2 id name2 fields2 s1 Hd2)
    as (_ & Ht2 & Hn2 & Ha2 & Hc2 & Hdc2 & ev2 & Hev2 & Hlog2).
  fold s1 in Ht1, Hn1, Ha1, Hc1, Hdc1, Hlog1.
  change (step s1 (t2, DataChannelMessage d2)) with s2 in Ht2, Hn2, Ha2, Hc2, Hdc2, Hlog2.
  rewrite Ht1, Hn1 in Ht2. rewrite Ha1 in Ha2. rewrite Hc1 in Hc2. rewrite Hdc1 in Hdc2.
  rewrite Hlog1, <- app_assoc in Hlog2. simpl in Hlog2.
  fold n c1 c2 in Ht2. rewrite <- app_assoc in Ht2. simpl in Ht2.
  assert (Hopen2 : channel_open s2 = true) by (unfold channel_open; by rewrite Hdc2).
  assert (Hout2 : outbound s2 = outbound s) by (unfold outbound; by rewrite Hdc2).
  split; [exact Ht2|]. split; [by rewrite Ha2, JSMapFacts.set_set|].
  split; [by exists ev1, ev2|].
  destruct (executeFunction_result_well_formed t3 rnd1 id name1 fields1)
    as (r1 & Hr1 & Hid1 & _).
  destruct (executeFunction_result_well_formed t4 rnd2 id name2 fields2)
    as (r2 & Hr2 & Hid2 & _).
  exists r1, r2. split_and!; [done..| |].
  all: set (s3 := step s2 (t3, TimerFired n rnd1));
    change s4 with (step s3 (t4, TimerFired (S n) rnd2)).
  all: assert (Htake1 : take_timer n (timers s2)
         = Some (executeFunction_awaits c1 (KString id),
                 timers s ++ [ (S n, executeFunction_awaits c2 (KString id)) ]))
    by (rewrite Ht2; apply take_timer_fresh; by apply timers_ok_fresh).
  all: destruct (step_timer_fired t3 rnd1 n c1 (KString id) _ r1 s2 Htake1 Hr1)
    as (_ & Ht3 & _ & Hc3 & _ & Hout3 & Hopen3).
  all: fold s3 in Ht3, Hc3, Hout3, Hopen3.
  all: assert (Htake2 : take_timer (S n) (timers s3)
         = Some (executeFunction_awaits c2 (KString id), timers s ++ [])).
  1,3: rewrite Ht3; apply take_timer_fresh;
    intros ([i k] & Hi & Hin)%list_elem_of_fmap; simpl in Hi; subst i;
    destruct Hok as [_ Hlt]; rewrite Forall_forall in Hlt;
    specialize (Hlt _ Hin); simpl in Hlt; unfold n in Hlt; lia.
  all: destruct (step_timer_fired t4 rnd2 (S n) c2 (KString id) _ r2 s3 Htake2 Hr2)
    as (_ & _ & _ & Hc4 & _ & Hout4 & _).
  - by rewrite Hc4, Hc3, Hc2, <- app_assoc.
  - rewrite Hout4, Hopen3, Hopen2, Hout3, Hopen2, Hout2. by rewrite <- app_assoc.
Qed.

Lemma duplicate_call_is_executed_again_witness :
  let H := Reference.platform in
  let call := Samples.call_frame "a1" "get_weather"
                (JObject [ ("location", JString "Tokyo") ]) in
  let s2 := run [ (1000%Z, DataChannelMessage call);
                  (1100%Z, DataChannelMessage call) ] Samples.ready in
  let s4 := run [ (2000%Z, TimerFired (nextTimer Samples.ready) (fun _ => 7%Z));
                  (2100%Z, TimerFired (S (nextTimer Samples.ready)) (fun _ => 8%Z)) ]
              s2 in
  exists r1 r2,
    res_id r1 = JString "a1" /\ res_id r2 = JString "a1" /\
    completedFunctions s4 = completedFunctions Samples.ready ++ [r1; r2] /\
    outbound s4 = outbound Samples.ready
                  ++ [ JSON_stringify (functionResponseEvent r1);
                       JSON_stringify (functionResponseEvent r2) ].
Proof.
  intros H call s2 s4.
  assert (Hok : timers_ok Samples.ready) by (split; vm_compute; constructor).
  assert (Hcall : function_call call "a1" "get_weather"
                    [ ("location", JString "Tokyo") ]).
  { exists (Samples.call_event "a1" "get_weather"
              (JObject [ ("location", JString "Tokyo") ])),
           (Samples.call_function "get_weather"
              (JObject [ ("location", JString "Tokyo") ])),
           (Reference.stringify (JObject [ ("location", JString "Tokyo") ])).
    split_and!; vm_compute; reflexivity. }
  destruct (duplicate_call_is_executed_again Samples.ready
              1000%Z 1100%Z 2000%Z 2100%Z call call "a1" "get_weather" "get_weather"
              [ ("location", JString "Tokyo") ] [ ("location", JString "Tokyo") ]
              (fun _ => 7%Z) (fun _ => 8%Z) Hok eq_refl Hcall Hcall)
    as (_ & _ & _ & r1 & r2 & _ & _ & Hid1 & Hid2 & Hc & Hout).
  exists r1, r2. split_and!; [exact Hid1|exact Hid2|exact Hc|exact Hout].
Defined.

(** C3, as stated, fails: the same well-formed call of [get_weather] is
    dispatched twice under the id [a1], the second while the first is
    executing (two timers are running, one entry is active); both run to
    the end, two results are recorded and two responses are sent. *)
Lemma duplicate_id_is_not_ignored :
  let H := Reference.platform in
  let call := Samples.call_frame "a1" "get_weather"
                (JObject [ ("location", JString "Tokyo") ]) in
  let s2 := run [ (1000%Z, DataChannelMessage call);
                  (1100%Z, DataChannelMessage call) ] Samples.ready in
  let s4 := run [ (2000%Z, TimerFired 0 (fun _ => 7%Z));
                  (2100%Z, TimerFired 1 (fun _ => 8%Z)) ] s2 in
  length (timers s2) = 2 /\
  JSMap.size (activeFunctions s2) = 1 /\
  res_id <$> completedFunctions s4 = [ JString "a1"; JString "a1" ] /\
  length (outbound s4) = length (outbound Samples.ready) + 2 /\
  (fun frame => match Reference.parse frame with
                | Normal ev => (get_opt ev "type", get_opt ev "id")
                | Throw _ => (JUndefined, JUndefined)
                end)
    <$> drop (length (outbound Samples.ready)) (outbound s4)
    = [ (JString "response.function.response", JString "a1");
        (JString "response.function.response", JString "a1") ].
Proof. intros H call s2 s4. vm_compute. split_and!; reflexivity. Qed.




(** C5. A call of a function without a handler.  In the registry,
    [execute] is fulfilled (not rejected) with a result whose [result] is
    [null] and whose [error] is set.  In the page, where [get_weather] is
    the one function handled, the execution of any other name settles the
    same way; when its timer fires the task completes normally, and on an
    open channel the response sent carries an error object as payload. *)
Theorem unregistered_function_yields_error `{Platform} :
  (forall (this : Registry.FunctionRegistry) now rnd (c : Registry.FunctionCall),
     JSMap.get this (Registry.call_name c) = None ->
     Registry.execute this now rnd c
       = Fulfilled {| Registry.res_id := Registry.call_id c;
                      Registry.res_name := Registry.call_name c;
                      Registry.res_result := JNull;
                      Registry.res_error :=
                        Some ("Function '" +:+ Registry.call_name c +:+ "' not found") |}) /\
  (forall now rnd id name fields key timer rest s,
     name ≠ "get_weather" ->
     take_timer timer (timers s)
       = Some (executeFunction_awaits (the_call id name fields) key, rest) ->
     executeFunction_result now rnd (the_call id name fields)
       = Normal {| res_id := JString id; res_name := JString name;
                   res_result := JNull;
                   res_error := Some ("未実装の関数: " +:+ name) |} /\
     (handle now (TimerFired timer rnd) s).2 = Normal tt /\
     outbound (step s (now, TimerFired timer rnd))
       = (if channel_open s
          then outbound s ++
               [ JSON_stringify
                   (JObject
                      [ ("type", JString "response.function.response");
                        ("function", JObject
                           [ ("name", JString name);
                             ("response", JObject
                                [ ("error", JString ("未実装の関数: " +:+ name)) ]) ]);
                        ("id", JString id) ]) ]
          else outbound s)).
Proof.
  split.
  - intros this now rnd c Hget. unfold Registry.execute. by rewrite Hget.
  - intros now rnd id name fields key timer rest s Hname Htake.
    assert (Hr : executeFunction_result now rnd (the_call id name fields)
                 = Normal {| res_id := JString id; res_name := JString name;
                             res_result := JNull;
                             res_error := Some ("未実装の関数: " +:+ name) |}).
    { unfold executeFunction_result, the_call. simpl.
      by destruct (String.eqb_spec name "get_weather"). }
    destruct (step_timer_fired now rnd timer _ key rest _ s Htake Hr)
      as (Hnormal & _ & _ & _ & _ & Hout & _).
    split_and!; [exact Hr|exact Hnormal|exact Hout].
Qed.

Lemma unregistered_function_yields_error_witness :
  let H := Reference.platform in
  let call := Samples.call_frame "b2" "get_time" (JObject []) in
  let s1 := step Samples.ready (1000%Z, DataChannelMessage call) in
  (exists r, Registry.execute Registry.functionRegistry 0%Z (fun _ => 7%Z)
               {| Registry.call_id := "b2"; Registry.call_name := "get_time";
                  Registry.call_arguments := JObject [] |} = Fulfilled r /\
             Registry.res_result r = JNull /\
             Registry.res_error r = Some "Function 'get_time' not found") /\
  channel_open s1 = true /\
  (handle 2000%Z (TimerFired 0 (fun _ => 7%Z)) s1).2 = Normal tt /\
  outbound (step s1 (2000%Z, TimerFired 0 (fun _ => 7%Z)))
    = (if channel_open s1
       then outbound s1 ++
            [ JSON_stringify
                (JObject
                   [ ("type", JString "response.function.response");
                     ("function", JObject
                        [ ("name", JString "get_time");
                          ("response", JObject
                             [ ("error", JString ("未実装の関数: " +:+ "get_time")) ]) ]);
                     ("id", JString "b2") ]) ]
       else outbound s1).
Proof.
  intros H call s1.
  destruct unregistered_function_yields_error as [Hregistry Hpage].
  split.
  - eexists. split; [apply Hregistry; reflexivity|]. split; reflexivity.
  - assert (Htake : take_timer 0 (timers s1)
              = Some (executeFunction_awaits (the_call "b2" "get_time" []) (KString "b2"),
                      [])) by (vm_compute; reflexivity).
    destruct (Hpage 2000%Z (fun _ => 7%Z) "b2" "get_time" [] (KString "b2") 0 [] s1)
      as (_ & Hnormal & Hout); [discriminate|exact Htake|].
    split; [vm_compute; reflexivity|]. split; [exact Hnormal|exact Hout].
Defined.

(** C1. Text-delta frames, each with a string [delta], dispatched in
    arrival order from a conversation that does not end with an assistant
    message (the empty one, for instance), produce exactly one new
    message: an assistant message whose content is the concatenation of
    the deltas in arrival order, after the earlier messages, which are
    unchanged.  The sequence has a first frame: with no frame at all no
    message is produced. *)
Theorem text_deltas_concatenate `{Platform}
    (s : State) (t0 : Date) (f0 d0 : string)
    (fs : list (Date * string)) (ds : list string) :
  ~ continues (messages s) ->
  text_delta f0 d0 ->
  Forall2 (fun f d => text_delta f.2 d) fs ds ->
  messages (run (frames ((t0, f0) :: fs)) s)
    = messages s ++
      [ {| role := assistant;
           content := String.concat "" (d0 :: ds);
           timestamp := t0 |} ].
Proof.
  intros Hlast Hd0 Hds.
  change (run (frames ((t0, f0) :: fs)) s)
    with (run (frames fs) (step s (t0, DataChannelMessage f0))).
  rewrite (run_text_deltas fs ds Hds _ (messages s)
             {| role := assistant; content := d0; timestamp := t0 |}).
  - by rewrite concat_cons.
  - rewrite (step_text_delta t0 f0 d0 s Hd0). by apply append_delta_fresh.
  - reflexivity.
Qed.

Lemma text_deltas_concatenate_witness :
  let H := Reference.platform in
  messages (run (frames [ (1000%Z, Samples.delta_frame "Hel");
                          (1020%Z, Samples.delta_frame "lo, ");
                          (1045%Z, Samples.delta_frame "world") ]) initial)
    = [ {| role := assistant; content := "Hello, world"; timestamp := 1000%Z |} ].
Proof.
  intros H.
  apply (text_deltas_concatenate initial 1000%Z (Samples.delta_frame "Hel") "Hel"
           [ (1020%Z, Samples.delta_frame "lo, ");
             (1045%Z, Samples.delta_frame "world") ]
           [ "lo, "; "world" ]).
  - unfold continues. simpl. discriminate.
  - eexists. split_and!; reflexivity.
  - repeat constructor; eexists; split_and!; reflexivity.
Defined.

(** C6. A frame whose text is not JSON ([JSON.parse] throws): the
    dispatcher catches the failure and logs it (one entry of the debug
    log), completes normally (nothing is thrown to the caller), and leaves
    the messages, the transcripts, the active and completed function
    calls, the running timers, the status and the error as they were; the
    data channel and the peer connection stay as they were, so the session
    is not closed. *)
Theorem malformed_frame_is_dropped `{Platform}
    (s : State) (now : Date) (data : string) (e : Thrown) :
  JSON_parse data = Throw e ->
  handle now (DataChannelMessage data) s
    = (logged now ("Error parsing event: " +:+ Thrown_toString e) s, Normal tt) /\
  debugLog (step s (now, DataChannelMessage data))
    = debugLog s ++ [ toISOString now +:+ ": "
                      +:+ ("Error parsing event: " +:+ Thrown_toString e) ] /\
  messages (step s (now, DataChannelMessage data)) = messages s /\
  transcripts (step s (now, DataChannelMessage data)) = transcripts s /\
  activeFunctions (step s (now, DataChannelMessage data)) = activeFunctions s /\
  completedFunctions (step s (now, DataChannelMessage data)) = completedFunctions s /\
  timers (step s (now, DataChannelMessage data)) = timers s /\
  status (step s (now, DataChannelMessage data)) = status s /\
  error (step s (now, DataChannelMessage data)) = error s /\
  isDataChannelReady (step s (now, DataChannelMessage data)) = isDataChannelReady s /\
  dataChannel (step s (now, DataChannelMessage data)) = dataChannel s /\
  peerConnection (step s (now, DataChannelMessage data)) = peerConnection s.
Proof.
  intros Hparse. unfold step. simpl.
  rewrite (dc_onmessage_malformed now data e s Hparse). by split_and!.
Qed.

Lemma malformed_frame_is_dropped_witness :
  let H := Reference.platform in
  let s' := step Samples.ready (2000%Z, DataChannelMessage "{type: response.text.delta") in
  handle 2000%Z (DataChannelMessage "{type: response.text.delta") Samples.ready
    = (s', Normal tt) /\
  debugLog s' = debugLog Samples.ready ++
    [ "1970-01-01T00:00:02.000Z: Error parsing event: SyntaxError: Unexpected token in JSON" ] /\
  messages s' = [] /\
  transcripts s' = [] /\
  activeFunctions s' = [] /\
  completedFunctions s' = [] /\
  timers s' = [] /\
  status s' = "Ready" /\
  error s' = None /\
  isDataChannelReady s' = true /\
  dataChannel s' = dataChannel Samples.ready /\
  peerConnection s' = peerConnection Samples.ready.
Proof.
  intros H s'.
  pose proof (malformed_frame_is_dropped Samples.ready 2000%Z
                "{type: response.text.delta"
                (ThrownError "SyntaxError" "Unexpected token in JSON") eq_refl) as Hw.
  vm_compute in Hw. vm_compute. exact Hw.
Defined.

(** C8. A [response.audio_transcript.done] frame whose [transcript] is the
    string [t] appends exactly one transcript entry, [t], and leaves the
    messages and the rest of the dispatcher state (function calls, timers,
    status, error, channel) unchanged, in whatever state it arrives, hence
    whatever text deltas were processed before; text deltas processed
    after it leave the entry in place.  The debug log, as for every frame
    that parses, gains its [Received event] entry. *)
Theorem transcript_done_appends_one_entry `{Platform}
    (s : State) (now : Date) (data t : string) :
  transcript_done data t ->
  (exists ev,
     JSON_parse data = Normal ev /\
     handle now (DataChannelMessage data) s
       = (setTranscripts (fun prev => prev ++ [t])
            (logged now ("Received event: " +:+ JSON_stringify ev) s),
          Normal tt)) /\
  transcripts (step s (now, DataChannelMessage data)) = transcripts s ++ [t] /\
  messages (step s (now, DataChannelMessage data)) = messages s /\
  activeFunctions (step s (now, DataChannelMessage data)) = activeFunctions s /\
  completedFunctions (step s (now, DataChannelMessage data)) = completedFunctions s /\
  timers (step s (now, DataChannelMessage data)) = timers s /\
  status (step s (now, DataChannelMessage data)) = status s /\
  error (step s (now, DataChannelMessage data)) = error s /\
  isDataChannelReady (step s (now, DataChannelMessage data)) = isDataChannelReady s /\
  dataChannel (step s (now, DataChannelMessage data)) = dataChannel s /\
  peerConnection (step s (now, DataChannelMessage data)) = peerConnection s /\
  (forall fs ds,
     Forall2 (fun f d => text_delta f.2 d) fs ds ->
     transcripts (run (frames fs) (step s (now, DataChannelMessage data)))
       = transcripts s ++ [t]).
Proof.
  intros Ht.
  destruct (dc_onmessage_transcript_done now data t s Ht) as (ev & Hparse & Heq).
  assert (Hstep : step s (now, DataChannelMessage data)
                  = setTranscripts (fun prev => prev ++ [t])
                      (logged now ("Received event: " +:+ JSON_stringify ev) s)).
  { unfold step. simpl. by rewrite Heq. }
  split; [by exists ev|]. rewrite Hstep. split_and!; try reflexivity.
  intros fs ds Hds. by rewrite (run_text_deltas_keep_transcripts fs ds Hds).
Qed.

Lemma transcript_done_appends_one_entry_witness :
  let H := Reference.platform in
  let before := run (frames [ (1000%Z, Samples.delta_frame "Hel") ]) Samples.ready in
  let s' := step before (1010%Z, DataChannelMessage (Samples.transcript_frame "hello")) in
  transcripts s' = [ "hello" ] /\
  messages s' = messages before /\
  transcripts (run (frames [ (1020%Z, Samples.delta_frame "lo") ]) s') = [ "hello" ].
Proof.
  intros H before s'.
  destruct (transcript_done_appends_one_entry before 1010%Z
              (Samples.transcript_frame "hello") "hello")
    as (_ & Htr & Hms & _ & _ & _ & _ & _ & _ & _ & _ & Hafter).
  - eexists. split_and!; reflexivity.
  - split_and!; [exact Htr|exact Hms|].
    apply (Hafter [ (1020%Z, Samples.delta_frame "lo") ] [ "lo" ]).
    repeat constructor. eexists. split_and!; reflexivity.
Defined.

End PageFacts.

(* ================================================================== *)
(** * Signaling *)
(* ================================================================== *)

Module SignalingFacts.
Import Worker.

Section Signaling.
Context `{Platform}.

(** What the worker does with a request for the remote description that
    the remote end refuses. *)
Lemma onmessage_refused (origin : string) (now : Date) (net : Network)
    (data : JSValue) (content : string) (resp : Response) :
  get_opt data "content" = JString content ->
  net (remote_description_request content (get_opt data "token")) = Normal resp ->
  ok resp = false ->
  onmessage origin now net
    {| to_worker_type := GET_REMOTE_DESCRIPTION; to_worker_data := data |}
  = ([ Posted {| to_main_type := DEBUG_LOG;
                 to_main_data := JString (toISOString now +:+ ": "
                                          +:+ "Getting remote description...");
                 to_main_error := None |};
       Posted {| to_main_type := DEBUG_LOG;
                 to_main_data :=
                   JString (toISOString now +:+ ": "
                            +:+ ("Making request to: "
                                 +:+ "https://api.openai.com/v1/realtime"
                                 +:+ "?model="
                                 +:+ "gpt-4o-mini-realtime-preview-2024-12-17"));
                 to_main_error := None |};
       Posted {| to_main_type := DEBUG_LOG;
                 to_main_data :=
                   JString (toISOString now +:+ ": "
                            +:+ ("Using offer SDP: "
                                 +:+ String.substring 0 100 content +:+ "..."));
                 to_main_error := None |};
       Fetched (remote_description_request content (get_opt data "token"));
       Posted {| to_main_type := DEBUG_LOG;
                 to_main_data :=
                   JString (toISOString now +:+ ": "
                            +:+ ("Response error (" +:+ pretty (status resp)
                                 +:+ "): " +:+ text resp));
                 to_main_error := None |};
       Posted {| to_main_type := ERROR;
                 to_main_data := JUndefined;
                 to_main_error :=
                   Some ("Failed to get remote description: "
                         +:+ pretty (status resp) +:+ " - " +:+ text resp) |} ],
     Normal tt).
Proof.
  intros Hcontent Hnet Hok.
  unfold onmessage. simpl. rewrite Hcontent.
  unfold getRemoteDescription, try_catch, mbind, W_bind, log, postMessage, fetch.
  simpl. fold (remote_description_request content (get_opt data "token")).
  rewrite Hnet. simpl. rewrite Hok. reflexivity.
Qed.

End Signaling.

(** C7. The request for the remote description is answered with a status
    outside 200-299 (401, for instance).  The worker makes that one
    request and no other; [getRemoteDescription] throws an error whose
    message carries the status and the body of the response, which the
    worker posts as its [ERROR] message, after its log entries and in
    place of the remote description.  The page, handling what the worker
    posted, ends with the status [Error] and that message as its error;
    it posts nothing more to the worker (no retry), and its conversation
    is what it was: empty, if it was empty. *)
Theorem signaling_refusal_is_fatal `{Platform}
    (origin : string) (now : Date) (net : Network) (data : JSValue)
    (content : string) (resp : Response)
    (s : Page.State) (t : Date) (browser : Page.Browser) :
  get_opt data "content" = JString content ->
  net (remote_description_request content (get_opt data "token")) = Normal resp ->
  ok resp = false ->
  let failure := "Failed to get remote description: "
                 +:+ pretty (status resp) +:+ " - " +:+ text resp in
  let w := onmessage origin now net
             {| to_worker_type := GET_REMOTE_DESCRIPTION; to_worker_data := data |} in
  let s' := Page.run (Page.deliver t browser (posted w)) s in
  (getRemoteDescription now net content (get_opt data "token")).2
    = Throw (ThrownError "Error" failure) /\
  requests w = [ remote_description_request content (get_opt data "token") ] /\
  (exists logs,
     posted w = logs ++ [ {| to_main_type := ERROR; to_main_data := JUndefined;
                             to_main_error := Some failure |} ] /\
     Forall (fun m => to_main_type m = DEBUG_LOG) logs) /\
  Page.status s' = "Error" /\
  Page.error s' = Some failure /\
  Page.messages s' = Page.messages s /\
  Page.toWorker s' = Page.toWorker s /\
  Page.timers s' = Page.timers s.
Proof.
  intros Hcontent Hnet Hok failure w s'. subst s' w.
  rewrite (onmessage_refused origin now net data content resp Hcontent Hnet Hok).
  split.
  { unfold getRemoteDescription, mbind, W_bind, log, postMessage, fetch. simpl.
    fold (remote_description_request content (get_opt data "token")).
    rewrite Hnet. simpl. by rewrite Hok. }
  split; [reflexivity|]. split.
  - eexists [_; _; _; _]. split; [reflexivity|]. by repeat constructor.
  - by split_and!.
Qed.

(** The remote end answers 401 to the request the page made. *)
Lemma signaling_refusal_is_fatal_witness :
  let H := Reference.platform in
  let net : Network := fun _ => Normal {| status := 401; text := "Unauthorized" |} in
  let data := JObject [ ("content", JString "v=0"); ("token", JString "ek_123") ] in
  let w := onmessage "http://localhost:3000" 20%Z net
             {| to_worker_type := GET_REMOTE_DESCRIPTION; to_worker_data := data |} in
  let s' := Page.run (Page.deliver 30%Z Samples.browser (posted w)) Samples.negotiating in
  length (requests w) = 1 /\
  Page.status s' = "Error" /\
  Page.error s' = Some "Failed to get remote description: 401 - Unauthorized" /\
  Page.messages s' = [].
Proof.
  intros H net data w s'.
  destruct (signaling_refusal_is_fatal "http://localhost:3000" 20%Z net data "v=0"
              {| status := 401; text := "Unauthorized" |}
              Samples.negotiating 30%Z Samples.browser eq_refl eq_refl eq_refl)
    as (_ & Hreq & _ & Hstatus & Herror & Hmessages & _).
  split_and!.
  - fold w in Hreq. by rewrite Hreq.
  - exact Hstatus.
  - exact Herror.
  - exact Hmessages.
Defined.

End SignalingFacts.

(* ================================================================== *)
(** * The registry and the weather function, further *)
(* ================================================================== *)

Module RegistryMore.
Import Registry.

(** X1. Registration and execution compose as insertion and lookup: once
    [(d, h)] is registered, a call under the name of [d] is settled by [h]
    (its value becomes the result, its rejection the error text), and a
    call under any other name is executed exactly as before the
    registration. *)
Theorem execute_after_register
    (this : FunctionRegistry) (d : FunctionDefinition) (h : FunctionHandler)
    (now : Date) (rnd : Random) (c : FunctionCall) :
  (call_name c = def_name d ->
     execute (register d h this) now rnd c
       = match h now rnd (call_arguments c) with
         | Fulfilled v =>
             Fulfilled {| res_id := call_id c; res_name := call_name c;
                          res_result := v; res_error := None |}
         | Rejected e =>
             Fulfilled {| res_id := call_id c; res_name := call_name c;
                          res_result := JNull;
                          res_error := Some (match e with
                                             | ThrownError _ message => message
                                             | ThrownValue v => ToString v
                                             end) |}
         | Unsettled => Unsettled
         end) /\
  (call_name c ≠ def_name d ->
     execute (register d h this) now rnd c = execute this now rnd c).
Proof.
  unfold execute, register. split.
  - intros ->. rewrite JSMapFacts.get_set_eq. simpl.
    destruct (h now rnd (call_arguments c)) as [v|[]|]; reflexivity.
  - intros Hne. by rewrite JSMapFacts.get_set_ne.
Qed.

(** Definitions filed under other keys are not touched by the
    replacement of one name. *)
Lemma replace_absent (d : FunctionDefinition) (this : FunctionRegistry) :
  def_name d ∉ JSMap.keys this ->
  Forall (fun ke => def_name (definition ke.2) = ke.1) this ->
  (fun d' => if decide (def_name d' = def_name d) then d else d')
    <$> getAllDefinitions this
  = getAllDefinitions this.
Proof.
  unfold getAllDefinitions, JSMap.values, JSMap.keys.
  induction this as [|[k e] this IH]; csimpl; [done|].
  intros [Hne Hnin]%not_elem_of_cons [Hk Hall]%Forall_cons. simpl in Hk.
  rewrite decide_False by congruence. f_equal. by apply IH.
Qed.

Lemma getAllDefinitions_register_taken (d : FunctionDefinition) (h : FunctionHandler)
    (this : FunctionRegistry) :
  well_keyed this ->
  def_name d ∈ JSMap.keys this ->
  getAllDefinitions (register d h this)
  = (fun d' => if decide (def_name d' = def_name d) then d else d')
      <$> getAllDefinitions this.
Proof.
  unfold register. intros [Hnd Hall].
  induction this as [|[k e] this IH]; simpl.
  - by intros ?%elem_of_nil.
  - apply NoDup_cons in Hnd as [Hnin Hnd]. apply Forall_cons in Hall as [Hk Hall].
    simpl in Hk. intros Hin.
    destruct (decide (k = def_name d)) as [->|Hne].
    + unfold getAllDefinitions in IH |- *. csimpl. rewrite decide_True by done. f_equal.
      symmetry. by apply replace_absent.
    + apply elem_of_cons in Hin as [Heq|Hin]; [congruence|].
      unfold getAllDefinitions in IH |- *. csimpl.
      rewrite decide_False by congruence. f_equal. by apply IH.
Qed.

(** X2. [getAllDefinitions] lists the definitions in the order of their
    first registration: a definition under a new name goes last; a
    definition under a name already taken replaces the earlier one where
    it stands, that is, the list is the old one with the definition of
    that name replaced by the new definition and every other definition
    kept, so the list of names does not change. *)
Theorem register_keeps_order
    (rs : list (FunctionDefinition * FunctionHandler))
    (d : FunctionDefinition) (h : FunctionHandler) :
  (def_name d ∉ def_name <$> getAllDefinitions (register_all rs new) ->
     getAllDefinitions (register d h (register_all rs new))
       = getAllDefinitions (register_all rs new) ++ [d]) /\
  (def_name d ∈ def_name <$> getAllDefinitions (register_all rs new) ->
     getAllDefinitions (register d h (register_all rs new))
       = (fun d' => if decide (def_name d' = def_name d) then d else d')
           <$> getAllDefinitions (register_all rs new) /\
     d ∈ getAllDefinitions (register d h (register_all rs new)) /\
     def_name <$> getAllDefinitions (register d h (register_all rs new))
       = def_name <$> getAllDefinitions (register_all rs new)).
Proof.
  assert (Hwk : well_keyed (register_all rs new))
    by apply RegistryFacts.well_keyed_register_all, RegistryFacts.well_keyed_new.
  pose proof (RegistryFacts.well_keyed_register d h _ Hwk) as Hwk'.
  pose proof Hwk as [Hnd Hall]. destruct Hwk' as [Hnd' Hall'].
  rewrite (RegistryFacts.names_are_keys _ Hall).
  rewrite (RegistryFacts.names_are_keys _ Hall'). split.
  - intros Hnin. unfold register.
    generalize (register_all rs new) Hnin. clear.
    intros this. unfold getAllDefinitions, JSMap.values, JSMap.keys.
    induction this as [|[k e] this IH]; csimpl; [done|].
    intros [Hne Hnin]%not_elem_of_cons. rewrite decide_False by done.
    csimpl. f_equal. by apply IH.
  - intros Hin. split_and!.
    + by apply getAllDefinitions_register_taken.
    + rewrite (getAllDefinitions_register_taken d h _ Hwk Hin).
      rewrite <- (RegistryFacts.names_are_keys _ Hall) in Hin.
      apply list_elem_of_fmap in Hin as (d' & Hname & Hd').
      apply list_elem_of_fmap. exists d'. split; [|done].
      by rewrite decide_True.
    + unfold register. by apply JSMapFacts.keys_set_in.
Qed.

(** X3. The mock weather, for arguments that are an object: the handler
    of the registry is fulfilled and the [executeFunction] of the page
    yields the same data, without error.  The location is the one asked
    for, the units are [celsius] unless others are given, the temperature
    is within 15..29 for [celsius] and within 60..89 otherwise, the
    condition is one of the five, the humidity is within 30..79 and the
    wind speed within 5..24. *)
Theorem mock_weather_is_within_bounds `{Platform}
    (now : Date) (rnd : Random) (id : string) (fields : list (string * JSValue)) :
  exists temperature condition humidity windSpeed units,
    weatherFunctionHandler now rnd (JObject fields)
      = Fulfilled
          (JObject [ ("location", own_property fields "location");
                     ("temperature", JNumber temperature);
                     ("condition", JString condition);
                     ("humidity", JNumber humidity);
                     ("windSpeed", JNumber windSpeed);
                     ("units", units);
                     ("timestamp", JString (toISOString now)) ]) /\
    Page.executeFunction_result now rnd (Page.the_call id "get_weather" fields)
      = Normal
          {| Page.res_id := JString id; Page.res_name := JString "get_weather";
             Page.res_result :=
               JObject [ ("location", own_property fields "location");
                         ("temperature", JNumber temperature);
                         ("condition", JString condition);
                         ("humidity", JNumber humidity);
                         ("windSpeed", JNumber windSpeed);
                         ("units", units);
                         ("timestamp", JString (toISOString now)) ];
             Page.res_error := None |} /\
    units = match own_property fields "units" with
            | JUndefined => JString "celsius"
            | given => given
            end /\
    (if is_string units "celsius"
     then (15 <= temperature <= 29)%Z
     else (60 <= temperature <= 89)%Z) /\
    condition ∈ [ "晴れ"; "曇り"; "雨"; "雪"; "霧" ] /\
    (30 <= humidity <= 79)%Z /\
    (5 <= windSpeed <= 24)%Z.
Proof.
  unfold weatherFunctionHandler, Page.executeFunction_result, Page.the_call,
    mock_weather. simpl.
  pose proof (Z.mod_pos_bound (rnd 0) 15 eq_refl) as H15.
  pose proof (Z.mod_pos_bound (rnd 0) 30 eq_refl) as H30.
  pose proof (Z.mod_pos_bound (rnd 1) 5 eq_refl) as H5.
  pose proof (Z.mod_pos_bound (rnd 2) 50 eq_refl) as H50.
  pose proof (Z.mod_pos_bound (rnd 3) 20 eq_refl) as H20.
  assert (Hcond : exists condition,
            index [ "晴れ"; "曇り"; "雨"; "雪"; "霧" ] (floor_random rnd 1 5)
              = JString condition /\
            condition ∈ [ "晴れ"; "曇り"; "雨"; "雪"; "霧" ]).
  { unfold index, floor_random.
    assert (Hlt : Z.to_nat (rnd 1 `mod` 5) < 5) by lia.
    destruct (Z.to_nat (rnd 1 `mod` 5)) as [|[|[|[|[|n]]]]]; simpl;
      [eexists; split;
         [reflexivity
         |repeat first [apply list_elem_of_here|apply list_elem_of_further]]..|lia]. }
  destruct Hcond as (condition & Hcondition & Hin).
  destruct (own_property fields "units") as [| | | |units| |] eqn:Hunits;
    eexists _, condition, _, _, _; rewrite Hcondition;
    (refine (conj eq_refl (conj eq_refl (conj eq_refl (conj _ (conj Hin (conj _ _)))))));
    unfold floor_random; simpl; try lia.
  destruct (String.eqb units "celsius"); lia.
Qed.

End RegistryMore.

(* ================================================================== *)
(** * The worker, further *)
(* ================================================================== *)

Module WorkerMore.
Import Worker Wiring.

Implicit Types (origin : string) (now : Date) (net : Network).

Ltac run_worker :=
  unfold onmessage, getSessionToken, getRemoteDescription, try_catch,
    mbind, W_bind, mret, W_ret, log, postMessage, fetch, lift, throw,
    posted, requests, fetched; simpl.

(** X4. Whatever message it is sent and whatever the network does, the
    handler of the worker completes normally: every failure ends in the
    [catch] that posts [ERROR]; and it makes at most one request. *)
Theorem onmessage_never_throws `{Platform} origin now net (event : MainToWorkerMessage) :
  (onmessage origin now net event).2 = Normal tt /\
  length (requests (onmessage origin now net event)) <= 1.
Proof.
  destruct event as [type data]. destruct type; run_worker;
    repeat (case_match; simplify_eq; simpl in *); split; simpl; (done || lia).
Qed.

(** X5. [getRemoteDescription] makes exactly one request, the POST of the
    offer with the bearer token, and has three outcomes: the body of a
    response with a status in 200..299, returned as it is; the failure of
    the request itself; or, for any other status, the error carrying the
    status and the body.  Its second test of [ok] never fires: no error
    without the body is ever thrown. *)
Theorem getRemoteDescription_outcomes `{Platform} now net (offer : string) (token : JSValue) :
  fetched (getRemoteDescription now net offer token).1
    = [ remote_description_request offer token ] /\
  match net (remote_description_request offer token) with
  | Normal response =>
      if ok response
      then (getRemoteDescription now net offer token).2 = Normal (text response)
      else (getRemoteDescription now net offer token).2
           = Throw (ThrownError "Error"
                      ("Failed to get remote description: "
                       +:+ pretty (status response) +:+ " - " +:+ text response))
  | Throw e => (getRemoteDescription now net offer token).2 = Throw e
  end.
Proof.
  run_worker. fold (remote_description_request offer token).
  destruct (net (remote_description_request offer token)) as [response|e]; simpl;
    [|done].
  destruct (ok response) eqn:Hok; simpl; rewrite ?Hok; simpl; done.
Qed.

(** X6. A request for the session token ends in exactly one answer, after
    log entries only: [TOKEN_RECEIVED] with a token that is truthy, or
    [ERROR] with a message; never both, never a token that is empty or
    missing.  One request is made, a GET of [/api/session]. *)
Theorem token_or_error `{Platform} origin now net (data : JSValue) :
  exists logs final,
    posted (onmessage origin now net
              {| to_worker_type := INIT_CONNECTION; to_worker_data := data |})
      = logs ++ [final] /\
    Forall is_log logs /\
    requests (onmessage origin now net
                {| to_worker_type := INIT_CONNECTION; to_worker_data := data |})
      = [ session_request origin ] /\
    ((to_main_type final = TOKEN_RECEIVED /\
      truthy (get_opt (to_main_data final) "token") = true /\
      to_main_error final = None) \/
     (to_main_type final = ERROR /\ is_Some (to_main_error final))).
Proof.
  run_worker. fold (session_request origin).
  destruct (net (session_request origin)) as [response|e]; simpl.
  - destruct (JSON_parse (text response)) as [parsed|e]; simpl.
    + destruct (get parsed "client_secret") as [secret|e]; simpl.
      * destruct (truthy (get_opt secret "value")) eqn:Hvalue; simpl.
        -- eexists [_; _], _. split; [reflexivity|].
           split; [by repeat constructor|]. split; [done|]. left.
           split; [done|]. split; [exact Hvalue|done].
        -- eexists [_; _], _. split; [reflexivity|].
           split; [by repeat constructor|]. split; [done|]. right. by eauto.
      * eexists [_; _], _. split; [reflexivity|].
        split; [by repeat constructor|]. split; [done|]. right. by eauto.
    + eexists [_; _], _. split; [reflexivity|].
      split; [by repeat constructor|]. split; [done|]. right. by eauto.
  - eexists [_; _], _. split; [reflexivity|].
    split; [by repeat constructor|]. split; [done|]. right. by eauto.
Qed.

(** X7. A request whose [content] is not a string is dropped without a
    trace, for the remote description as for the formatting of a message:
    nothing is posted, no request is made, nothing is thrown. *)
Theorem content_must_be_a_string `{Platform} origin now net (data : JSValue) :
  (forall content, get_opt data "content" ≠ JString content) ->
  onmessage origin now net
    {| to_worker_type := GET_REMOTE_DESCRIPTION; to_worker_data := data |}
    = ([], Normal tt) /\
  onmessage origin now net
    {| to_worker_type := FORMAT_MESSAGE; to_worker_data := data |}
    = ([], Normal tt).
Proof.
  intros Hcontent. run_worker.
  destruct (get_opt data "content") as [| | | |content| |]; try done.
  by destruct (Hcontent content).
Qed.

Lemma content_must_be_a_string_witness :
  let H := Reference.platform in
  let net : Network := fun _ => Normal {| status := 200; text := "v=0" |} in
  onmessage "http://localhost:3000" 0%Z net
    {| to_worker_type := GET_REMOTE_DESCRIPTION;
       to_worker_data := JObject [ ("token", JString "ek_123") ] |}
    = ([], Normal tt) /\
  onmessage "http://localhost:3000" 0%Z net
    {| to_worker_type := FORMAT_MESSAGE;
       to_worker_data := JObject [ ("token", JString "ek_123") ] |}
    = ([], Normal tt).
Proof.
  intros H net.
  apply (content_must_be_a_string "http://localhost:3000" 0%Z net
           (JObject [ ("token", JString "ek_123") ])).
  intros content. discriminate.
Defined.

(** X8. Formatting a message makes no request and posts exactly one
    [MESSAGE_FORMATTED], whose user message is a
    [conversation.item.create] event of role [user] carrying the text as
    it was given, and whose response request asks for the [text]
    modality. *)
Theorem message_is_formatted_verbatim `{Platform} origin now net (data : JSValue) (content : string) :
  get_opt data "content" = JString content ->
  exists userMessage responseRequest,
    onmessage origin now net
      {| to_worker_type := FORMAT_MESSAGE; to_worker_data := data |}
      = ([ Posted {| to_main_type := MESSAGE_FORMATTED;
                     to_main_data := JObject [ ("userMessage", userMessage);
                                               ("responseRequest", responseRequest) ];
                     to_main_error := None |} ],
         Normal tt) /\
    get_opt userMessage "type" = JString "conversation.item.create" /\
    get_opt (get_opt userMessage "item") "role" = JString "user" /\
    get_opt (get_opt userMessage "item") "content"
      = JArray [ JObject [ ("type", JString "input_text"); ("text", JString content) ] ] /\
    get_opt responseRequest "type" = JString "response.create" /\
    get_opt (get_opt responseRequest "response") "modalities" = JArray [ JString "text" ].
Proof.
  intros Hcontent. exists (formatUserMessage content), formatResponseRequest.
  split; [|by split_and!]. run_worker. by rewrite Hcontent.
Qed.

Lemma message_is_formatted_verbatim_witness :
  let H := Reference.platform in
  let net : Network := fun _ => Throw (ThrownError "TypeError" "Failed to fetch") in
  exists userMessage responseRequest,
    onmessage "http://localhost:3000" 0%Z net
      {| to_worker_type := FORMAT_MESSAGE;
         to_worker_data := JObject [ ("content", JString "What is the weather?") ] |}
      = ([ Posted {| to_main_type := MESSAGE_FORMATTED;
                     to_main_data := JObject [ ("userMessage", userMessage);
                                               ("responseRequest", responseRequest) ];
                     to_main_error := None |} ],
         Normal tt) /\
    get_opt (get_opt userMessage "item") "content"
      = JArray [ JObject [ ("type", JString "input_text");
                           ("text", JString "What is the weather?") ] ].
Proof.
  intros H net.
  destruct (message_is_formatted_verbatim "http://localhost:3000" 0%Z net
              (JObject [ ("content", JString "What is the weather?") ])
              "What is the weather?" eq_refl)
    as (userMessage & responseRequest & Hposted & _ & _ & Htext & _).
  by exists userMessage, responseRequest.
Defined.

(** X9. The two ways to a function response agree.  Given the result of
    a call as an object, the worker builds, for [SEND_TO_DATA_CHANNEL],
    the very event the page builds when it answers on its own: the same
    [id], the same name, and as payload the error object when there is an
    error text and the result otherwise. *)
Theorem worker_builds_the_same_response `{Platform} origin now net (r : Page.FunctionResult) :
  exists logs,
    posted (onmessage origin now net
              {| to_worker_type := FUNCTION_RESULT;
                 to_worker_data := JObject [ ("functionResult", result_object r) ] |})
      = logs ++
        [ {| to_main_type := SEND_TO_DATA_CHANNEL;
             to_main_data := JObject [ ("message", Page.functionResponseEvent r) ];
             to_main_error := None |} ] /\
    Forall is_log logs /\
    requests (onmessage origin now net
                {| to_worker_type := FUNCTION_RESULT;
                   to_worker_data := JObject [ ("functionResult", result_object r) ] |})
      = [].
Proof.
  destruct r as [rid rname rresult [e|]]; run_worker;
    unfold Page.functionResponseEvent; simpl.
  - destruct (String.eqb e ""); simpl;
      (eexists [_; _]; split; [reflexivity|]; split; [by repeat constructor|done]).
  - eexists [_; _]; split; [reflexivity|]; split; [by repeat constructor|done].
Qed.

End WorkerMore.

(* ================================================================== *)
(** * More about the page: frames, calls, sending, the connection *)
(* ================================================================== *)

Module PageMore.
Import Page PageFacts Wiring.

(** ** The timers of a reachable state *)

Lemma timers_ok_initial : timers_ok initial.
Proof. split; constructor. Qed.

Lemma step_timers_ok `{Platform} (s : State) (e : Date * Task) :
  timers_ok s -> timers_ok (step s e).
Proof.
  destruct e as [now t]. intros Hok.
  refine (proj1 (step_keeps_timer
                   (match t with TimerFired id' _ => S id' | _ => 0 end)
                   now t s _ Hok)).
  destruct t; simpl; try tauto. lia.
Qed.

Lemma run_timers_ok `{Platform} (es : list (Date * Task)) (s : State) :
  timers_ok s -> timers_ok (run es s).
Proof.
  revert s. induction es as [|e es IH]; intros s Hok; [done|].
  change (run (e :: es) s) with (run es (step s e)).
  by apply IH, step_timers_ok.
Qed.

Lemma reachable_timers_ok `{Platform} (s : State) : reachable s -> timers_ok s.
Proof. intros [es ->]. apply run_timers_ok, timers_ok_initial. Qed.

Lemma State_ext (s s' : State) :
  messages s = messages s' -> inputMessage s = inputMessage s' ->
  status s = status s' -> error s = error s' ->
  isDataChannelReady s = isDataChannelReady s' -> debugLog s = debugLog s' ->
  transcripts s = transcripts s' -> activeFunctions s = activeFunctions s' ->
  completedFunctions s = completedFunctions s' ->
  peerConnection s = peerConnection s' -> dataChannel s = dataChannel s' ->
  toWorker s = toWorker s' -> timers s = timers s' -> nextTimer s = nextTimer s' ->
  s = s'.
Proof. destruct s, s'; simpl; intros; by subst. Qed.

Lemma is_string_true (v : JSValue) (text : string) :
  is_string v text = true <-> v = JString text.
Proof.
  destruct v; simpl; try (split; [done|by intros [=]]).
  rewrite String.eqb_eq. split; [by intros ->|by intros [= ->]].
Qed.

(** ** Frames of the control channel *)

(** X10. An event the dispatcher has no case for, be it of another type,
    a text delta whose [delta] is no string or a finished transcript whose
    [transcript] is no string, leaves one entry in the debug log and
    changes nothing else; the handler completes normally. *)
Theorem other_events_are_only_logged `{Platform} (s : State) (now : Date)
    (data : string) (ev type : JSValue) :
  JSON_parse data = Normal ev ->
  get ev "type" = Normal type ->
  type ≠ JString "response.function.call" ->
  ~ (type = JString "response.text.delta" /\
     exists delta, get_opt ev "delta" = JString delta) ->
  ~ (type = JString "response.audio_transcript.done" /\
     exists transcript, get_opt ev "transcript" = JString transcript) ->
  handle now (DataChannelMessage data) s
    = (logged now ("Received event: " +:+ JSON_stringify ev) s, Normal tt).
Proof.
  intros Hparse Htype Hcall Hdelta Htranscript. simpl.
  destruct (get_again ev "type" "delta" _ Htype) as [delta Hd].
  destruct (get_again ev "type" "transcript" _ Htype) as [transcript Ht].
  unfold get_opt in Hdelta, Htranscript. rewrite Hd in Hdelta. rewrite Ht in Htranscript.
  unfold dc_onmessage, try_catch, mbind, M_bind, lift.
  rewrite Hparse. simpl. rewrite Htype. simpl.
  destruct (is_string type "response.function.call") eqn:Hc.
  { by apply is_string_true in Hc. }
  rewrite Hd. simpl.
  assert (Hrest :
    (match is_string type "response.audio_transcript.done", transcript with
     | true, JString transcript => addTranscript transcript
     | _, _ => mret tt
     end) (logged now ("Received event: " +:+ JSON_stringify ev) s)
    = (logged now ("Received event: " +:+ JSON_stringify ev) s, Normal tt)).
  { destruct (is_string type "response.audio_transcript.done") eqn:Hdone; [|done].
    apply is_string_true in Hdone.
    destruct transcript; try done. destruct Htranscript. by eauto. }
  unfold logged in Hrest |- *.
  destruct (is_string type "response.text.delta") eqn:Htd.
  - apply is_string_true in Htd.
    destruct delta; try (rewrite Ht; simpl; by rewrite Hrest).
    destruct Hdelta. by eauto.
  - rewrite Ht. simpl.
    destruct delta; by rewrite Hrest.
Qed.

Lemma other_events_are_only_logged_witness :
  let H := Reference.platform in
  let ev := JObject [ ("type", JString "session.created") ] in
  handle 5%Z (DataChannelMessage (Reference.stringify ev)) Samples.ready
    = (logged 5%Z ("Received event: " +:+ JSON_stringify ev) Samples.ready, Normal tt).
Proof.
  intros H ev.
  apply (other_events_are_only_logged Samples.ready 5%Z (Reference.stringify ev) ev
           (JString "session.created")).
  - vm_compute. reflexivity.
  - reflexivity.
  - discriminate.
  - intros [[=] _].
  - intros [[=] _].
Defined.



(** ** Calls that fail *)

(** X12. A call of [get_weather] whose [arguments] are the JSON text
    [null] is accepted and listed as active, but its execution rejects
    when its timer fires: the rejection is only logged.  The call is then
    never finished: it stays among the active functions, no result is
    recorded, no response is sent and no timer is left to do so later. *)
Theorem call_with_null_arguments_is_never_finished `{Platform} (s : State)
    (t0 t : Date) (data id : string) (ev function arguments : JSValue) (rnd : Random) :
  timers_ok s ->
  JSON_parse data = Normal ev ->
  get ev "type" = Normal (JString "response.function.call") ->
  get ev "id" = Normal (JString id) ->
  get ev "function" = Normal function ->
  get function "name" = Normal (JString "get_weather") ->
  get function "arguments" = Normal arguments ->
  JSON_parse (ToString arguments) = Normal JNull ->
  let s1 := step s (t0, DataChannelMessage data) in
  let s2 := step s1 (t, TimerFired (nextTimer s) rnd) in
  JSMap.get (activeFunctions s2) (KString id)
    = Some {| call := {| call_id := JString id;
                         call_name := JString "get_weather";
                         call_arguments := JNull |};
              startTime := t0 |} /\
  completedFunctions s2 = completedFunctions s /\
  outbound s2 = outbound s /\
  timers s2 = timers s /\
  length (debugLog s2) = length (debugLog s1) + 1.
Proof.
  intros Hok Hparse Htype Hid Hfunction Hname Harguments Hnull s1 s2.
  pose proof (timers_ok_fresh s Hok) as Hfresh.
  assert (Hs1 : exists log1,
    s1 = set_timers
           (timers s ++ [ (nextTimer s,
                           executeFunction_awaits
                             {| call_id := JString id;
                                call_name := JString "get_weather";
                                call_arguments := JNull |} (KString id)) ])
           (S (nextTimer s))
           (setDebugLog (fun _ => log1)
              (setActiveFunctions
                 (fun prev => JSMap.set prev (KString id)
                    {| call := {| call_id := JString id;
                                  call_name := JString "get_weather";
                                  call_arguments := JNull |};
                       startTime := t0 |}) s))).
  { subst s1. unfold step. simpl.
    unfold dc_onmessage, try_catch, mbind, M_bind, lift.
    rewrite Hparse. simpl. rewrite Htype. simpl. rewrite Hid, Hfunction. simpl.
    rewrite Hname, Harguments. simpl. rewrite Hnull. simpl. by eexists. }
  destruct Hs1 as [log1 Hs1]. subst s2. rewrite Hs1. clear Hs1 s1.
  unfold step. simpl. unfold mbind, M_bind, gets. simpl.
  rewrite (take_timer_fresh (nextTimer s) (timers s) [] _ Hfresh). simpl.
  unfold outbound. simpl. rewrite app_nil_r, length_app. simpl.
  split_and!; try done. apply JSMapFacts.get_set_eq.
Qed.

Lemma call_with_null_arguments_is_never_finished_witness :
  let H := Reference.platform in
  let ev := Samples.call_event "call_1" "get_weather" JNull in
  let s1 := step Samples.ready (20%Z, DataChannelMessage (Reference.stringify ev)) in
  let s2 := step s1 (1020%Z, TimerFired (nextTimer Samples.ready) (fun _ => 7%Z)) in
  JSMap.get (activeFunctions s2) (KString "call_1")
    = Some {| call := {| call_id := JString "call_1";
                         call_name := JString "get_weather";
                         call_arguments := JNull |};
              startTime := 20%Z |} /\
  completedFunctions s2 = completedFunctions Samples.ready /\
  outbound s2 = outbound Samples.ready /\
  timers s2 = timers Samples.ready /\
  length (debugLog s2) = length (debugLog s1) + 1.
Proof.
  intros H ev.
  apply (call_with_null_arguments_is_never_finished Samples.ready 20%Z 1020%Z
           (Reference.stringify ev) "call_1" ev
           (Samples.call_function "get_weather" JNull) (JString "null") (fun _ => 7%Z)).
  - apply reachable_timers_ok.
    exists [ (0%Z, WorkerMessage
                        {| to_main_type := TOKEN_RECEIVED;
                           to_main_data := JObject [ ("token", JString "ek_123") ];
                           to_main_error := None |} Samples.browser);
                (10%Z, DataChannelOpened) ].
    vm_compute. reflexivity.
  - by vm_compute.
  - reflexivity.
  - reflexivity.
  - reflexivity.
  - reflexivity.
  - by vm_compute.
  - by vm_compute.
Defined.

(** ** Sending a message *)

(** X13. A click on Send changes nothing at all exactly when the input
    is blank (empty once trimmed) or the data channel has not been
    reported open: no message is added, nothing is posted to the worker,
    and the input keeps its text. *)
Theorem nothing_is_sent_unless_text_and_ready `{Platform} (s : State) (now : Date) :
  step s (now, SendClicked) = s <->
  trims_to_empty (inputMessage s) = true \/ isDataChannelReady s = false.
Proof.
  unfold step. simpl. unfold sendMessage, mbind, M_bind, gets.
  destruct (trims_to_empty (inputMessage s)) eqn:Htext; simpl.
  { split; [by left|done]. }
  destruct (isDataChannelReady s) eqn:Hready; simpl.
  - split; [|by intros [|]].
    intros Heq. apply (f_equal (fun x => length (messages x))) in Heq. simpl in Heq.
    rewrite length_app in Heq. simpl in Heq. lia.
  - split; [by right|done].
Qed.

(** X14. A message the user sends on an open channel, once the worker
    has formatted it and the page has handled the worker's answer, has
    been written to the channel as a [conversation.item.create] event
    with the text as typed; when the timer of the 100 ms wait fires, the
    [response.create] request follows it, and nothing else.  The
    conversation has gained the user's message, the input is cleared, and
    no error is set. *)
Theorem user_message_reaches_the_channel `{Platform} (s : State) (origin : string)
    (net : Worker.Network) (browser : Browser) (t0 t1 t2 t3 : Date) (rnd : Random) :
  timers_ok s ->
  trims_to_empty (inputMessage s) = false ->
  isDataChannelReady s = true ->
  channel_open s = true ->
  let text := inputMessage s in
  let s1 := step s (t0, SendClicked) in
  let answers :=
    worker_answers origin t1 net (drop (length (toWorker s)) (toWorker s1)) in
  let s2 := run (deliver t2 browser answers) s1 in
  let s3 := step s2 (t3, TimerFired (nextTimer s) rnd) in
  messages s3 = messages s ++ [ {| role := user; content := text; timestamp := t0 |} ] /\
  inputMessage s3 = "" /\
  outbound s2 = outbound s ++ [ JSON_stringify (Worker.formatUserMessage text) ] /\
  outbound s3 = outbound s ++ [ JSON_stringify (Worker.formatUserMessage text);
                                JSON_stringify Worker.formatResponseRequest ] /\
  error s3 = error s /\
  timers s3 = timers s.
Proof.
  intros Hok Htext Hready Hopen text s1 answers s2 s3.
  pose proof (timers_ok_fresh s Hok) as Hfresh.
  assert (Hdc : exists out, dataChannel s = Some {| readyState := open; sent := out |}).
  { unfold channel_open in Hopen. destruct (dataChannel s) as [[[] out]|]; try done.
    by exists out. }
  destruct Hdc as [out Hdc].
  assert (Hs1 : s1 = setInputMessage ""
                       (set_toWorker
                          (toWorker s ++
                           [ {| to_worker_type := FORMAT_MESSAGE;
                                to_worker_data := JObject [ ("content", JString text) ] |} ])
                          (setMessages
                             (fun prev => prev ++ [ {| role := user; content := text;
                                                       timestamp := t0 |} ]) s))).
  { subst s1. unfold step. simpl. unfold sendMessage, mbind, M_bind, gets.
    by rewrite Htext, Hready. }
  assert (Hanswers : answers
    = [ {| to_main_type := MESSAGE_FORMATTED;
           to_main_data := JObject [ ("userMessage", Worker.formatUserMessage text);
                                     ("responseRequest", Worker.formatResponseRequest) ];
           to_main_error := None |} ]).
  { subst answers. rewrite Hs1. simpl. by rewrite drop_app_length. }
  subst s3 s2. rewrite Hanswers, Hs1. clear Hanswers Hs1 s1 answers.
  unfold run, deliver, step. simpl.
  unfold worker_onmessage. simpl.
  unfold mbind, M_bind, gets, try_catch, channel_open, send, outbound. simpl.
  rewrite Hdc. simpl. rewrite Hdc. simpl.
  rewrite (take_timer_fresh (nextTimer s) (timers s) [] _ Hfresh). simpl.
  unfold responseRequest_resumed, mbind, M_bind, try_catch, send. simpl.
  rewrite app_nil_r, <- app_assoc. by split_and!.
Qed.

Lemma user_message_reaches_the_channel_witness :
  let H := Reference.platform in
  let net : Worker.Network := fun _ => Throw (ThrownError "TypeError" "Failed to fetch") in
  let s := step Samples.ready (15%Z, InputChanged "What is the weather?") in
  let text := inputMessage s in
  let s1 := step s (20%Z, SendClicked) in
  let answers :=
    worker_answers "http://localhost:3000" 21%Z net
      (drop (length (toWorker s)) (toWorker s1)) in
  let s2 := run (deliver 22%Z Samples.browser answers) s1 in
  let s3 := step s2 (122%Z, TimerFired (nextTimer s) (fun _ => 0%Z)) in
  messages s3 = messages s ++ [ {| role := user; content := text; timestamp := 20%Z |} ] /\
  inputMessage s3 = "" /\
  outbound s2 = outbound s ++ [ JSON_stringify (Worker.formatUserMessage text) ] /\
  outbound s3 = outbound s ++ [ JSON_stringify (Worker.formatUserMessage text);
                                JSON_stringify Worker.formatResponseRequest ] /\
  error s3 = error s /\
  timers s3 = timers s.
Proof.
  intros H net s.
  apply (user_message_reaches_the_channel s "http://localhost:3000" net
           Samples.browser 20%Z 21%Z 22%Z 122%Z (fun _ => 0%Z)).
  - apply reachable_timers_ok.
    exists [ (0%Z, WorkerMessage
                        {| to_main_type := TOKEN_RECEIVED;
                           to_main_data := JObject [ ("token", JString "ek_123") ];
                           to_main_error := None |} Samples.browser);
                (10%Z, DataChannelOpened);
                (15%Z, InputChanged "What is the weather?") ].
    vm_compute. reflexivity.
  - by vm_compute.
  - by vm_compute.
  - by vm_compute.
Defined.

(** X15. The response request is sent when its timer fires only if the
    channel is still open then.  On a channel closed in the meantime the
    request is not sent and the failure is reported as the page's error
    (unlike a function response, which is dropped in silence); the
    status, the conversation and the frames already sent are kept. *)
Theorem response_request_needs_open_channel `{Platform} (s : State) (now : Date)
    (rnd : Random) (id : nat) (responseRequest : JSValue)
    (rest : list (nat * Suspended)) :
  take_timer id (timers s) = Some (responseRequest_awaits responseRequest, rest) ->
  let s' := step s (now, TimerFired id rnd) in
  timers s' = rest /\
  messages s' = messages s /\
  status s' = status s /\
  (if channel_open s
   then outbound s' = outbound s ++ [ JSON_stringify responseRequest ] /\
        error s' = error s
   else outbound s' = outbound s /\ is_Some (error s')).
Proof.
  intros Htake s'. subst s'. unfold step. simpl. unfold mbind, M_bind, gets.
  rewrite Htake. simpl.
  unfold responseRequest_resumed, try_catch, mbind, M_bind, channel_open, outbound, send.
  simpl.
  destruct (dataChannel s) as [[rs out]|] eqn:Hdc; simpl; rewrite ?Hdc; simpl;
    [destruct rs; simpl; rewrite ?Hdc|]; by split_and!.
Qed.

Lemma response_request_needs_open_channel_witness :
  let H := Reference.platform in
  let s := run [ (20%Z, WorkerMessage
                          {| to_main_type := MESSAGE_FORMATTED;
                             to_main_data :=
                               JObject [ ("userMessage", Worker.formatUserMessage "Hi");
                                         ("responseRequest", Worker.formatResponseRequest) ];
                             to_main_error := None |} Samples.browser);
                 (50%Z, DataChannelClosed) ] Samples.ready in
  let s' := step s (120%Z, TimerFired 0 (fun _ => 0%Z)) in
  timers s' = [] /\
  messages s' = messages s /\
  status s' = status s /\
  (if channel_open s
   then outbound s' = outbound s ++ [ JSON_stringify Worker.formatResponseRequest ] /\
        error s' = error s
   else outbound s' = outbound s /\ is_Some (error s')).
Proof.
  intros H s.
  apply (response_request_needs_open_channel s 120%Z (fun _ => 0%Z) 0
           Worker.formatResponseRequest []).
  by vm_compute.
Defined.

(** ** Setting up the connection *)

(** X16. What a [TOKEN_RECEIVED] message starts.  Without a token
    (missing or empty) nothing happens.  With one, the outcome is decided
    by the browser, step by step.  A refused microphone fails the attempt
    and leaves the page without a data channel: the channel is what it
    was.  Past the microphone the page has a fresh data channel, and a
    failing offer, a failing local description or an offer without SDP to
    read fails the attempt.  Only when all succeed does the page post
    exactly one [GET_REMOTE_DESCRIPTION], carrying the SDP of its offer
    and the token as received, with neither status nor error touched.  A
    failed attempt posts nothing and shows status [Error] with the
    message of the failure. *)
Theorem token_starts_negotiation_or_fails `{Platform} (s : State) (now : Date)
    (browser : Browser) (data : JSValue) :
  let s' := step s (now, WorkerMessage {| to_main_type := TOKEN_RECEIVED;
                                         to_main_data := data;
                                         to_main_error := None |} browser) in
  if truthy (get_opt data "token") then
    match getUserMedia browser with
    | Throw e => initialization_failed e s s' /\ dataChannel s' = dataChannel s
    | Normal _ =>
        dataChannel s' = Some {| readyState := connecting; sent := [] |} /\
        match createOffer browser with
        | Throw e => initialization_failed e s s'
        | Normal offer =>
            match setLocalDescription browser with
            | Throw e => initialization_failed e s s'
            | Normal _ =>
                match get offer "sdp" with
                | Throw e => initialization_failed e s s'
                | Normal sdp =>
                    toWorker s'
                      = toWorker s ++
                        [ {| to_worker_type := GET_REMOTE_DESCRIPTION;
                             to_worker_data :=
                               JObject [ ("content", sdp);
                                         ("token", get_opt data "token") ] |} ] /\
                    status s' = status s /\
                    error s' = error s
                end
            end
        end
    end
  else s' = s.
Proof.
  intros s'. subst s'. unfold step, initialization_failed. simpl.
  unfold worker_onmessage. simpl.
  destruct (truthy (get_opt data "token")); [|done].
  unfold initializeWebRTC, try_catch, mbind, M_bind, lift. simpl.
  destruct (getUserMedia browser) as [[]|e0]; simpl; [|by split_and!].
  destruct (createOffer browser) as [offer|e1]; simpl; [|by split_and!].
  destruct (setLocalDescription browser) as [[]|e2]; simpl; [|by split_and!].
  destruct (get offer "sdp") as [sdp|e3]; simpl; by split_and!.
Qed.

(** X17. The whole handshake, the worker and the page together.  When
    the token endpoint answers with a session whose [client_secret.value]
    is set, the browser grants the microphone and makes an offer, and the
    remote end accepts the offer with a non-empty answer, then: the page
    asks for the remote description once, with the SDP of its offer and
    that secret; on the answer its status is [Connecting...]; and when
    the data channel opens the status is [Ready], the channel is reported
    ready, and the one frame written to it is the [session.update] that
    declares [get_weather].  No error is set on the way. *)
Theorem handshake_reaches_ready `{Platform} (origin : string) (net : Worker.Network)
    (browser : Browser) (t0 t1 t2 t3 t4 : Date)
    (tokenResponse answer : Worker.Response) (session secret offer : JSValue)
    (sdp : string) :
  net (session_request origin) = Normal tokenResponse ->
  JSON_parse (Worker.text tokenResponse) = Normal session ->
  get session "client_secret" = Normal secret ->
  truthy (get_opt secret "value") = true ->
  getUserMedia browser = Normal tt ->
  createOffer browser = Normal offer ->
  setLocalDescription browser = Normal tt ->
  get offer "sdp" = Normal (JString sdp) ->
  net (Worker.remote_description_request sdp (get_opt secret "value")) = Normal answer ->
  Worker.ok answer = true ->
  Worker.text answer ≠ "" ->
  setRemoteDescription browser = Normal tt ->
  let s1 :=
    run (deliver t1 browser
           (worker_answers origin t0 net
              on_mount))
        initial in
  let s2 := run (deliver t3 browser (worker_answers origin t2 net (toWorker s1))) s1 in
  let s3 := step s2 (t4, DataChannelOpened) in
  toWorker s1
    = [ {| to_worker_type := GET_REMOTE_DESCRIPTION;
           to_worker_data := JObject [ ("content", JString sdp);
                                       ("token", get_opt secret "value") ] |} ] /\
  status s2 = "Connecting..." /\
  peerConnection s2
    = Some {| localDescription := Some offer;
              remoteDescription := Some (JString (Worker.text answer)) |} /\
  status s3 = "Ready" /\
  isDataChannelReady s3 = true /\
  outbound s3 = [ JSON_stringify sessionUpdateEvent ] /\
  error s3 = None /\
  messages s3 = [].
Proof.
  intros Htoken Hsession Hsecret Hvalue Hmedia Hoffer Hlocal Hsdp Hanswer Hok Htext
    Hremote s1 s2 s3.
  assert (Hs1 : exists log1,
    s1 = setDebugLog (fun _ => log1)
           (set_toWorker
              [ {| to_worker_type := GET_REMOTE_DESCRIPTION;
                   to_worker_data := JObject [ ("content", JString sdp);
                                               ("token", get_opt secret "value") ] |} ]
              (set_dataChannel (Some {| readyState := connecting; sent := [] |})
                 (set_peerConnection
                    (Some {| localDescription := Some offer;
                             remoteDescription := None |}) initial)))).
  { subst s1. unfold worker_answers, on_mount. simpl.
    unfold Worker.onmessage, Worker.getSessionToken, Worker.try_catch, mbind,
      Worker.W_bind, mret, Worker.W_ret, Worker.log, Worker.postMessage,
      Worker.fetch, Worker.lift, Worker.throw, Worker.posted. simpl.
    fold (session_request origin). rewrite Htoken. simpl.
    rewrite Hsession. simpl. rewrite Hsecret. simpl. rewrite Hvalue. simpl.
    unfold run, deliver, step. simpl. unfold worker_onmessage. simpl.
    change (get_opt (JObject [ ("token", get_opt secret "value") ]) "token")
      with (get_opt secret "value").
    rewrite Hvalue.
    unfold initializeWebRTC, try_catch, mbind, M_bind, lift. simpl.
    rewrite Hmedia. simpl. rewrite Hoffer. simpl. rewrite Hlocal. simpl.
    rewrite Hsdp. simpl. eexists. apply State_ext; simpl; reflexivity. }
  destruct Hs1 as [log1 Hs1].
  assert (Htruthy : truthy (JString (Worker.text answer)) = true).
  { simpl. by destruct (String.eqb_spec (Worker.text answer) ""). }
  assert (Hs2 : exists log2,
    s2 = setDebugLog (fun _ => log2)
           (setStatus "Connecting..."
              (set_peerConnection
                 (Some {| localDescription := Some offer;
                          remoteDescription := Some (JString (Worker.text answer)) |})
                 s1))).
  { subst s2. rewrite Hs1. unfold worker_answers. simpl.
    unfold Worker.onmessage, Worker.getRemoteDescription, Worker.try_catch, mbind,
      Worker.W_bind, mret, Worker.W_ret, Worker.log, Worker.postMessage,
      Worker.fetch, Worker.lift, Worker.throw, Worker.posted. simpl.
    change (get_opt (JObject [ ("content", JString sdp);
                               ("token", get_opt secret "value") ]) "token")
      with (get_opt secret "value").
    fold (Worker.remote_description_request sdp (get_opt secret "value")).
    rewrite Hanswer. simpl. rewrite Hok. simpl.
    unfold run, deliver, step. simpl. unfold worker_onmessage. simpl.
    unfold mbind, M_bind, gets, try_catch, lift. simpl.
    simpl in Htruthy. rewrite Htruthy. simpl. rewrite Hremote. simpl.
    eexists. apply State_ext; simpl; reflexivity. }
  destruct Hs2 as [log2 Hs2].
  split_and!.
  - by rewrite Hs1.
  - by rewrite Hs2.
  - by rewrite Hs2.
  - subst s3. rewrite Hs2, Hs1. unfold step. simpl. reflexivity.
  - subst s3. rewrite Hs2, Hs1. unfold step. simpl. reflexivity.
  - subst s3. rewrite Hs2, Hs1. unfold step, outbound. simpl. reflexivity.
  - subst s3. rewrite Hs2, Hs1. unfold step. simpl. reflexivity.
  - subst s3. rewrite Hs2, Hs1. unfold step. simpl. reflexivity.
Qed.

Lemma handshake_reaches_ready_witness :
  let H := Reference.platform in
  let session := JObject [ ("client_secret", JObject [ ("value", JString "ek_123") ]) ] in
  let net : Worker.Network := fun request =>
    if String.eqb (Worker.method request) "GET"
    then Normal {| Worker.status := 200; Worker.text := Reference.stringify session |}
    else Normal {| Worker.status := 201; Worker.text := "v=0 answer" |} in
  let s1 :=
    run (deliver 1%Z Samples.browser
           (worker_answers "http://localhost:3000" 0%Z net
              on_mount))
        initial in
  let s2 :=
    run (deliver 3%Z Samples.browser
           (worker_answers "http://localhost:3000" 2%Z net (toWorker s1))) s1 in
  let s3 := step s2 (4%Z, DataChannelOpened) in
  toWorker s1
    = [ {| to_worker_type := GET_REMOTE_DESCRIPTION;
           to_worker_data :=
             JObject [ ("content", JString "v=0");
                       ("token", get_opt (JObject [ ("value", JString "ek_123") ])
                                   "value") ] |} ] /\
  status s2 = "Connecting..." /\
  peerConnection s2
    = Some {| localDescription := Some (JObject [ ("type", JString "offer");
                                                  ("sdp", JString "v=0") ]);
              remoteDescription :=
                Some (JString (Worker.text {| Worker.status := 201;
                                              Worker.text := "v=0 answer" |})) |} /\
  status s3 = "Ready" /\
  isDataChannelReady s3 = true /\
  outbound s3 = [ JSON_stringify sessionUpdateEvent ] /\
  error s3 = None /\
  messages s3 = [].
Proof.
  intros H session net.
  apply (handshake_reaches_ready "http://localhost:3000" net Samples.browser
           0%Z 1%Z 2%Z 3%Z 4%Z
           {| Worker.status := 200; Worker.text := Reference.stringify session |}
           {| Worker.status := 201; Worker.text := "v=0 answer" |}
           session (JObject [ ("value", JString "ek_123") ])
           (JObject [ ("type", JString "offer"); ("sdp", JString "v=0") ]) "v=0").
  - reflexivity.
  - by vm_compute.
  - reflexivity.
  - reflexivity.
  - reflexivity.
  - reflexivity.
  - reflexivity.
  - reflexivity.
  - reflexivity.
  - reflexivity.
  - discriminate.
  - reflexivity.
Defined.

(** ** What the worker relays, and what the component shows *)

(** X18. A function result handed to the worker comes back to the page
    as [SEND_TO_DATA_CHANNEL], and the page writes it to the channel if
    the channel is open: the frame is the very response the page builds
    when it answers a call itself.  On a channel that is not open nothing
    is written and no error is set. *)
Theorem function_result_via_worker `{Platform} (s : State) (origin : string)
    (net : Worker.Network) (browser : Browser) (t0 t1 : Date) (r : FunctionResult) :
  let answers :=
    worker_answers origin t0 net
      [ {| to_worker_type := FUNCTION_RESULT;
           to_worker_data := JObject [ ("functionResult", result_object r) ] |} ] in
  let s' := run (deliver t1 browser answers) s in
  outbound s'
    = (if channel_open s
       then outbound s ++ [ JSON_stringify (functionResponseEvent r) ]
       else outbound s) /\
  error s' = error s /\
  status s' = status s /\
  completedFunctions s' = completedFunctions s.
Proof.
  intros answers s'. subst s' answers. unfold worker_answers. simpl.
  assert (Hevent :
    JObject
      [ ("type", JString "response.function.response");
        ("function", JObject
           [ ("name", get_opt (result_object r) "name");
             ("response",
               if truthy (get_opt (result_object r) "error")
               then JObject [ ("error", get_opt (result_object r) "error") ]
               else get_opt (result_object r) "result") ]);
        ("id", get_opt (result_object r) "id") ]
    = functionResponseEvent r).
  { destruct r as [rid rname rresult [e|]]; unfold functionResponseEvent; simpl; [|done].
    by destruct (String.eqb e ""). }
  unfold Worker.onmessage, Worker.try_catch, mbind, Worker.W_bind, mret, Worker.W_ret,
    Worker.log, Worker.postMessage, Worker.posted. simpl.
  change (get_opt (JObject [ ("functionResult", result_object r) ]) "functionResult")
    with (result_object r).
  change (truthy (result_object r)) with true. simpl.
  rewrite Hevent.
  unfold run, deliver, step. simpl. unfold worker_onmessage. simpl.
  change (get_opt (JObject [ ("message", functionResponseEvent r) ]) "message")
    with (functionResponseEvent r).
  change (truthy (functionResponseEvent r)) with true. simpl.
  unfold mbind, M_bind, gets, try_catch, channel_open, send, outbound. simpl.
  destruct (dataChannel s) as [[rs out]|] eqn:Hdc; simpl; rewrite ?Hdc; simpl;
    [destruct rs; simpl; rewrite ?Hdc|]; by split_and!.
Qed.

Lemma recent_is_take (completedFunctions : list FunctionResult) :
  FunctionStatus.recentCompletedFunctions completedFunctions
    = take 3 (reverse completedFunctions).
Proof.
  unfold FunctionStatus.recentCompletedFunctions, FunctionStatus.slice. simpl.
  replace (Z.to_nat (Z.max (Z.of_nat (length completedFunctions) + -3) 0))
    with (length completedFunctions - 3) by lia.
  by rewrite take_reverse.
Qed.

(** X19. The component shows the last three results, the newest first,
    and renders nothing exactly when no call is active and none has ever
    completed. *)
Theorem recent_results_are_the_last_three
    (activeFunctions : JSMap.t Key ActiveFunction)
    (completedFunctions : list FunctionResult) :
  FunctionStatus.recentCompletedFunctions completedFunctions
    = take 3 (reverse completedFunctions) /\
  (FunctionStatus.renders_nothing activeFunctions completedFunctions = true
   <-> activeFunctions = [] /\ completedFunctions = []).
Proof.
  split; [apply recent_is_take|].
  unfold FunctionStatus.renders_nothing.
  rewrite recent_is_take, andb_true_iff, !Nat.eqb_eq.
  unfold JSMap.size. rewrite length_take, length_reverse.
  destruct activeFunctions, completedFunctions; simpl; split; intros [? ?];
    try done; lia.
Qed.

(** X20. When the timer of a call fires and the execution yields a
    result, that result is the first the component shows, followed by the
    two that were first before; the component then renders something. *)
Theorem completed_call_is_shown_first `{Platform} (s : State) (now : Date)
    (rnd : Random) (id : nat) (c : FunctionCall) (key : Key)
    (rest : list (nat * Suspended)) (r : FunctionResult) :
  take_timer id (timers s) = Some (executeFunction_awaits c key, rest) ->
  executeFunction_result now rnd c = Normal r ->
  let s' := step s (now, TimerFired id rnd) in
  FunctionStatus.recentCompletedFunctions (completedFunctions s')
    = r :: take 2 (FunctionStatus.recentCompletedFunctions (completedFunctions s)) /\
  FunctionStatus.renders_nothing (activeFunctions s') (completedFunctions s') = false.
Proof.
  intros Htake Hr s'.
  destruct (step_timer_fired now rnd id c key rest r s Htake Hr)
    as (_ & _ & _ & Hcompleted & _).
  fold s' in Hcompleted.
  assert (Hrecent :
    FunctionStatus.recentCompletedFunctions (completedFunctions s')
    = r :: take 2 (FunctionStatus.recentCompletedFunctions (completedFunctions s))).
  { rewrite Hcompleted, !recent_is_take, reverse_snoc. simpl.
    by rewrite take_take. }
  split; [done|].
  unfold FunctionStatus.renders_nothing. rewrite Hrecent. simpl.
  apply andb_false_r.
Qed.

Lemma completed_call_is_shown_first_witness :
  let H := Reference.platform in
  let s := step Samples.ready
             (20%Z, DataChannelMessage
                      (Samples.call_frame "call_1" "get_time" (JObject []))) in
  let c := the_call "call_1" "get_time" [] in
  let r := {| res_id := JString "call_1"; res_name := JString "get_time";
              res_result := JNull;
              res_error := Some ("未実装の関数: " +:+ "get_time") |} in
  let s' := step s (1020%Z, TimerFired 0 (fun _ => 0%Z)) in
  FunctionStatus.recentCompletedFunctions (completedFunctions s')
    = r :: take 2 (FunctionStatus.recentCompletedFunctions (completedFunctions s)) /\
  FunctionStatus.renders_nothing (activeFunctions s') (completedFunctions s') = false.
Proof.
  intros H s c r.
  apply (completed_call_is_shown_first s 1020%Z (fun _ => 0%Z) 0 c (KString "call_1")
           [] r).
  - by vm_compute.
  - reflexivity.
Defined.

(** ** A call from its frame to its result *)

Lemma delete_set_fresh {V} (m : JSMap.t Key V) (k : Key) (v : V) :
  JSMap.get m k = None ->
  JSMap.delete (JSMap.set m k v) k = m /\
  JSMap.size (JSMap.set m k v) = S (JSMap.size m).
Proof.
  unfold JSMap.size. induction m as [|[k' v'] m IH]; simpl.
  - intros _. by rewrite decide_True.
  - destruct (decide (k' = k)) as [->|Hne]; [done|]. simpl.
    rewrite decide_False by done. intros Hnone.
    destruct (IH Hnone) as [-> ->]. done.
Qed.

(** X21. A call whose [id] is not among the active functions is listed
    there, with the time of its arrival, from its frame until its timer
    fires, and is one entry more; when the timer fires the active
    functions are exactly what they were before the call. *)
Theorem call_is_active_while_it_executes `{Platform} (s : State) (t0 t : Date)
    (data id name : string) (fields : list (string * JSValue)) (rnd : Random) :
  timers_ok s ->
  function_call data id name fields ->
  JSMap.get (activeFunctions s) (KString id) = None ->
  let s1 := step s (t0, DataChannelMessage data) in
  let s2 := step s1 (t, TimerFired (nextTimer s) rnd) in
  JSMap.get (activeFunctions s1) (KString id)
    = Some {| call := the_call id name fields; startTime := t0 |} /\
  JSMap.size (activeFunctions s1) = S (JSMap.size (activeFunctions s)) /\
  activeFunctions s2 = activeFunctions s /\
  length (completedFunctions s2) = S (length (completedFunctions s)).
Proof.
  intros Hok Hcall Hnone s1 s2.
  destruct (step_function_call t0 data id name fields s Hcall)
    as (_ & Ht1 & _ & Ha1 & Hc1 & _).
  fold s1 in Ht1, Ha1, Hc1.
  destruct (delete_set_fresh (activeFunctions s) (KString id)
              {| call := the_call id name fields; startTime := t0 |} Hnone)
    as [Hdelete Hsize].
  destruct (executeFunction_result_well_formed t rnd id name fields)
    as (r & Hr & _).
  assert (Htake : take_timer (nextTimer s) (timers s1)
                  = Some (executeFunction_awaits (the_call id name fields) (KString id),
                          timers s ++ [])).
  { rewrite Ht1. apply take_timer_fresh. by apply timers_ok_fresh. }
  destruct (step_timer_fired t rnd (nextTimer s) _ _ _ r s1 Htake Hr)
    as (_ & _ & _ & Hc2 & Ha2 & _).
  fold s2 in Hc2, Ha2.
  split_and!.
  - rewrite Ha1. apply JSMapFacts.get_set_eq.
  - by rewrite Ha1.
  - by rewrite Ha2, Ha1.
  - rewrite Hc2, Hc1, length_app. simpl. lia.
Qed.

Lemma call_is_active_while_it_executes_witness :
  let H := Reference.platform in
  let data := Samples.call_frame "call_1" "get_weather"
                (JObject [ ("location", JString "Tokyo") ]) in
  let s1 := step Samples.ready (20%Z, DataChannelMessage data) in
  let s2 := step s1 (1020%Z, TimerFired (nextTimer Samples.ready) (fun _ => 7%Z)) in
  JSMap.get (activeFunctions s1) (KString "call_1")
    = Some {| call := the_call "call_1" "get_weather" [ ("location", JString "Tokyo") ];
              startTime := 20%Z |} /\
  JSMap.size (activeFunctions s1) = S (JSMap.size (activeFunctions Samples.ready)) /\
  activeFunctions s2 = activeFunctions Samples.ready /\
  length (completedFunctions s2) = S (length (completedFunctions Samples.ready)).
Proof.
  intros H data.
  apply (call_is_active_while_it_executes Samples.ready 20%Z 1020%Z data "call_1"
           "get_weather" [ ("location", JString "Tokyo") ] (fun _ => 7%Z)).
  - apply reachable_timers_ok.
    exists [ (0%Z, WorkerMessage
                     {| to_main_type := TOKEN_RECEIVED;
                        to_main_data := JObject [ ("token", JString "ek_123") ];
                        to_main_error := None |} Samples.browser);
             (10%Z, DataChannelOpened) ].
    vm_compute. reflexivity.
  - exists (Samples.call_event "call_1" "get_weather"
              (JObject [ ("location", JString "Tokyo") ])),
      (Samples.call_function "get_weather" (JObject [ ("location", JString "Tokyo") ])),
      (Reference.stringify (JObject [ ("location", JString "Tokyo") ])).
    split_and!; by vm_compute.
  - reflexivity.
Defined.

End PageMore.

(* ================================================================== *)
(** * More about the token endpoint *)
(* ================================================================== *)

Module RouteMore.
Import Wiring.

(** What the endpoint does, case by case. *)
Lemma GET_cases `{Platform} (key : option string) (upstream : Worker.Network) :
  (truthy_string key = false /\
   Route.GET key upstream
     = ([], Normal {| Route.status := 500;
                      Route.body := JObject [ ("error", JString "Internal server error") ] |}))
  \/
  (exists k, key = Some k /\ k ≠ "" /\
     ((exists response data,
         upstream (Route.sessions_request k) = Normal response /\
         Worker.ok response = true /\
         JSON_parse (Worker.text response) = Normal data /\
         Route.GET key upstream
           = ([ Worker.Fetched (Route.sessions_request k) ],
              Normal {| Route.status := 200; Route.body := data |}))
      \/
      Route.GET key upstream
        = ([ Worker.Fetched (Route.sessions_request k) ],
           Normal {| Route.status := 500;
                     Route.body := JObject [ ("error", JString "Failed to create session") ] |}))).
Proof.
  unfold Route.GET. destruct key as [k|]; simpl; [|by left].
  destruct (String.eqb_spec k "") as [->|Hk]; simpl; [by left|].
  right. exists k. split; [done|]. split; [done|].
  unfold Worker.try_catch, mbind, Worker.W_bind, mret, Worker.W_ret, Worker.fetch,
    Worker.lift. simpl.
  destruct (upstream (Route.sessions_request k)) as [response|e] eqn:Hup; simpl;
    [|by right].
  destruct (Worker.ok response) eqn:Hok; simpl; [|by right].
  destruct (JSON_parse (Worker.text response)) as [data|e] eqn:Hparse; simpl;
    [|by right].
  left. by exists response, data.
Qed.

(** X22. The endpoint always answers, never throws.  The answer is 200
    with the session as the upstream service gave it, which happens only
    when a key is configured, the upstream answered with a status in
    200-299 and its body was JSON; or it is 500 with one of two fixed
    bodies, so that nothing of the upstream failure reaches the client.
    Without a key (unset or empty) no request is made at all; with one,
    exactly one, which carries the key as bearer token. *)
Theorem GET_answers_200_or_a_fixed_500 `{Platform} (key : option string)
    (upstream : Worker.Network) :
  exists r,
    (Route.GET key upstream).2 = Normal r /\
    ((Route.status r = 200%Z /\
      exists k response,
        key = Some k /\ k ≠ "" /\
        upstream (Route.sessions_request k) = Normal response /\
        Worker.ok response = true /\
        JSON_parse (Worker.text response) = Normal (Route.body r))
     \/
     (Route.status r = 500%Z /\
      (Route.body r = JObject [ ("error", JString "Internal server error") ] \/
       Route.body r = JObject [ ("error", JString "Failed to create session") ]))) /\
    (truthy_string key = false -> fetched (Route.GET key upstream).1 = []) /\
    (forall k, key = Some k -> k ≠ "" ->
       exists request,
         fetched (Route.GET key upstream).1 = [ request ] /\
         Worker.url request = "https://api.openai.com/v1/realtime/sessions" /\
         Worker.method request = "POST" /\
         ("Authorization", "Bearer " +:+ k) ∈ Worker.headers request).
Proof.
  destruct (GET_cases key upstream)
    as [[Hkey ->]|(k & -> & Hk & [(response & data & Hup & Hok & Hparse & ->)| ->])];
    simpl.
  - eexists. split; [reflexivity|]. split_and!.
    + right. split; [done|]. by left.
    + done.
    + intros k -> Hk. simpl in Hkey. by destruct (String.eqb_spec k "").
  - eexists. split; [reflexivity|]. split_and!.
    + left. split; [done|]. by exists k, response.
    + simpl. by destruct (String.eqb_spec k "").
    + intros k' [= <-] _. eexists. split; [reflexivity|]. split_and!; try done.
      apply list_elem_of_here.
  - eexists. split; [reflexivity|]. split_and!.
    + right. split; [done|]. by right.
    + simpl. by destruct (String.eqb_spec k "").
    + intros k' [= <-] _. eexists. split; [reflexivity|]. split_and!; try done.
      apply list_elem_of_here.
Qed.

(** X23. Any failure of the endpoint reaches the user the same way.  The
    worker does not look at the status of the answer: a 500 carries no
    [client_secret], so the worker reports [Failed to get valid session
    token], and the page, having handled the worker's messages, shows
    status [Error] with that text, has created no peer connection and has
    asked the worker for nothing more.  (The answer travels as JSON text;
    it is read back as it was written.) *)
Theorem endpoint_failure_reaches_the_page `{Platform} (key : option string)
    (upstream net : Worker.Network) (origin : string) (browser : Page.Browser)
    (t0 t1 : Date) (r : Route.NextResponse) :
  (Route.GET key upstream).2 = Normal r ->
  Route.status r = 500%Z ->
  JSON_parse (JSON_stringify (Route.body r)) = Normal (Route.body r) ->
  net (session_request origin) = Normal (on_the_wire r) ->
  let answers :=
    worker_answers origin t0 net
      on_mount in
  let s := Page.run (Page.deliver t1 browser answers) Page.initial in
  last answers
    = Some {| to_main_type := ERROR; to_main_data := JUndefined;
              to_main_error := Some "Failed to get valid session token" |} /\
  Page.status s = "Error" /\
  Page.error s = Some "Failed to get valid session token" /\
  Page.peerConnection s = None /\
  Page.toWorker s = [].
Proof.
  intros Hr Hstatus Hround Hnet answers s.
  assert (Hbody : exists text, Route.body r = JObject [ ("error", JString text) ]).
  { destruct (GET_cases key upstream)
      as [[_ HG]|(k & _ & _ & [(response & data & _ & _ & _ & HG)|HG])];
      rewrite HG in Hr; simpl in Hr; injection Hr as <-; try done; by eexists. }
  destruct Hbody as [text Hbody].
  assert (Hanswers : exists log1 log2,
    answers
    = [ {| to_main_type := DEBUG_LOG; to_main_data := JString log1;
           to_main_error := None |};
        {| to_main_type := DEBUG_LOG; to_main_data := JString log2;
           to_main_error := None |};
        {| to_main_type := ERROR; to_main_data := JUndefined;
           to_main_error := Some "Failed to get valid session token" |} ]).
  { subst answers. unfold worker_answers, on_mount. simpl.
    unfold Worker.onmessage, Worker.getSessionToken, Worker.try_catch, mbind,
      Worker.W_bind, mret, Worker.W_ret, Worker.log, Worker.postMessage,
      Worker.fetch, Worker.lift, Worker.throw, Worker.posted. simpl.
    fold (session_request origin). rewrite Hnet. simpl.
    rewrite Hround, Hbody. simpl. by eexists _, _. }
  destruct Hanswers as (log1 & log2 & Hanswers).
  subst s. rewrite Hanswers. split; [done|].
  unfold Page.run, Page.deliver, Page.step. simpl. by split_and!.
Qed.

Lemma endpoint_failure_reaches_the_page_witness :
  let H := Reference.platform in
  let upstream : Worker.Network :=
    fun _ => Normal {| Worker.status := 401; Worker.text := "Incorrect API key" |} in
  let r := {| Route.status := 500;
              Route.body := JObject [ ("error", JString "Failed to create session") ] |} in
  let net : Worker.Network := fun _ => Normal (on_the_wire r) in
  let answers :=
    worker_answers "http://localhost:3000" 0%Z net
      on_mount in
  let s := Page.run (Page.deliver 1%Z Samples.browser answers) Page.initial in
  last answers
    = Some {| to_main_type := ERROR; to_main_data := JUndefined;
              to_main_error := Some "Failed to get valid session token" |} /\
  Page.status s = "Error" /\
  Page.error s = Some "Failed to get valid session token" /\
  Page.peerConnection s = None /\
  Page.toWorker s = [].
Proof.
  intros H upstream r net.
  apply (endpoint_failure_reaches_the_page (Some "sk-test") upstream net
           "http://localhost:3000" Samples.browser 0%Z 1%Z r).
  - by vm_compute.
  - reflexivity.
  - by vm_compute.
  - reflexivity.
Defined.

End RouteMore.
